(** * ppanel-server: order workflows and subscription rendering

    A shallow embedding of the order package (Purchase, Renewal, Recharge)
    and of the subscribe package (Handler and its helpers), with the
    properties of the order-pricing and fulfilment core stated over it.

    Go's [int64] is a [Z] whose arithmetic wraps around ([Int64.wrap]);
    Go's [float64] is an IEEE 754 binary64 number ([Float64]);
    the relational store is a record of finite maps and row lists; a
    request that returns [(resp, err)] returns a [Result]; the database
    transaction is a state-and-error computation whose partial writes
    are dropped by [Transaction] when its body fails. *)

From stdpp Require Import gmap strings list.
From Stdlib Require Import ZArith DecimalString.
From Stdlib Require SpecFloat.

Local Open Scope Z_scope.

(** ** Machine integers *)

Module Int64.
Definition min_int : Z := -9223372036854775808.
Definition max_int : Z := 9223372036854775807.
Definition modulus : Z := 18446744073709551616.

(** Two's-complement reduction of a mathematical integer to [int64]. *)
Definition wrap (z : Z) : Z :=
  (z + 9223372036854775808) mod modulus - 9223372036854775808.

Definition add (a b : Z) : Z := wrap (a + b).
Definition sub (a b : Z) : Z := wrap (a - b).
Definition mul (a b : Z) : Z := wrap (a * b).

Definition in_range (z : Z) : Prop := min_int <= z <= max_int.
End Int64.

(** ** Floating-point numbers *)

(** Go's [float64]: IEEE 754 binary64, with 53 bits of precision and
    rounding to nearest, ties to even. A finite number is a sign, a
    mantissa [m] and an exponent [e], and stands for [m * 2^e]. *)
Module Float64.
Definition prec : Z := 53.
Definition emax : Z := 1024.

Definition float64 : Type := SpecFloat.spec_float.

(** The constant [1]. *)
Definition one : float64 := SpecFloat.S754_finite false 4503599627370496 (-52).

(** [float64(z)] for an [int64] *)
Definition ofInt64 (z : Z) : float64 :=
  SpecFloat.binary_normalize prec emax z 0 false.

(** [x * y] *)
Definition mul (x y : float64) : float64 := SpecFloat.SFmul prec emax x y.

(** The integer part of a number, the fraction discarded; none for a
    NaN or an infinity. *)
Definition truncate (f : float64) : option Z :=
  match f with
  | SpecFloat.S754_zero _ => Some 0
  | SpecFloat.S754_finite s m e =>
      let a := if 0 <=? e then Z.pos m * 2 ^ e else Z.pos m / 2 ^ (- e) in
      Some (if s then - a else a)
  | _ => None
  end.
End Float64.

(** ** Errors and results *)

Module xerr.
(** The error codes of pkg/xerr that the modelled code raises. *)
Inductive Code :=
| ERROR
| InvalidAccess
| InvalidParams
| DatabaseQueryError
| DatabaseInsertError
| UserSubscribeExist
| SubscribeOutOfStock
| SubscribeQuotaLimit
| CouponNotExist
| CouponInsufficientUsage
| CouponNotApplicable
| Code500.
End xerr.

(** What a store call fails with: gorm's not-found, or anything else. *)
Inductive StoreError := ErrRecordNotFound | ErrStore.

(** [errors.Wrapf (xerr.NewErrCode c) ...] is [CodeError c];
    [errors.Wrapf err ...] on a store error is [Cause err];
    [errors.New msg] is [ErrorString msg]. *)
Inductive Error :=
| CodeError (c : xerr.Code)
| Cause (e : StoreError)
| ErrorString (msg : string).

Inductive Result (A : Type) :=
| Ok (a : A)
| Err (e : Error).
Arguments Ok {A} a.
Arguments Err {A} e.

#[global] Instance Result_ret : MRet Result := fun A a => Ok a.
#[global] Instance Result_bind : MBind Result :=
  fun A B f m => match m with Ok a => f a | Err e => Err e end.

(** [if cond { return nil, errors.Wrapf(xerr.NewErrCode(c), ...) }] *)
Definition reject (cond : bool) (c : xerr.Code) : Result unit :=
  if cond then Err (CodeError c) else Ok tt.

(** A store failure surfaced under an error code of the caller's. *)
Definition wrapCode {A} (c : xerr.Code) (r : Result A) : Result A :=
  match r with
  | Ok a => Ok a
  | Err _ => Err (CodeError c)
  end.

Definition isOk {A} (r : Result A) : bool :=
  match r with Ok _ => true | Err _ => false end.

(** ** The data model (internal/model) *)

Module user.
Record User := {
  Id : Z;
  GiftAmount : Z
}.
End user.

(** Go's [user.Subscribe]: a subscription a user holds. [ExpireTime] is
    kept as its Unix time in seconds. *)
Module usersubscribe.
Record Subscribe := {
  Id : Z;
  UserId : Z;
  OrderId : Z;
  SubscribeId : Z;
  Token : string;
  UUID : string;
  ExpireTime : Z;
  Upload : Z;
  Download : Z;
  Traffic : Z;
  Status : Z
}.
End usersubscribe.

(** Go's [subscribe.Subscribe]: a plan. [Sell] is a [*bool] in Go that
    the code dereferences without a nil check; rows have it set. *)
Module subscribe.
Record Subscribe := {
  Id : Z;
  Name : string;
  UnitPrice : Z;
  Discount : string;
  Inventory : Z;
  Quota : Z;
  Sell : bool;
  Nodes : string;
  NodeTags : string
}.

Definition withInventory (n : Z) (s : Subscribe) : Subscribe :=
  {| Id := Id s; Name := Name s; UnitPrice := UnitPrice s;
     Discount := Discount s; Inventory := n; Quota := Quota s;
     Sell := Sell s; Nodes := Nodes s; NodeTags := NodeTags s |}.
End subscribe.

Module coupon.
(** [Type_] and [Discount] are read by calculateCoupon only. *)
Record Coupon := {
  Code : string;
  Count : Z;
  UsedCount : Z;
  UserLimit : Z;
  Subscribe : string;
  Type_ : Z;
  Discount : Z
}.
End coupon.

Module payment.
(** The fee fields are read by calculateFee only. *)
Record Payment := {
  Id : Z;
  Platform : string;
  FeeMode : Z;
  FeePercent : Z;
  FeeAmount : Z
}.
End payment.

Module order.
Record Order := {
  UserId : Z;
  ParentId : Z;
  OrderNo : string;
  Type_ : Z;
  Quantity : Z;
  Price : Z;
  Amount : Z;
  GiftAmount : Z;
  Discount : Z;
  Coupon : string;
  CouponDiscount : Z;
  PaymentId : Z;
  Method : string;
  FeeAmount : Z;
  Status : Z;
  IsNew : bool;
  SubscribeId : Z;
  SubscribeToken : string
}.
End order.

Module log.
Inductive GiftType := GiftTypeIncrease | GiftTypeReduce.

Record Gift := {
  Type_ : GiftType;
  OrderNo : string;
  SubscribeId : Z;
  Amount : Z;
  Balance : Z;
  Remark : string;
  Timestamp : Z
}.

Record Subscribe := {
  Token : string;
  UserAgent : string;
  ClientIP : string;
  UserSubscribeId : Z
}.

Inductive LogType := TypeGift | TypeSubscribe.

(** [Content] is the marshalled log body; the model keeps the value
    that is marshalled. *)
Inductive Content :=
| GiftContent (g : Gift)
| SubscribeContent (s : Subscribe).

Record SystemLog := {
  LogType_ : LogType;
  Date : string;
  ObjectID : Z;
  Body : Content
}.
End log.

Module node.
Record Server := {
  ServerId : Z;
  ServerName : string;
  Protocols : string
}.

Record Node := {
  Name : string;
  Tags : string;
  Port : Z;
  Address : string;
  Server_ : option Server;
  Protocol : string;
  Enabled : option bool
}.
End node.

Module client.
Record SubscribeApplication := {
  UserAgent : string;
  IsDefault : bool;
  SubscribeTemplate : string;
  OutputFormat : string
}.
End client.

(** ** Request and response types (internal/types) *)

Module types.
Record PurchaseOrderRequest := {
  p_SubscribeId : Z;
  p_Quantity : Z;
  p_Payment : Z;
  p_Coupon : string
}.

Record RenewalOrderRequest := {
  r_UserSubscribeID : Z;
  r_Quantity : Z;
  r_Payment : Z;
  r_Coupon : string
}.

Record RechargeOrderRequest := {
  c_Amount : Z;
  c_Payment : Z
}.

(** The three order responses carry the order number alone. *)
Record OrderResponse := { OrderNo : string }.

Record SubscribeRequest := {
  Token : string;
  UA : string;
  Params : list (string * string)
}.

Record SubscribeResponse := {
  Config : string;
  Header : string
}.
End types.

(** ** The deferred-task queue (asynq) *)

Module queue.
Record Task := {
  Kind : string;
  PayloadOrderNo : string;
  MaxRetry : Z;
  ProcessInSeconds : Z
}.
End queue.

(** ** The store *)

Record Store := {
  users : gmap Z user.User;
  userSubscribes : gmap Z usersubscribe.Subscribe;
  subscribes : gmap Z subscribe.Subscribe;
  coupons : gmap string coupon.Coupon;
  payments : gmap Z payment.Payment;
  orders : list order.Order;
  systemLogs : list log.SystemLog
}.

Definition setUsers (f : gmap Z user.User) (s : Store) : Store :=
  {| users := f; userSubscribes := userSubscribes s;
     subscribes := subscribes s; coupons := coupons s;
     payments := payments s; orders := orders s;
     systemLogs := systemLogs s |}.

Definition setSubscribes (f : gmap Z subscribe.Subscribe) (s : Store) : Store :=
  {| users := users s; userSubscribes := userSubscribes s;
     subscribes := f; coupons := coupons s;
     payments := payments s; orders := orders s;
     systemLogs := systemLogs s |}.

Definition setOrders (l : list order.Order) (s : Store) : Store :=
  {| users := users s; userSubscribes := userSubscribes s;
     subscribes := subscribes s; coupons := coupons s;
     payments := payments s; orders := l;
     systemLogs := systemLogs s |}.

Definition setSystemLogs (l : list log.SystemLog) (s : Store) : Store :=
  {| users := users s; userSubscribes := userSubscribes s;
     subscribes := subscribes s; coupons := coupons s;
     payments := payments s; orders := orders s;
     systemLogs := l |}.

(** The world a request runs against: the database and the task queue. *)
Record World := {
  db : Store;
  tasks : list queue.Task
}.

Definition setDb (s : Store) (w : World) : World :=
  {| db := s; tasks := tasks w |}.

Definition setTasks (q : list queue.Task) (w : World) : World :=
  {| db := db w; tasks := q |}.

(** ** The adapter (package adapter) *)

Module adapter.
Record User := {
  Password : string;
  ExpiredAt : Z;
  Download : Z;
  Upload : Z;
  Traffic : Z;
  SubscribeURL : string
}.

(** [adapter.NewAdapter(tpl, WithServers(..), ...)]: the options set. *)
Record Adapter := {
  Template : string;
  Servers : list node.Node;
  SiteName : string;
  SubscribeName : string;
  OutputFormat : string;
  UserInfo : User;
  Params : list (string * string)
}.
End adapter.

(** ** Functions and constants that are called and not modelled

    getDiscount, calculateCoupon and calculateFee (order package), the
    JSON decoding of the plan's discount tiers, the task kind
    queue.DeferCloseOrder, the functions of pkg/tool, strings.ToLower,
    url.QueryEscape, and the adapter's Client and Build ([None] when
    they return an error) are parameters of the model. So is the
    result of [int64(f)] for a float64 that no int64 holds (a NaN, an
    infinity, a number beyond the range), which Go leaves to the
    implementation. *)

Class Helpers := {
  SubscribeDiscount : Type;
  (** [json.Unmarshal([]byte(sub.Discount), &dis)], its error dropped *)
  unmarshalDiscount : string -> list SubscribeDiscount;
  getDiscount : list SubscribeDiscount -> Z -> Float64.float64;
  (** [int64(f)] where no int64 holds [f] *)
  int64Unrepresentable : Float64.float64 -> Z;
  calculateCoupon : Z -> coupon.Coupon -> Z;
  calculateFee : Z -> payment.Payment -> Z;
  DeferCloseOrder : string;
  StringToInt64Slice : string -> list Z;
  RemoveStringElement : list string -> string -> list string;
  RemoveDuplicateElements : list string -> list string;
  ToLower : string -> string;
  QueryEscape : string -> string;
  AdapterClient : Type;
  Client : adapter.Adapter -> option AdapterClient;
  Build : AdapterClient -> option string
}.

(** [int64(f)]: the integer part of [f]. *)
Definition toInt64 `{Helpers} (f : Float64.float64) : Z :=
  match Float64.truncate f with
  | Some z =>
      if (Int64.min_int <=? z) && (z <=? Int64.max_int) then z
      else int64Unrepresentable f
  | None => int64Unrepresentable f
  end.

(** [int64(float64(price) * discount)] *)
Definition scaleAmount `{Helpers} (price : Z) (discount : Float64.float64) : Z :=
  toInt64 (Float64.mul (Float64.ofInt64 price) discount).

(** Modelled from the spec: tool.Contains is missing; it is the
    membership test behind "must apply to the target plan (empty
    allow-list means universal)". *)
Definition Contains (l : list Z) (x : Z) : bool :=
  existsb (Z.eqb x) l.

(** ** What a request finds around it *)

(** Which store or queue calls fail during the request. *)
Record Faults := {
  failQueryUserSubscribe : bool;
  failFindOneUserSubscribe : bool;
  failSubscribeFindOne : bool;
  failCouponFindOneByCode : bool;
  failOrderCount : bool;
  failPaymentFindOne : bool;
  failIsUserEligibleForNewOrder : bool;
  failUserUpdate : bool;
  failSystemLogCreate : bool;
  failSubscribeUpdate : bool;
  failOrderCreate : bool;
  failEnqueue : bool
}.

Record Env := {
  failing : Faults;
  (** [svcCtx.Config.Subscribe.SingleModel] *)
  SingleModel : bool;
  (** the value [tool.GenerateTradeNo()] returns to this request *)
  GenerateTradeNo : string;
  (** [time.Now().UnixMilli()] and [time.Now().Format(time.DateOnly)] *)
  nowUnixMilli : Z;
  today : string;
  (** the rows [UserModel.QueryUserSubscribe] returns for a user id *)
  QueryUserSubscribeRows : Z -> list usersubscribe.Subscribe;
  (** the answer of [OrderModel.IsUserEligibleForNewOrder] for a user id *)
  IsUserEligibleForNewOrderAnswer : Z -> bool
}.

(** ** The order package (internal/logic/public/order) *)

Definition MaxOrderAmount : Z := 2147483647.
Definition MaxRechargeAmount : Z := 2000000000.
Definition MaxQuantity : Z := 1000.
Definition CloseOrderTimeMinutes : Z := 15.

Section OrderLogic.
Context `{Helpers}.
Variable env : Env.

(** *** Store reads *)

Definition QueryUserSubscribe (userId : Z) : Result (list usersubscribe.Subscribe) :=
  if failQueryUserSubscribe (failing env) then Err (Cause ErrStore)
  else Ok (QueryUserSubscribeRows env userId).

Definition FindOneUserSubscribe (s : Store) (id : Z) : Result usersubscribe.Subscribe :=
  if failFindOneUserSubscribe (failing env) then Err (Cause ErrStore)
  else match userSubscribes s !! id with
       | Some us => Ok us
       | None => Err (Cause ErrRecordNotFound)
       end.

Definition SubscribeFindOne (s : Store) (id : Z) : Result subscribe.Subscribe :=
  if failSubscribeFindOne (failing env) then Err (Cause ErrStore)
  else match subscribes s !! id with
       | Some p => Ok p
       | None => Err (Cause ErrRecordNotFound)
       end.

Definition CouponFindOneByCode (s : Store) (code : string) : Result coupon.Coupon :=
  if failCouponFindOneByCode (failing env) then Err (Cause ErrStore)
  else match coupons s !! code with
       | Some c => Ok c
       | None => Err (Cause ErrRecordNotFound)
       end.

Definition PaymentFindOne (s : Store) (id : Z) : Result payment.Payment :=
  if failPaymentFindOne (failing env) then Err (Cause ErrStore)
  else match payments s !! id with
       | Some p => Ok p
       | None => Err (Cause ErrRecordNotFound)
       end.

Definition IsUserEligibleForNewOrder (userId : Z) : Result bool :=
  if failIsUserEligibleForNewOrder (failing env) then Err (Cause ErrStore)
  else Ok (IsUserEligibleForNewOrderAnswer env userId).

(** [tx.Model(&order.Order{}).Where("user_id = ? and coupon = ?", ...).Count(&count)] *)
Definition couponOrders (s : Store) (userId : Z) (code : string) : list order.Order :=
  List.filter
    (fun o => (order.UserId o =? userId) && String.eqb (order.Coupon o) code)
    (orders s).

Definition CountCouponOrders (s : Store) (userId : Z) (code : string) : Result Z :=
  if failOrderCount (failing env) then Err (Cause ErrStore)
  else Ok (Z.of_nat (length (couponOrders s userId code))).

(** *** Shared steps of Purchase and Renewal *)

(** [if req.Quantity <= 0 { req.Quantity = 1 }] *)
Definition normalizeQuantity (q : Z) : Z :=
  if q <=? 0 then 1 else q.

(** The tier discount of a plan for a quantity:
    [var discount float64 = 1; if sub.Discount != "" {...}]. *)
Definition planDiscount (sub : subscribe.Subscribe) (quantity : Z)
    : Float64.float64 :=
  if String.eqb (subscribe.Discount sub) "" then Float64.one
  else getDiscount (unmarshalDiscount (subscribe.Discount sub)) quantity.

(** The coupon block: [var coupon int64 = 0; if req.Coupon != "" {...}].
    [planId] is [req.SubscribeId] in Purchase and [sub.Id] in Renewal. *)
Definition couponStage (s : Store) (u : user.User) (planId : Z)
    (code : string) (amount : Z) : Result Z :=
  if String.eqb code "" then Ok 0
  else
    match CouponFindOneByCode s code with
    | Err (Cause ErrRecordNotFound) => Err (CodeError xerr.CouponNotExist)
    | Err _ => Err (CodeError xerr.DatabaseQueryError)
    | Ok couponInfo =>
        reject (negb (coupon.Count couponInfo =? 0)
                && (coupon.Count couponInfo <=? coupon.UsedCount couponInfo))
               xerr.CouponInsufficientUsage ;;
        let couponSub := StringToInt64Slice (coupon.Subscribe couponInfo) in
        reject ((0 <? Z.of_nat (length couponSub))
                && negb (Contains couponSub planId))
               xerr.CouponNotApplicable ;;
        count ← wrapCode xerr.DatabaseQueryError
                  (CountCouponOrders s (user.Id u) code);
        reject (coupon.UserLimit couponInfo <=? count)
               xerr.CouponInsufficientUsage ;;
        Ok (Int64.wrap (calculateCoupon amount couponInfo))
    end.

(** The gift block: [(deductionAmount, amount, u.GiftAmount)] after
    [if u.GiftAmount > 0 { if u.GiftAmount >= amount {...} else {...} }]. *)
Definition giftDeduct (gift amount : Z) : Z * Z * Z :=
  if 0 <? gift then
    if amount <=? gift then (amount, 0, Int64.sub gift amount)
    else (gift, Int64.sub amount gift, 0)
  else (0, amount, gift).

Definition withGiftAmount (g : Z) (u : user.User) : user.User :=
  {| user.Id := user.Id u; user.GiftAmount := g |}.

(** The running values once the coupon and the gift balance have been
    taken off: [amount -= coupon], then the gift block. *)
Record Quote := {
  q_coupon : Z;
  q_afterCoupon : Z;
  q_deduction : Z;
  q_remainder : Z;
  q_gift : Z
}.

Definition quote (gift amount coupon : Z) : Quote :=
  let amount1 := Int64.sub amount coupon in
  let '(deductionAmount, amount2, gift1) := giftDeduct gift amount1 in
  {| q_coupon := coupon; q_afterCoupon := amount1;
     q_deduction := deductionAmount; q_remainder := amount2;
     q_gift := gift1 |}.

(** *** The transaction *)

(** A transaction body runs against the store and may stop half way,
    leaving the writes made so far. *)
Definition Tx : Type := Store -> Store * option StoreError.

Definition txSeq (a b : Tx) : Tx :=
  fun s => match a s with
           | (s1, None) => b s1
           | (s1, Some e) => (s1, Some e)
           end.

Definition txSkip : Tx := fun s => (s, None).

(** [DB.Transaction(fn)]: commit what [fn] wrote when it returns nil,
    roll back to the store before it otherwise. *)
Definition Transaction (body : Tx) : Tx :=
  fun s => match body s with
           | (s1, None) => (s1, None)
           | (_, Some e) => (s, Some e)
           end.

Definition UserUpdate (u : user.User) : Tx :=
  fun s => if failUserUpdate (failing env) then (s, Some ErrStore)
           else (setUsers (<[user.Id u := u]> (users s)) s, None).

Definition SystemLogCreate (l : log.SystemLog) : Tx :=
  fun s => if failSystemLogCreate (failing env) then (s, Some ErrStore)
           else (setSystemLogs (systemLogs s ++ [l]) s, None).

Definition SubscribeUpdate (p : subscribe.Subscribe) : Tx :=
  fun s => if failSubscribeUpdate (failing env) then (s, Some ErrStore)
           else (setSubscribes (<[subscribe.Id p := p]> (subscribes s)) s, None).

Definition OrderCreate (o : order.Order) : Tx :=
  fun s => if failOrderCreate (failing env) then (s, Some ErrStore)
           else (setOrders (orders s ++ [o]) s, None).

Definition giftLog (remark : string) (u : user.User) (o : order.Order) : log.SystemLog :=
  {| log.LogType_ := log.TypeGift;
     log.Date := today env;
     log.ObjectID := user.Id u;
     log.Body := log.GiftContent
       {| log.Type_ := log.GiftTypeReduce;
          log.OrderNo := order.OrderNo o;
          log.SubscribeId := 0;
          log.Amount := order.GiftAmount o;
          log.Balance := user.GiftAmount u;
          log.Remark := remark;
          log.Timestamp := nowUnixMilli env |} |}.

(** [if orderInfo.GiftAmount > 0 { Update(u); Create(giftLog) }] *)
Definition giftWrites (remark : string) (u : user.User) (o : order.Order) : Tx :=
  if 0 <? order.GiftAmount o then
    txSeq (UserUpdate u) (SystemLogCreate (giftLog remark u o))
  else txSkip.

(** *** The deferred close-order task *)

Definition closeOrderTask (orderNo : string) : queue.Task :=
  {| queue.Kind := DeferCloseOrder;
     queue.PayloadOrderNo := orderNo;
     queue.MaxRetry := 3;
     queue.ProcessInSeconds := CloseOrderTimeMinutes * 60 |}.

Definition Enqueue (t : queue.Task) (q : list queue.Task)
    : list queue.Task * option StoreError :=
  if failEnqueue (failing env) then (q, Some ErrStore)
  else (q ++ [t], None).

(** The tail of the three workflows: enqueue, log the outcome either
    way, go on to return the order number. *)
Definition deferCloseOrder (orderNo : string) (w : World) : World :=
  let '(q, _) := Enqueue (closeOrderTask orderNo) (tasks w) in
  setTasks q w.

(** *** Purchase *)

(** What Purchase knows once the plan checks and the first ceiling
    check have passed. *)
Record Guarded := {
  g_user : user.User;
  g_quantity : Z;
  g_sub : subscribe.Subscribe;
  g_price : Z;
  g_amount : Z;
  g_discountAmount : Z
}.

(** [for _, v := range userSub { if v.SubscribeId == id { count += 1 } }] *)
Definition quotaCount (userSub : list usersubscribe.Subscribe) (id : Z) : Z :=
  Z.of_nat (length (List.filter
    (fun v => usersubscribe.SubscribeId v =? id) userSub)).

(** Purchase from its first line to the ceiling check that follows
    the discount. *)
Definition purchaseGuard (s : Store) (ctxUser : option user.User)
    (req : types.PurchaseOrderRequest) : Result Guarded :=
  match ctxUser with
  | None => Err (CodeError xerr.InvalidAccess)
  | Some u =>
      let quantity := normalizeQuantity (types.p_Quantity req) in
      reject (MaxQuantity <? quantity) xerr.InvalidParams ;;
      userSub ← wrapCode xerr.DatabaseQueryError
                  (QueryUserSubscribe (user.Id u));
      reject (SingleModel env && (0 <? Z.of_nat (length userSub)))
             xerr.UserSubscribeExist ;;
      sub ← wrapCode xerr.DatabaseQueryError
              (SubscribeFindOne s (types.p_SubscribeId req));
      reject (negb (subscribe.Sell sub)) xerr.ERROR ;;
      reject (subscribe.Inventory sub =? 0) xerr.SubscribeOutOfStock ;;
      reject ((0 <? subscribe.Quota sub)
              && (subscribe.Quota sub
                  <=? quotaCount userSub (types.p_SubscribeId req)))
             xerr.SubscribeQuotaLimit ;;
      let discount := planDiscount sub quantity in
      let price := Int64.mul (subscribe.UnitPrice sub) quantity in
      let amount := Int64.wrap (scaleAmount price discount) in
      let discountAmount := Int64.sub price amount in
      reject (MaxOrderAmount <? amount) xerr.InvalidParams ;;
      Ok {| g_user := u; g_quantity := quantity; g_sub := sub;
            g_price := price; g_amount := amount;
            g_discountAmount := discountAmount |}
  end.

(** The fee block of Purchase: [(feeAmount, amount)]. *)
Definition purchaseFee (amount : Z) (pay : payment.Payment) : Result (Z * Z) :=
  if 0 <? amount then
    let feeAmount := Int64.wrap (calculateFee amount pay) in
    let amount := Int64.add amount feeAmount in
    reject (MaxOrderAmount <? amount) xerr.InvalidParams ;;
    Ok (feeAmount, amount)
  else Ok (0, amount).

(** What a workflow hands to its transaction: the user as the gift
    block left it, the plan, the order record, and the values the
    variable [amount] took, oldest first. *)
Record Prepared := {
  pr_user : user.User;
  pr_sub : subscribe.Subscribe;
  pr_order : order.Order;
  pr_stages : list Z
}.

(** Purchase up to and including the gift block. *)
Definition purchaseQuote (s : Store) (ctxUser : option user.User)
    (req : types.PurchaseOrderRequest) : Result (Guarded * Quote) :=
  g ← purchaseGuard s ctxUser req;
  coupon ← couponStage s (g_user g) (types.p_SubscribeId req)
             (types.p_Coupon req) (g_amount g);
  Ok (g, quote (user.GiftAmount (g_user g)) (g_amount g) coupon).

Definition purchasePrepare (s : Store) (ctxUser : option user.User)
    (req : types.PurchaseOrderRequest) : Result Prepared :=
  '(g, q) ← purchaseQuote s ctxUser req;
  let u := g_user g in
  pay ← wrapCode xerr.DatabaseQueryError
          (PaymentFindOne s (types.p_Payment req));
  '(feeAmount, amount3) ← purchaseFee (q_remainder q) pay;
  isNew ← wrapCode xerr.DatabaseQueryError
            (IsUserEligibleForNewOrder (user.Id u));
  Ok {| pr_user := withGiftAmount (q_gift q) u;
        pr_sub := g_sub g;
        pr_order :=
          {| order.UserId := user.Id u;
             order.ParentId := 0;
             order.OrderNo := GenerateTradeNo env;
             order.Type_ := 1;
             order.Quantity := g_quantity g;
             order.Price := g_price g;
             order.Amount := amount3;
             order.GiftAmount := q_deduction q;
             order.Discount := g_discountAmount g;
             order.Coupon := types.p_Coupon req;
             order.CouponDiscount := q_coupon q;
             order.PaymentId := payment.Id pay;
             order.Method := payment.Platform pay;
             order.FeeAmount := feeAmount;
             order.Status := 1;
             order.IsNew := isNew;
             order.SubscribeId := types.p_SubscribeId req;
             order.SubscribeToken := "" |};
        pr_stages := [g_amount g; q_afterCoupon q; q_remainder q; amount3] |}.

(** [if sub.Inventory != -1 { sub.Inventory -= 1; Update(sub) }] *)
Definition inventoryWrite (sub : subscribe.Subscribe) : Tx :=
  if negb (subscribe.Inventory sub =? -1) then
    SubscribeUpdate
      (subscribe.withInventory (Int64.sub (subscribe.Inventory sub) 1) sub)
  else txSkip.

Definition purchaseTx (p : Prepared) : Tx :=
  txSeq (giftWrites "Purchase order deduction" (pr_user p) (pr_order p))
    (txSeq (inventoryWrite (pr_sub p))
           (OrderCreate (pr_order p))).

Definition Purchase (w : World) (ctxUser : option user.User)
    (req : types.PurchaseOrderRequest) : World * Result types.OrderResponse :=
  match purchasePrepare (db w) ctxUser req with
  | Err e => (w, Err e)
  | Ok p =>
      let '(s1, r) := Transaction (purchaseTx p) (db w) in
      let w1 := setDb s1 w in
      match r with
      | Some _ => (w1, Err (CodeError xerr.DatabaseInsertError))
      | None =>
          (deferCloseOrder (order.OrderNo (pr_order p)) w1,
           Ok {| types.OrderNo := order.OrderNo (pr_order p) |})
      end
  end.

(** *** Renewal *)

Record RenewalGuarded := {
  rg_user : user.User;
  rg_quantity : Z;
  rg_userSubscribe : usersubscribe.Subscribe;
  rg_sub : subscribe.Subscribe;
  rg_price : Z;
  rg_amount : Z;
  rg_discountAmount : Z
}.

(** Renewal from its first line to the ceiling check that follows the
    discount. *)
Definition renewalGuard (s : Store) (ctxUser : option user.User)
    (req : types.RenewalOrderRequest) : Result RenewalGuarded :=
  match ctxUser with
  | None => Err (CodeError xerr.InvalidAccess)
  | Some u =>
      let quantity := normalizeQuantity (types.r_Quantity req) in
      reject (MaxQuantity <? quantity) xerr.InvalidParams ;;
      userSubscribe ← wrapCode xerr.DatabaseQueryError
                        (FindOneUserSubscribe s (types.r_UserSubscribeID req));
      sub ← wrapCode xerr.DatabaseQueryError
              (SubscribeFindOne s (usersubscribe.SubscribeId userSubscribe));
      reject (negb (subscribe.Sell sub)) xerr.ERROR ;;
      let discount := planDiscount sub quantity in
      let price := Int64.mul (subscribe.UnitPrice sub) quantity in
      let amount := Int64.wrap (scaleAmount price discount) in
      let discountAmount := Int64.sub price amount in
      reject (MaxOrderAmount <? amount) xerr.InvalidParams ;;
      Ok {| rg_user := u; rg_quantity := quantity;
            rg_userSubscribe := userSubscribe; rg_sub := sub;
            rg_price := price; rg_amount := amount;
            rg_discountAmount := discountAmount |}
  end.

(** The fee block of Renewal: [(feeAmount, amount)]. *)
Definition renewalFee (amount : Z) (pay : payment.Payment) : Result (Z * Z) :=
  let feeAmount :=
    if 0 <? amount then Int64.wrap (calculateFee amount pay) else 0 in
  let amount := Int64.add amount feeAmount in
  reject (MaxOrderAmount <? amount) xerr.InvalidParams ;;
  Ok (feeAmount, amount).

(** Renewal up to and including the gift block; the payment method
    is looked up between the coupon block and [amount -= coupon]. *)
Definition renewalQuote (s : Store) (ctxUser : option user.User)
    (req : types.RenewalOrderRequest)
    : Result (RenewalGuarded * payment.Payment * Quote) :=
  g ← renewalGuard s ctxUser req;
  coupon ← couponStage s (rg_user g) (subscribe.Id (rg_sub g))
             (types.r_Coupon req) (rg_amount g);
  pay ← wrapCode xerr.DatabaseQueryError
          (PaymentFindOne s (types.r_Payment req));
  Ok (g, pay, quote (user.GiftAmount (rg_user g)) (rg_amount g) coupon).

Definition renewalPrepare (s : Store) (ctxUser : option user.User)
    (req : types.RenewalOrderRequest) : Result Prepared :=
  '(g, pay, q) ← renewalQuote s ctxUser req;
  let u := rg_user g in
  '(feeAmount, amount3) ← renewalFee (q_remainder q) pay;
  Ok {| pr_user := withGiftAmount (q_gift q) u;
        pr_sub := rg_sub g;
        pr_order :=
          {| order.UserId := user.Id u;
             order.ParentId := usersubscribe.OrderId (rg_userSubscribe g);
             order.OrderNo := GenerateTradeNo env;
             order.Type_ := 2;
             order.Quantity := rg_quantity g;
             order.Price := rg_price g;
             order.Amount := amount3;
             order.GiftAmount := q_deduction q;
             order.Discount := rg_discountAmount g;
             order.Coupon := types.r_Coupon req;
             order.CouponDiscount := q_coupon q;
             order.PaymentId := payment.Id pay;
             order.Method := payment.Platform pay;
             order.FeeAmount := feeAmount;
             order.Status := 1;
             order.IsNew := false;
             order.SubscribeId := usersubscribe.SubscribeId (rg_userSubscribe g);
             order.SubscribeToken := usersubscribe.Token (rg_userSubscribe g) |};
        pr_stages := [rg_amount g; q_afterCoupon q; q_remainder q; amount3] |}.

Definition renewalTx (p : Prepared) : Tx :=
  txSeq (giftWrites "Renewal order deduction" (pr_user p) (pr_order p))
        (OrderCreate (pr_order p)).

Definition Renewal (w : World) (ctxUser : option user.User)
    (req : types.RenewalOrderRequest) : World * Result types.OrderResponse :=
  match renewalPrepare (db w) ctxUser req with
  | Err e => (w, Err e)
  | Ok p =>
      let '(s1, r) := Transaction (renewalTx p) (db w) in
      let w1 := setDb s1 w in
      match r with
      | Some e => (w1, Err (Cause e))
      | None =>
          (deferCloseOrder (order.OrderNo (pr_order p)) w1,
           Ok {| types.OrderNo := order.OrderNo (pr_order p) |})
      end
  end.

(** *** Recharge *)

Definition rechargePrepare (s : Store) (ctxUser : option user.User)
    (req : types.RechargeOrderRequest) : Result (order.Order * list Z) :=
  match ctxUser with
  | None => Err (CodeError xerr.InvalidAccess)
  | Some u =>
      reject (types.c_Amount req <=? 0) xerr.InvalidParams ;;
      reject (MaxRechargeAmount <? types.c_Amount req) xerr.InvalidParams ;;
      pay ← PaymentFindOne s (types.c_Payment req);
      let feeAmount := Int64.wrap (calculateFee (types.c_Amount req) pay) in
      let totalAmount := Int64.add (types.c_Amount req) feeAmount in
      reject (MaxOrderAmount <? totalAmount) xerr.InvalidParams ;;
      isNew ← IsUserEligibleForNewOrder (user.Id u);
      Ok ({| order.UserId := user.Id u;
             order.ParentId := 0;
             order.OrderNo := GenerateTradeNo env;
             order.Type_ := 4;
             order.Quantity := 0;
             order.Price := types.c_Amount req;
             order.Amount := totalAmount;
             order.GiftAmount := 0;
             order.Discount := 0;
             order.Coupon := "";
             order.CouponDiscount := 0;
             order.PaymentId := payment.Id pay;
             order.Method := payment.Platform pay;
             order.FeeAmount := feeAmount;
             order.Status := 1;
             order.IsNew := isNew;
             order.SubscribeId := 0;
             order.SubscribeToken := "" |},
          [types.c_Amount req; totalAmount])
  end.

(** Recharge writes with [OrderModel.Insert], outside a transaction. *)
Definition Recharge (w : World) (ctxUser : option user.User)
    (req : types.RechargeOrderRequest) : World * Result types.OrderResponse :=
  match rechargePrepare (db w) ctxUser req with
  | Err e => (w, Err e)
  | Ok (orderInfo, _) =>
      let '(s1, r) := OrderCreate orderInfo (db w) in
      let w1 := setDb s1 w in
      match r with
      | Some e => (w1, Err (Cause e))
      | None =>
          (deferCloseOrder (order.OrderNo orderInfo) w1,
           Ok {| types.OrderNo := order.OrderNo orderInfo |})
      end
  end.

End OrderLogic.

(** ** The subscribe package (internal/logic/subscribe) *)

(** [strings.Contains s substr] *)
Fixpoint stringsContains (s substr : string) : bool :=
  String.prefix substr s
  || match s with
     | EmptyString => false
     | String _ t => stringsContains t substr
     end.

(** [strings.Split s sep] for a one-byte separator: never empty. *)
Fixpoint stringsSplit (s : string) (sep : Ascii.ascii) : list string :=
  match s with
  | EmptyString => [EmptyString]
  | String a t =>
      let r := stringsSplit t sep in
      if Ascii.eqb a sep then EmptyString :: r
      else match r with
           | h :: tl => String a h :: tl
           | [] => [String a EmptyString]
           end
  end.

Definition newline : Ascii.ascii := Ascii.ascii_of_nat 10.
Definition comma : Ascii.ascii := Ascii.ascii_of_nat 44.

(** The double quote, for string literals that contain it. *)
Definition dquote : string := String (Ascii.ascii_of_nat 34) EmptyString.

(** [%d] of fmt.Sprintf *)
Definition formatInt (z : Z) : string := NilZero.string_of_int (Z.to_int z).


Record SubscribeFaults := {
  failSubscribeInfo : bool;
  failSubscribeDetails : bool;
  failLogInsert : bool
}.

Record SubscribeEnv := {
  sfailing : SubscribeFaults;
  (** [svc.ClientModel.List] *)
  ClientList : Result (list client.SubscribeApplication);
  (** the gin request *)
  RequestUserAgent : string;
  RequestURI : string;
  RequestHost : string;
  RequestClientIP : string;
  (** [report.IsGatewayMode()] *)
  IsGatewayMode : bool;
  (** [svc.Config]: Site.SiteName, Subscribe.SubscribeDomain, Host *)
  ConfigSiteName : string;
  ConfigSubscribeDomain : string;
  ConfigHost : string;
  (** [svc.UserModel.FindOneSubscribeByToken]: an error, a nil row, or a row *)
  FindOneSubscribeByToken : string -> Result (option usersubscribe.Subscribe);
  (** [svc.NodeModel.FilterNodeList] for node ids and tags, enabled nodes only *)
  FilterNodeList : list Z -> list string -> Result (list node.Node);
  (** [time.Now().Unix()] and [time.Now().Format(time.DateOnly)] *)
  snow : Z;
  stoday : string
}.

Section SubscribeLogic.
Context `{Helpers}.
Variable env : SubscribeEnv.

Definition firstOf (l : list string) (dflt : string) : string :=
  match l with
  | x :: _ => x
  | [] => dflt
  end.

Definition getSubscribeV2URL : string :=
  let uri := RequestURI env in
  let uri := if IsGatewayMode env then "/sub" +:+ uri else uri in
  if negb (String.eqb (ConfigSubscribeDomain env) "") then
    "https://" +:+ firstOf (stringsSplit (ConfigSubscribeDomain env) newline) ""
      +:+ uri
  else "https://" +:+ RequestHost env +:+ uri.

(** The status check of the subscription is commented out in the
    source: a row of any status is returned. *)
Definition getUserSubscribe (token : string) : Result usersubscribe.Subscribe :=
  match FindOneSubscribeByToken env token with
  | Err _ => Err (CodeError xerr.DatabaseQueryError)
  | Ok None => Err (ErrorString "subscribe token invalid")
  | Ok (Some userSub) => Ok userSub
  end.

Definition isSubscriptionExpired (userSub : usersubscribe.Subscribe) : bool :=
  (usersubscribe.ExpireTime userSub <? snow env)
  && negb (usersubscribe.ExpireTime userSub =? 0).

Definition getFirstHostLine : string :=
  let host := ConfigHost env in
  let lines := stringsSplit host newline in
  if 0 <? Z.of_nat (length lines) then firstOf lines host else host.

Definition expiredServer : node.Server :=
  {| node.ServerId := 1;
     node.ServerName := "Subscribe Expired";
     node.Protocols :=
       "[{" +:+ dquote +:+ "type" +:+ dquote +:+ ":" +:+ dquote +:+ "shadowsocks"
       +:+ dquote +:+ "," +:+ dquote +:+ "cipher" +:+ dquote +:+ ":" +:+ dquote
       +:+ "aes-256-gcm" +:+ dquote +:+ "," +:+ dquote +:+ "port" +:+ dquote
       +:+ ":1}]" |}.

Definition createExpiredServers : list node.Node :=
  let enable := true in
  let host := getFirstHostLine in
  [ {| node.Name := "Subscribe Expired";
       node.Tags := "";
       node.Port := 18080;
       node.Address := "127.0.0.1";
       node.Server_ := Some expiredServer;
       node.Protocol := "shadowsocks";
       node.Enabled := Some enable |};
    {| node.Name := host;
       node.Tags := "";
       node.Port := 18080;
       node.Address := "127.0.0.1";
       node.Server_ := Some expiredServer;
       node.Protocol := "shadowsocks";
       node.Enabled := Some enable |} ].

Definition findSubscribe (fails : bool) (s : Store) (id : Z)
    : Result subscribe.Subscribe :=
  if fails then Err (Cause ErrStore)
  else match subscribes s !! id with
       | Some p => Ok p
       | None => Err (Cause ErrRecordNotFound)
       end.

Definition getServers (s : Store) (userSub : usersubscribe.Subscribe)
    : Result (list node.Node) :=
  if isSubscriptionExpired userSub then Ok createExpiredServers
  else
    subDetails ← wrapCode xerr.DatabaseQueryError
                   (findSubscribe (failSubscribeDetails (sfailing env)) s
                      (usersubscribe.SubscribeId userSub));
    let nodeIds := StringToInt64Slice (subscribe.Nodes subDetails) in
    let tags := RemoveStringElement
                  (stringsSplit (subscribe.NodeTags subDetails) comma) "" in
    if (Z.of_nat (length nodeIds) =? 0) && (Z.of_nat (length tags) =? 0)
    then Ok []
    else wrapCode xerr.DatabaseQueryError
           (FilterNodeList env nodeIds (RemoveDuplicateElements tags)).

(** The client loop of Handler: [(targetApp, defaultApp)]. *)
Fixpoint selectApp (userAgent : string)
    (clients : list client.SubscribeApplication)
    (defaultApp : option client.SubscribeApplication)
    : option client.SubscribeApplication * option client.SubscribeApplication :=
  match clients with
  | [] => (None, defaultApp)
  | item :: rest =>
      let u := ToLower (client.UserAgent item) in
      let defaultApp := if client.IsDefault item then Some item else defaultApp in
      if stringsContains userAgent u then
        if stringsContains userAgent "stash" && negb (stringsContains u "stash")
        then selectApp userAgent rest defaultApp
        else (Some item, defaultApp)
      else selectApp userAgent rest defaultApp
  end.

Definition chooseApp (userAgent : string)
    (clients : list client.SubscribeApplication)
    : Result client.SubscribeApplication :=
  match selectApp userAgent clients None with
  | (Some targetApp, _) => Ok targetApp
  | (None, Some defaultApp) => Ok defaultApp
  | (None, None) => Err (CodeError xerr.ERROR)
  end.

Definition newAdapter (targetApp : client.SubscribeApplication)
    (servers : list node.Node) (subscribeInfo : subscribe.Subscribe)
    (userSubscribe : usersubscribe.Subscribe) (req : types.SubscribeRequest)
    : adapter.Adapter :=
  {| adapter.Template := client.SubscribeTemplate targetApp;
     adapter.Servers := servers;
     adapter.SiteName := ConfigSiteName env;
     adapter.SubscribeName := subscribe.Name subscribeInfo;
     adapter.OutputFormat := client.OutputFormat targetApp;
     adapter.UserInfo :=
       {| adapter.Password := usersubscribe.UUID userSubscribe;
          adapter.ExpiredAt := usersubscribe.ExpireTime userSubscribe;
          adapter.Download := usersubscribe.Download userSubscribe;
          adapter.Upload := usersubscribe.Upload userSubscribe;
          adapter.Traffic := usersubscribe.Traffic userSubscribe;
          adapter.SubscribeURL := getSubscribeV2URL |};
     adapter.Params := types.Params req |}.

(** The response headers set for the file formats. *)
Definition formatHeaders (targetApp : client.SubscribeApplication)
    : list (string * string) :=
  flat_map
    (fun format =>
       if String.eqb format (ToLower (client.OutputFormat targetApp)) then
         [ ("content-disposition",
            "attachment;filename*=UTF-8''" +:+ QueryEscape (ConfigSiteName env)
              +:+ "." +:+ format);
           ("Content-Type", "application/octet-stream; charset=UTF-8") ]
       else [])
    ["json"; "yaml"; "conf"].

Definition subscribeHeader (userSubscribe : usersubscribe.Subscribe) : string :=
  "upload=" +:+ formatInt (usersubscribe.Upload userSubscribe)
  +:+ ";download=" +:+ formatInt (usersubscribe.Download userSubscribe)
  +:+ ";total=" +:+ formatInt (usersubscribe.Traffic userSubscribe)
  +:+ ";expire=" +:+ formatInt (usersubscribe.ExpireTime userSubscribe).

(** [logSubscribeActivity]: nothing unless the request succeeded; an
    insert failure is logged and dropped. *)
Definition logSubscribeActivity (subscribeStatus : bool)
    (userSub : usersubscribe.Subscribe) (req : types.SubscribeRequest)
    (s : Store) : Store :=
  if negb subscribeStatus then s
  else if failLogInsert (sfailing env) then s
  else setSystemLogs
         (systemLogs s ++
          [ {| log.LogType_ := log.TypeSubscribe;
               log.Date := stoday env;
               log.ObjectID := usersubscribe.UserId userSub;
               log.Body := log.SubscribeContent
                 {| log.Token := types.Token req;
                    log.UserAgent := types.UA req;
                    log.ClientIP := RequestClientIP env;
                    log.UserSubscribeId := usersubscribe.Id userSub |} |} ])
         s.

(** Handler after the subscription is resolved: the response headers
    it sets and its result. *)
Definition render (s : Store) (targetApp : client.SubscribeApplication)
    (userSubscribe : usersubscribe.Subscribe) (req : types.SubscribeRequest)
    : Result (list (string * string) * types.SubscribeResponse) :=
  subscribeInfo ← wrapCode xerr.DatabaseQueryError
                    (findSubscribe (failSubscribeInfo (sfailing env)) s
                       (usersubscribe.SubscribeId userSubscribe));
  servers ← getServers s userSubscribe;
  let a := newAdapter targetApp servers subscribeInfo userSubscribe req in
  match Client a with
  | None => Err (CodeError xerr.Code500)
  | Some adapterClient =>
      match Build adapterClient with
      | None => Err (CodeError xerr.Code500)
      | Some bytes =>
          Ok (formatHeaders targetApp,
              {| types.Config := bytes;
                 types.Header := subscribeHeader userSubscribe |})
      end
  end.

Definition Handler (s : Store) (req : types.SubscribeRequest)
    : Store * Result (list (string * string) * types.SubscribeResponse) :=
  match ClientList env with
  | Err e => (s, Err e)
  | Ok clients =>
      let userAgent := ToLower (RequestUserAgent env) in
      match chooseApp userAgent clients with
      | Err e => (s, Err e)
      | Ok targetApp =>
          match getUserSubscribe (types.Token req) with
          | Err e => (s, Err e)
          | Ok userSubscribe =>
              let r := render s targetApp userSubscribe req in
              (logSubscribeActivity (isOk r) userSubscribe req s, r)
          end
      end
  end.

End SubscribeLogic.

(** ** What the properties are stated with *)

(** The amount identity of an order record. *)
Definition orderIdentity (o : order.Order) : Prop :=
  order.Amount o
  = order.Price o - order.Discount o - order.CouponDiscount o
    - order.GiftAmount o + order.FeeAmount o.

Definition amountInRange (a : Z) : Prop := 0 <= a <= MaxOrderAmount.

(** A number between 0 and 1: a zero, or [m * 2^e] with a clear sign
    bit and [m <= 2^(-e)]. *)
Definition unitInterval (d : Float64.float64) : Prop :=
  match d with
  | SpecFloat.S754_zero _ => True
  | SpecFloat.S754_finite s m e => s = false /\ e <= 0 /\ Z.pos m <= 2 ^ (- e)
  | _ => False
  end.

(** A number of sign [s], or a zero, of magnitude at most [2^k]. *)
Definition magnitudeBelow (s : bool) (k : Z) (f : Float64.float64) : Prop :=
  match f with
  | SpecFloat.S754_zero _ => True
  | SpecFloat.S754_finite s' m e => s' = s /\ e <= k /\ Z.pos m <= 2 ^ (k - e)
  | _ => False
  end.

(** The contracts of the pricing helpers (PricingEngine): getDiscount
    returns a multiplier between 0 and 1 for the tiers a plan decodes
    to; a coupon takes off between 0 and the amount; a fee is
    non-negative and its addition does not overflow. *)
Definition discountContract `{Helpers} : Prop :=
  forall encoded quantity,
    unitInterval (getDiscount (unmarshalDiscount encoded) quantity).

Definition couponContract `{Helpers} : Prop :=
  forall amount c, 0 <= amount -> 0 <= calculateCoupon amount c <= amount.

Definition feeContract `{Helpers} : Prop :=
  forall amount p, 0 <= amount <= MaxOrderAmount ->
    0 <= calculateFee amount p /\ amount + calculateFee amount p <= Int64.max_int.

(** Plan rows carry a unit price that is not negative, and a list
    price below 2^61 for every accepted quantity: the product
    [UnitPrice * Quantity] does not wrap around, and its float64
    multiple by a number up to 1 is a number that int64 holds. *)
Definition pricesValid (s : Store) : Prop :=
  forall id p, subscribes s !! id = Some p ->
    0 <= subscribe.UnitPrice p
    /\ subscribe.UnitPrice p * MaxQuantity < 2 ^ 61.

(** No store read of the order workflows fails. *)
Definition readsSucceed (f : Faults) : Prop :=
  failQueryUserSubscribe f = false
  /\ failFindOneUserSubscribe f = false
  /\ failSubscribeFindOne f = false
  /\ failCouponFindOneByCode f = false
  /\ failOrderCount f = false
  /\ failPaymentFindOne f = false
  /\ failIsUserEligibleForNewOrder f = false.

Definition withFailEnqueue (b : bool) (env : Env) : Env :=
  {| failing :=
       {| failQueryUserSubscribe := failQueryUserSubscribe (failing env);
          failFindOneUserSubscribe := failFindOneUserSubscribe (failing env);
          failSubscribeFindOne := failSubscribeFindOne (failing env);
          failCouponFindOneByCode := failCouponFindOneByCode (failing env);
          failOrderCount := failOrderCount (failing env);
          failPaymentFindOne := failPaymentFindOne (failing env);
          failIsUserEligibleForNewOrder :=
            failIsUserEligibleForNewOrder (failing env);
          failUserUpdate := failUserUpdate (failing env);
          failSystemLogCreate := failSystemLogCreate (failing env);
          failSubscribeUpdate := failSubscribeUpdate (failing env);
          failOrderCreate := failOrderCreate (failing env);
          failEnqueue := b |};
     SingleModel := SingleModel env;
     GenerateTradeNo := GenerateTradeNo env;
     nowUnixMilli := nowUnixMilli env;
     today := today env;
     QueryUserSubscribeRows := QueryUserSubscribeRows env;
     IsUserEligibleForNewOrderAnswer := IsUserEligibleForNewOrderAnswer env |}.

(** The first check of a list that is violated, with its error code. *)
Definition firstViolation (checks : list (bool * xerr.Code)) : option xerr.Code :=
  snd <$> List.find fst checks.

Section EligibilityChecks.
Context `{Helpers}.
Variable env : Env.
Variable s : Store.
Variable u : user.User.
Variable req : types.PurchaseOrderRequest.
Variable plan : subscribe.Subscribe.
Variable pay : payment.Payment.

Definition quantityCheck : bool * xerr.Code :=
  (MaxQuantity <? normalizeQuantity (types.p_Quantity req), xerr.InvalidParams).

Definition singleModeCheck : bool * xerr.Code :=
  (SingleModel env
   && (0 <? Z.of_nat (length (QueryUserSubscribeRows env (user.Id u)))),
   xerr.UserSubscribeExist).

Definition sellableCheck : bool * xerr.Code :=
  (negb (subscribe.Sell plan), xerr.ERROR).

Definition inventoryCheck : bool * xerr.Code :=
  (subscribe.Inventory plan =? 0, xerr.SubscribeOutOfStock).

Definition quotaCheck : bool * xerr.Code :=
  ((0 <? subscribe.Quota plan)
   && (subscribe.Quota plan
       <=? quotaCount (QueryUserSubscribeRows env (user.Id u))
             (types.p_SubscribeId req)),
   xerr.SubscribeQuotaLimit).

Definition discountedAmount : Z :=
  let quantity := normalizeQuantity (types.p_Quantity req) in
  Int64.wrap (scaleAmount (Int64.mul (subscribe.UnitPrice plan) quantity)
                (planDiscount plan quantity)).

Definition ceilingCheck : bool * xerr.Code :=
  (MaxOrderAmount <? discountedAmount, xerr.InvalidParams).

(** The four coupon conditions, for a coupon code that was supplied. *)
Definition couponChecks : list (bool * xerr.Code) :=
  if String.eqb (types.p_Coupon req) "" then []
  else match coupons s !! types.p_Coupon req with
       | None => [(true, xerr.CouponNotExist)]
       | Some c =>
           [ (negb (coupon.Count c =? 0)
              && (coupon.Count c <=? coupon.UsedCount c),
              xerr.CouponInsufficientUsage);
             ((0 <? Z.of_nat (length (StringToInt64Slice (coupon.Subscribe c))))
              && negb (Contains (StringToInt64Slice (coupon.Subscribe c))
                         (types.p_SubscribeId req)),
              xerr.CouponNotApplicable);
             (coupon.UserLimit c
              <=? Z.of_nat (length (couponOrders s (user.Id u)
                                      (types.p_Coupon req))),
              xerr.CouponInsufficientUsage) ]
       end.

Definition couponValue : Z :=
  if String.eqb (types.p_Coupon req) "" then 0
  else match coupons s !! types.p_Coupon req with
       | None => 0
       | Some c => Int64.wrap (calculateCoupon discountedAmount c)
       end.

Definition feeCeilingCheck : bool * xerr.Code :=
  (negb (isOk (purchaseFee
                 (q_remainder (quote (user.GiftAmount u) discountedAmount
                                 couponValue))
                 pay)),
   xerr.InvalidParams).

(** The checks of Purchase in the order the code makes them. *)
Definition purchaseChecks : list (bool * xerr.Code) :=
  [quantityCheck; singleModeCheck; sellableCheck; inventoryCheck;
   quotaCheck; ceilingCheck]
  ++ couponChecks ++ [feeCeilingCheck].

(** The same checks in the order the guard is described with:
    quantity, sellable, inventory, quota, single-subscription mode,
    coupon, amount ceiling. *)
Definition statedPurchaseChecks : list (bool * xerr.Code) :=
  [quantityCheck; sellableCheck; inventoryCheck; quotaCheck;
   singleModeCheck]
  ++ couponChecks ++ [ceilingCheck; feeCeilingCheck].

End EligibilityChecks.

Section CouponRules.
Context `{Helpers}.
Variable s : Store.
Variable userId : Z.
Variable planId : Z.
Variable code : string.

Definition hasRemainingUses (c : coupon.Coupon) : Prop :=
  coupon.Count c = 0 \/ coupon.UsedCount c < coupon.Count c.

Definition appliesToPlan (c : coupon.Coupon) : Prop :=
  StringToInt64Slice (coupon.Subscribe c) = []
  \/ In planId (StringToInt64Slice (coupon.Subscribe c)).

(** The user's redemptions so far: the user's orders that carry the code. *)
Definition redemptions : Z :=
  Z.of_nat (length (couponOrders s userId code)).

(** The first coupon condition a request violates, and its error kind. *)
Inductive CouponViolation : xerr.Code -> Prop :=
| coupon_missing :
    coupons s !! code = None ->
    CouponViolation xerr.CouponNotExist
| coupon_exhausted c :
    coupons s !! code = Some c ->
    ~ hasRemainingUses c ->
    CouponViolation xerr.CouponInsufficientUsage
| coupon_other_plan c :
    coupons s !! code = Some c ->
    hasRemainingUses c ->
    ~ appliesToPlan c ->
    CouponViolation xerr.CouponNotApplicable
| coupon_user_limit c :
    coupons s !! code = Some c ->
    hasRemainingUses c ->
    appliesToPlan c ->
    ~ redemptions < coupon.UserLimit c ->
    CouponViolation xerr.CouponInsufficientUsage.

Definition CouponAccepted (c : coupon.Coupon) : Prop :=
  coupons s !! code = Some c
  /\ hasRemainingUses c
  /\ appliesToPlan c
  /\ redemptions < coupon.UserLimit c.

End CouponRules.

(** ** A pricing engine and a runtime to run the workflows with *)

Module SpecPricing.

(** Modelled from the spec: getDiscount and the tier table of the
    order package are missing. A tier is a quantity threshold with a
    multiplier; the tier with the greatest threshold not above the
    quantity is selected, and without a match the multiplier is 1. *)
Record Tier := { threshold : Z; multiplier : Float64.float64 }.

Fixpoint bestTier (best : option Tier) (tiers : list Tier) (quantity : Z)
    : option Tier :=
  match tiers with
  | [] => best
  | t :: rest =>
      let better :=
        match best with
        | None => true
        | Some b => threshold b <? threshold t
        end in
      if (threshold t <=? quantity) && better
      then bestTier (Some t) rest quantity
      else bestTier best rest quantity
  end.

Definition tieredDiscount (tiers : list Tier) (quantity : Z)
    : Float64.float64 :=
  match bestTier None tiers quantity with
  | Some t => multiplier t
  | None => Float64.one
  end.

Definition clampPercent (p : Z) : Z := Z.max 0 (Z.min 100 p).

(** Modelled from the spec: calculateCoupon of the order package is
    missing. Percentage coupons yield floor(amount * pct); fixed coupons
    yield min(fixedValue, amount). *)
Definition couponDiscount (amount : Z) (c : coupon.Coupon) : Z :=
  if coupon.Type_ c =? 1
  then amount * clampPercent (coupon.Discount c) / 100
  else Z.min (Z.max 0 (coupon.Discount c)) amount.

(** Modelled from the spec: calculateFee of the order package is
    missing. The surcharge is a percentage (mode 1), a fixed amount
    (mode 2) or both (mode 3), and never negative. *)
Definition fixedFee (p : payment.Payment) : Z :=
  Z.max 0 (Z.min MaxOrderAmount (payment.FeeAmount p)).

Definition fee (amount : Z) (p : payment.Payment) : Z :=
  let pct := amount * clampPercent (payment.FeePercent p) / 100 in
  if payment.FeeMode p =? 1 then pct
  else if payment.FeeMode p =? 2 then fixedFee p
  else if payment.FeeMode p =? 3 then pct + fixedFee p
  else 0.

(** Modelled from the spec: tool.StringToInt64Slice is missing; the
    allow-list is a comma-separated list of plan ids, and entries that
    are not numbers are dropped. *)
Definition parseIds (str : string) : list Z :=
  omap (fun x => Z.of_int <$> NilZero.int_of_string x)
       (stringsSplit str comma).

Definition lowerAscii (a : Ascii.ascii) : Ascii.ascii :=
  let n := Ascii.nat_of_ascii a in
  if ((65 <=? n) && (n <=? 90))%nat then Ascii.ascii_of_nat (n + 32) else a.

Fixpoint lower (str : string) : string :=
  match str with
  | EmptyString => EmptyString
  | String a t => String (lowerAscii a) (lower t)
  end.

(** A stand-in adapter: the configuration lists the node names. *)
Definition listNames (a : adapter.Adapter) : string :=
  String.concat ";" (map node.Name (adapter.Servers a)).

(** The tier table is decoded to no tier: an encoding that cannot be
    read degrades to the multiplier 1. A float64 that no int64 holds
    converts to the least int64, as it does on amd64. *)
#[local] Instance helpers : Helpers := {|
  SubscribeDiscount := Tier;
  unmarshalDiscount := fun _ => [];
  getDiscount := tieredDiscount;
  int64Unrepresentable := fun _ => Int64.min_int;
  calculateCoupon := couponDiscount;
  calculateFee := fee;
  DeferCloseOrder := "close-order";
  StringToInt64Slice := parseIds;
  RemoveStringElement :=
    fun l x => List.filter (fun y => negb (String.eqb y x)) l;
  RemoveDuplicateElements := remove_dups;
  ToLower := lower;
  QueryEscape := fun x => x;
  AdapterClient := adapter.Adapter;
  Client := Some;
  Build := fun a => Some (listNames a)
|}.

End SpecPricing.

(** ** Concrete requests *)

Module Demo.

Definition noFaults : Faults :=
  {| failQueryUserSubscribe := false; failFindOneUserSubscribe := false;
     failSubscribeFindOne := false; failCouponFindOneByCode := false;
     failOrderCount := false; failPaymentFindOne := false;
     failIsUserEligibleForNewOrder := false; failUserUpdate := false;
     failSystemLogCreate := false; failSubscribeUpdate := false;
     failOrderCreate := false; failEnqueue := false |}.

Definition held : usersubscribe.Subscribe :=
  {| usersubscribe.Id := 7; usersubscribe.UserId := 1;
     usersubscribe.OrderId := 3; usersubscribe.SubscribeId := 1;
     usersubscribe.Token := "tok"; usersubscribe.UUID := "uuid-1";
     usersubscribe.ExpireTime := 1700000000;
     usersubscribe.Upload := 10; usersubscribe.Download := 20;
     usersubscribe.Traffic := 1000; usersubscribe.Status := 3 |}.

Definition env : Env :=
  {| failing := noFaults;
     SingleModel := false;
     GenerateTradeNo := "202611010001";
     nowUnixMilli := 1793500000000;
     today := "2026-11-01";
     QueryUserSubscribeRows := fun _ => [];
     IsUserEligibleForNewOrderAnswer := fun _ => true |}.

(** The same surroundings with chosen store failures. *)
Definition envFailing (f : Faults) : Env :=
  {| failing := f;
     SingleModel := false;
     GenerateTradeNo := "202611010001";
     nowUnixMilli := 1793500000000;
     today := "2026-11-01";
     QueryUserSubscribeRows := fun _ => [];
     IsUserEligibleForNewOrderAnswer := fun _ => true |}.

(** The gift-ledger insert fails; the writes before and after it do not. *)
Definition ledgerFails : Faults :=
  {| failQueryUserSubscribe := false; failFindOneUserSubscribe := false;
     failSubscribeFindOne := false; failCouponFindOneByCode := false;
     failOrderCount := false; failPaymentFindOne := false;
     failIsUserEligibleForNewOrder := false; failUserUpdate := false;
     failSystemLogCreate := true; failSubscribeUpdate := false;
     failOrderCreate := false; failEnqueue := false |}.

(** Single-subscription mode on, and the user holds a subscription. *)
Definition envSingle : Env :=
  {| failing := noFaults;
     SingleModel := true;
     GenerateTradeNo := "202611010001";
     nowUnixMilli := 1793500000000;
     today := "2026-11-01";
     QueryUserSubscribeRows := fun _ => [held];
     IsUserEligibleForNewOrderAnswer := fun _ => true |}.

Definition alice : user.User := {| user.Id := 1; user.GiftAmount := 5000 |}.
Definition bob : user.User := {| user.Id := 2; user.GiftAmount := 0 |}.

Definition plan (inventory : Z) (sell : bool) : subscribe.Subscribe :=
  {| subscribe.Id := 1; subscribe.Name := "Standard";
     subscribe.UnitPrice := 1000; subscribe.Discount := "";
     subscribe.Inventory := inventory; subscribe.Quota := 0;
     subscribe.Sell := sell; subscribe.Nodes := "1,2";
     subscribe.NodeTags := "" |}.

Definition save : coupon.Coupon :=
  {| coupon.Code := "SAVE"; coupon.Count := 0; coupon.UsedCount := 0;
     coupon.UserLimit := 1; coupon.Subscribe := "";
     coupon.Type_ := 2; coupon.Discount := 500 |}.

(** A fee of ten percent. *)
Definition epay : payment.Payment :=
  {| payment.Id := 1; payment.Platform := "epay";
     payment.FeeMode := 1; payment.FeePercent := 10; payment.FeeAmount := 0 |}.

(** No fee. *)
Definition balance : payment.Payment :=
  {| payment.Id := 2; payment.Platform := "balance";
     payment.FeeMode := 0; payment.FeePercent := 0; payment.FeeAmount := 0 |}.

Definition storeWith (p : subscribe.Subscribe) : Store :=
  {| users := {[ 1 := alice; 2 := bob ]};
     userSubscribes := {[ 7 := held ]};
     subscribes := {[ 1 := p ]};
     coupons := {[ "SAVE" := save ]};
     payments := {[ 1 := epay; 2 := balance ]};
     orders := [];
     systemLogs := [] |}.

Definition store (inventory : Z) (sell : bool) : Store :=
  storeWith (plan inventory sell).

Definition world (inventory : Z) (sell : bool) : World :=
  {| db := store inventory sell; tasks := [] |}.

(** A plan whose list price for 1000 units is above the ceiling. *)
Definition pricey : subscribe.Subscribe :=
  {| subscribe.Id := 1; subscribe.Name := "Premium";
     subscribe.UnitPrice := 3000000; subscribe.Discount := "";
     subscribe.Inventory := -1; subscribe.Quota := 0;
     subscribe.Sell := true; subscribe.Nodes := "1,2";
     subscribe.NodeTags := "" |}.

Definition priceyWorld : World :=
  {| db := storeWith pricey; tasks := [] |}.

Definition buy (quantity payment : Z) (code : string) : types.PurchaseOrderRequest :=
  {| types.p_SubscribeId := 1; types.p_Quantity := quantity;
     types.p_Payment := payment; types.p_Coupon := code |}.

Definition renew (quantity payment : Z) (code : string) : types.RenewalOrderRequest :=
  {| types.r_UserSubscribeID := 7; types.r_Quantity := quantity;
     types.r_Payment := payment; types.r_Coupon := code |}.

Definition recharge (amount payment : Z) : types.RechargeOrderRequest :=
  {| types.c_Amount := amount; types.c_Payment := payment |}.

(** The subscription request of an expired subscription. *)
Definition clash : client.SubscribeApplication :=
  {| client.UserAgent := "Clash"; client.IsDefault := true;
     client.SubscribeTemplate := "tpl"; client.OutputFormat := "yaml" |}.

Definition subscribeEnv : SubscribeEnv :=
  {| sfailing := {| failSubscribeInfo := false;
                    failSubscribeDetails := false;
                    failLogInsert := false |};
     ClientList := Ok [clash];
     RequestUserAgent := "Clash/1.0";
     RequestURI := "/v1/subscribe?token=tok";
     RequestHost := "panel.example.com";
     RequestClientIP := "203.0.113.9";
     IsGatewayMode := false;
     ConfigSiteName := "PPanel";
     ConfigSubscribeDomain := "";
     ConfigHost := "panel.example.com";
     FindOneSubscribeByToken :=
       fun t => if String.eqb t "tok" then Ok (Some held) else Ok None;
     FilterNodeList := fun _ _ => Ok [];
     snow := 1793500000;
     stoday := "2026-11-01" |}.

Definition fetch : types.SubscribeRequest :=
  {| types.Token := "tok"; types.UA := "Clash/1.0"; types.Params := [] |}.

End Demo.

(** The committed store of Purchase: every write of the transaction. *)
Definition purchaseCommitted (env : Env) (p : Prepared) (s : Store) : Store :=
  let s1 := if 0 <? order.GiftAmount (pr_order p)
            then setSystemLogs
                   (systemLogs s
                    ++ [giftLog env "Purchase order deduction" (pr_user p) (pr_order p)])
                   (setUsers (<[user.Id (pr_user p) := pr_user p]> (users s)) s)
            else s in
  let s2 := if subscribe.Inventory (pr_sub p) =? -1 then s1
            else setSubscribes
                   (<[subscribe.Id (pr_sub p) :=
                        subscribe.withInventory
                          (Int64.sub (subscribe.Inventory (pr_sub p)) 1) (pr_sub p)]>
                      (subscribes s1)) s1 in
  setOrders (orders s2 ++ [pr_order p]) s2.

(** An order record and the values its amount went through: the
    identity holds, every value is within the ceiling, and the last
    value is the amount of the record. *)
Definition pricedOrder (o : order.Order) (stages : list Z) : Prop :=
  orderIdentity o
  /\ Forall amountInRange stages
  /\ last stages = Some (order.Amount o).

(** The order record [o] was stored by the request and its number is
    the one returned. *)
Definition stored (w w1 : World) (o : order.Order) (resp : types.OrderResponse) : Prop :=
  orders (db w1) = orders (db w) ++ [o]
  /\ types.OrderNo resp = order.OrderNo o.

(** The committed store of Renewal: every write of the transaction. *)
Definition renewalCommitted (env : Env) (p : Prepared) (s : Store) : Store :=
  let s1 := if 0 <? order.GiftAmount (pr_order p)
            then setSystemLogs
                   (systemLogs s
                    ++ [giftLog env "Renewal order deduction" (pr_user p) (pr_order p)])
                   (setUsers (<[user.Id (pr_user p) := pr_user p]> (users s)) s)
            else s in
  setOrders (orders s1 ++ [pr_order p]) s1.

(** The fee and the total that the fee block computes from what is left
    after the coupon and the gift deduction. *)
Definition feeOf `{Helpers} (r : Z) (pay : payment.Payment) : Z :=
  if 0 <? r then Int64.wrap (calculateFee r pay) else 0.

Definition totalOf `{Helpers} (r : Z) (pay : payment.Payment) : Z :=
  Int64.add r (feeOf r pay).

(** A placeholder node under a given name: 127.0.0.1, port 18080,
    shadowsocks, on the server named "Subscribe Expired". *)
Definition placeholderNode (name : string) : node.Node :=
  {| node.Name := name;
     node.Tags := "";
     node.Port := 18080;
     node.Address := "127.0.0.1";
     node.Server_ := Some expiredServer;
     node.Protocol := "shadowsocks";
     node.Enabled := Some true |}.

(** What Handler answers once the client application, the plan and the
    server list are known: the adapter's configuration, or error 500. *)
Definition rendered `{Helpers} (env : SubscribeEnv)
    (targetApp : client.SubscribeApplication) (servers : list node.Node)
    (plan : subscribe.Subscribe) (userSub : usersubscribe.Subscribe)
    (req : types.SubscribeRequest)
    : Result (list (string * string) * types.SubscribeResponse) :=
  match Client (newAdapter env targetApp servers plan userSub req) with
  | None => Err (CodeError xerr.Code500)
  | Some adapterClient =>
      match Build adapterClient with
      | None => Err (CodeError xerr.Code500)
      | Some bytes =>
          Ok (formatHeaders env targetApp,
              {| types.Config := bytes;
                 types.Header := subscribeHeader userSub |})
      end
  end.

(** ** Requests with another quantity *)

Definition withPurchaseQuantity (q : Z) (req : types.PurchaseOrderRequest)
    : types.PurchaseOrderRequest :=
  {| types.p_SubscribeId := types.p_SubscribeId req;
     types.p_Quantity := q;
     types.p_Payment := types.p_Payment req;
     types.p_Coupon := types.p_Coupon req |}.

Definition withRenewalQuantity (q : Z) (req : types.RenewalOrderRequest)
    : types.RenewalOrderRequest :=
  {| types.r_UserSubscribeID := types.r_UserSubscribeID req;
     types.r_Quantity := q;
     types.r_Payment := types.r_Payment req;
     types.r_Coupon := types.r_Coupon req |}.

(** An error that carries a code of pkg/xerr. *)
Definition isCoded (e : Error) : Prop :=
  match e with
  | CodeError _ => True
  | Cause _ | ErrorString _ => False
  end.

(** One of the writes of the Renewal transaction fails. *)
Definition renewalWriteFails (f : Faults) : Prop :=
  failUserUpdate f = true
  \/ failSystemLogCreate f = true
  \/ failOrderCreate f = true.

(** ** What Renewal does not read *)

(** A subscription row with the fields Renewal does not read cleared:
    the owner, the status, the expiry, the UUID and the traffic
    counters. *)
Definition renewalViewOfHeld (us : usersubscribe.Subscribe) : usersubscribe.Subscribe :=
  {| usersubscribe.Id := usersubscribe.Id us;
     usersubscribe.UserId := 0;
     usersubscribe.OrderId := usersubscribe.OrderId us;
     usersubscribe.SubscribeId := usersubscribe.SubscribeId us;
     usersubscribe.Token := usersubscribe.Token us;
     usersubscribe.UUID := "";
     usersubscribe.ExpireTime := 0;
     usersubscribe.Upload := 0;
     usersubscribe.Download := 0;
     usersubscribe.Traffic := 0;
     usersubscribe.Status := 0 |}.

(** A plan row with the fields Renewal does not read cleared: the
    inventory, the quota, the name and the node lists. *)
Definition renewalViewOfPlan (p : subscribe.Subscribe) : subscribe.Subscribe :=
  {| subscribe.Id := subscribe.Id p;
     subscribe.Name := "";
     subscribe.UnitPrice := subscribe.UnitPrice p;
     subscribe.Discount := subscribe.Discount p;
     subscribe.Inventory := 0;
     subscribe.Quota := 0;
     subscribe.Sell := subscribe.Sell p;
     subscribe.Nodes := "";
     subscribe.NodeTags := "" |}.

Definition renewalViewOfStore (s : Store) : Store :=
  {| users := users s;
     userSubscribes := renewalViewOfHeld <$> userSubscribes s;
     subscribes := renewalViewOfPlan <$> subscribes s;
     coupons := coupons s;
     payments := payments s;
     orders := orders s;
     systemLogs := systemLogs s |}.

Definition renewalViewOfWorld (w : World) : World :=
  {| db := renewalViewOfStore (db w); tasks := tasks w |}.

Definition renewalViewOfGuarded (g : RenewalGuarded) : RenewalGuarded :=
  {| rg_user := rg_user g;
     rg_quantity := rg_quantity g;
     rg_userSubscribe := renewalViewOfHeld (rg_userSubscribe g);
     rg_sub := renewalViewOfPlan (rg_sub g);
     rg_price := rg_price g;
     rg_amount := rg_amount g;
     rg_discountAmount := rg_discountAmount g |}.

Definition renewalViewOfPrepared (p : Prepared) : Prepared :=
  {| pr_user := pr_user p;
     pr_sub := renewalViewOfPlan (pr_sub p);
     pr_order := pr_order p;
     pr_stages := pr_stages p |}.

Definition mapResult {A B} (f : A -> B) (r : Result A) : Result B :=
  match r with
  | Ok a => Ok (f a)
  | Err e => Err e
  end.

(** ** Requests served one after the other *)

Inductive Request :=
| PurchaseRequest (env : Env) (ctxUser : option user.User)
    (req : types.PurchaseOrderRequest)
| RenewalRequest (env : Env) (ctxUser : option user.User)
    (req : types.RenewalOrderRequest)
| RechargeRequest (env : Env) (ctxUser : option user.User)
    (req : types.RechargeOrderRequest)
| SubscribeRequest (env : SubscribeEnv) (req : types.SubscribeRequest).

(** The world a request leaves. *)
Definition serve `{Helpers} (r : Request) (w : World) : World :=
  match r with
  | PurchaseRequest env cu req => fst (Purchase env w cu req)
  | RenewalRequest env cu req => fst (Renewal env w cu req)
  | RechargeRequest env cu req => fst (Recharge env w cu req)
  | SubscribeRequest env req => setDb (fst (Handler env (db w) req)) w
  end.

Fixpoint serveAll `{Helpers} (rs : list Request) (w : World) : World :=
  match rs with
  | [] => w
  | r :: rest => serveAll rest (serve r w)
  end.

(** Plan rows sit under their own id. *)
Definition plansKeyed (s : Store) : Prop :=
  forall id p, subscribes s !! id = Some p -> subscribe.Id p = id.

(** The purchase orders (kind 1) of a plan among some orders. *)
Definition purchasesOf (planId : Z) (os : list order.Order) : Z :=
  Z.of_nat (length (List.filter
    (fun o => (order.Type_ o =? 1) && (order.SubscribeId o =? planId)) os)).

(** Every queued close-order task names an order that is stored. *)
Definition tasksNameOrders (w : World) : Prop :=
  forall t, In t (tasks w) ->
    exists o, In o (orders (db w)) /\ order.OrderNo o = queue.PayloadOrderNo t.

(** Every gift-ledger entry is a deduction above zero that an order
    of the same number carries as its gift amount. *)
Definition ledgerMatchesOrders (s : Store) : Prop :=
  forall l g, In l (systemLogs s) -> log.Body l = log.GiftContent g ->
    log.Type_ g = log.GiftTypeReduce
    /\ 0 < log.Amount g
    /\ exists o, In o (orders s)
                 /\ order.OrderNo o = log.OrderNo g
                 /\ order.GiftAmount o = log.Amount g.

(** What one request may add to the world. *)
Record Added := {
  addedOrders : list order.Order;
  addedLogs : list log.SystemLog;
  addedTasks : list queue.Task
}.

Definition addsOnly (w w1 : World) (a : Added) : Prop :=
  orders (db w1) = orders (db w) ++ addedOrders a
  /\ systemLogs (db w1) = systemLogs (db w) ++ addedLogs a
  /\ tasks w1 = tasks w ++ addedTasks a
  /\ (length (addedOrders a) <= 1)%nat
  /\ (length (addedLogs a) <= 1)%nat
  /\ (length (addedTasks a) <= 1)%nat
  /\ (forall t, In t (addedTasks a) ->
        exists o, In o (addedOrders a)
                  /\ order.OrderNo o = queue.PayloadOrderNo t)
  /\ (forall l g, In l (addedLogs a) -> log.Body l = log.GiftContent g ->
        log.Type_ g = log.GiftTypeReduce
        /\ 0 < log.Amount g
        /\ exists o, In o (addedOrders a)
                     /\ order.OrderNo o = log.OrderNo g
                     /\ order.GiftAmount o = log.Amount g).

(** The activity entry Handler writes for a served subscription. *)
Definition subscribeLog (env : SubscribeEnv) (userSub : usersubscribe.Subscribe)
    (req : types.SubscribeRequest) : log.SystemLog :=
  {| log.LogType_ := log.TypeSubscribe;
     log.Date := stoday env;
     log.ObjectID := usersubscribe.UserId userSub;
     log.Body := log.SubscribeContent
       {| log.Token := types.Token req;
          log.UserAgent := types.UA req;
          log.ClientIP := RequestClientIP env;
          log.UserSubscribeId := usersubscribe.Id userSub |} |}.

(** The surroundings of [Demo.env] with another trade number. *)
Definition demoEnvNumbered (no : string) : Env :=
  {| failing := Demo.noFaults;
     SingleModel := false;
     GenerateTradeNo := no;
     nowUnixMilli := 1793500000000;
     today := "2026-11-01";
     QueryUserSubscribeRows := fun _ => [];
     IsUserEligibleForNewOrderAnswer := fun _ => true |}.

(** A purchase paid from the gift balance, a purchase with a coupon, a
    renewal, a recharge and a subscription fetch. *)
Definition demoRequests : list Request :=
  [ PurchaseRequest (demoEnvNumbered "A1") (Some Demo.alice) (Demo.buy 3 1 "");
    PurchaseRequest (demoEnvNumbered "A2") (Some Demo.bob) (Demo.buy 2 1 "SAVE");
    RenewalRequest (demoEnvNumbered "A3") (Some Demo.bob) (Demo.renew 2 1 "");
    RechargeRequest (demoEnvNumbered "A4") (Some Demo.bob) (Demo.recharge 1000 1);
    SubscribeRequest Demo.subscribeEnv Demo.fetch ].

(** How the inventory [i] of a plan may have moved to [i1] while [sold]
    purchase orders of the plan were stored: an unlimited plan stays
    unlimited, and a counted one went down by the orders stored and not
    below zero. *)
Definition stockMoved (i i1 sold : Z) : Prop :=
  (i = -1 -> i1 = -1)
  /\ (0 <= i <= Int64.max_int -> i1 = i - sold /\ 0 <= i1 <= i).

(** A client answers a request when its lowercased user agent occurs in
    the request's, except that a request naming Stash is answered by
    clients naming Stash only: the test of the client loop of Handler. *)
Definition answers `{Helpers} (userAgent : string)
    (item : client.SubscribeApplication) : bool :=
  let u := ToLower (client.UserAgent item) in
  stringsContains userAgent u
  && negb (stringsContains userAgent "stash" && negb (stringsContains u "stash")).

(** The last client flagged as default. *)
Definition lastDefault (clients : list client.SubscribeApplication)
    : option client.SubscribeApplication :=
  last (List.filter client.IsDefault clients).

(** A subscription row with another status. *)
Definition withStatus (status : Z) (userSub : usersubscribe.Subscribe)
    : usersubscribe.Subscribe :=
  {| usersubscribe.Id := usersubscribe.Id userSub;
     usersubscribe.UserId := usersubscribe.UserId userSub;
     usersubscribe.OrderId := usersubscribe.OrderId userSub;
     usersubscribe.SubscribeId := usersubscribe.SubscribeId userSub;
     usersubscribe.Token := usersubscribe.Token userSub;
     usersubscribe.UUID := usersubscribe.UUID userSub;
     usersubscribe.ExpireTime := usersubscribe.ExpireTime userSub;
     usersubscribe.Upload := usersubscribe.Upload userSub;
     usersubscribe.Download := usersubscribe.Download userSub;
     usersubscribe.Traffic := usersubscribe.Traffic userSub;
     usersubscribe.Status := status |}.

(** The environment whose token lookup returns its rows with the given
    status. *)
Definition withRowStatus (status : Z) (env : SubscribeEnv) : SubscribeEnv :=
  {| sfailing := sfailing env;
     ClientList := ClientList env;
     RequestUserAgent := RequestUserAgent env;
     RequestURI := RequestURI env;
     RequestHost := RequestHost env;
     RequestClientIP := RequestClientIP env;
     IsGatewayMode := IsGatewayMode env;
     ConfigSiteName := ConfigSiteName env;
     ConfigSubscribeDomain := ConfigSubscribeDomain env;
     ConfigHost := ConfigHost env;
     FindOneSubscribeByToken := fun token =>
       match FindOneSubscribeByToken env token with
       | Ok (Some userSub) => Ok (Some (withStatus status userSub))
       | other => other
       end;
     FilterNodeList := FilterNodeList env;
     snow := snow env;
     stoday := stoday env |}.

(** The file formats Handler sets download headers for. *)
Definition fileFormats : list string := ["json"; "yaml"; "conf"].

(** A subscription that never expires. *)
Definition demoLive : usersubscribe.Subscribe :=
  {| usersubscribe.Id := 8; usersubscribe.UserId := 1;
     usersubscribe.OrderId := 4; usersubscribe.SubscribeId := 1;
     usersubscribe.Token := "live"; usersubscribe.UUID := "uuid-2";
     usersubscribe.ExpireTime := 0;
     usersubscribe.Upload := 0; usersubscribe.Download := 0;
     usersubscribe.Traffic := 1000; usersubscribe.Status := 1 |}.

(** A plan whose unit price is the greatest int64. *)
Definition demoWrapped : subscribe.Subscribe :=
  {| subscribe.Id := 1; subscribe.Name := "Wrapped";
     subscribe.UnitPrice := Int64.max_int; subscribe.Discount := "";
     subscribe.Inventory := -1; subscribe.Quota := 0;
     subscribe.Sell := true; subscribe.Nodes := "1,2";
     subscribe.NodeTags := "" |}.

Definition demoWrappedWorld : World :=
  {| db := Demo.storeWith demoWrapped; tasks := [] |}.

(** * Properties *)

(** ** Machine integers *)

Lemma wrap_in_range z : Int64.in_range (Int64.wrap z).
Proof.
  unfold Int64.in_range, Int64.wrap, Int64.min_int, Int64.max_int, Int64.modulus.
  pose proof (Z.mod_pos_bound (z + 9223372036854775808) 18446744073709551616).
  lia.
Qed.

Lemma wrap_id z : Int64.in_range z -> Int64.wrap z = z.
Proof.
  unfold Int64.in_range, Int64.wrap, Int64.min_int, Int64.max_int, Int64.modulus.
  intros Hz. rewrite Z.mod_small; lia.
Qed.

Lemma max_order_in_range a :
  0 <= a <= MaxOrderAmount -> Int64.in_range a.
Proof.
  unfold MaxOrderAmount, Int64.in_range, Int64.min_int, Int64.max_int. lia.
Qed.

(** ** Results *)

Lemma bind_Ok_inv {A B} (m : Result A) (f : A -> Result B) b :
  m ≫= f = Ok b -> exists a, m = Ok a /\ f a = Ok b.
Proof. destruct m as [a|e]; simpl; [eauto | discriminate]. Qed.

Lemma reject_Ok_inv cond c u : reject cond c = Ok u -> cond = false.
Proof. destruct cond; simpl; [discriminate | reflexivity]. Qed.

Lemma wrapCode_Ok_inv {A} c (r : Result A) a : wrapCode c r = Ok a -> r = Ok a.
Proof. destruct r; simpl; congruence. Qed.

(** ** The transaction and the queue *)

Lemma Transaction_rollback (body : Tx) s s1 e :
  Transaction body s = (s1, Some e) -> s1 = s.
Proof.
  unfold Transaction. destruct (body s) as [s2 [e2|]]; congruence.
Qed.

Lemma Transaction_commit (body : Tx) s s1 :
  Transaction body s = (s1, None) -> body s = (s1, None).
Proof.
  unfold Transaction. destruct (body s) as [s2 [e2|]]; congruence.
Qed.

Lemma db_deferCloseOrder `{Helpers} env no w :
  db (deferCloseOrder env no w) = db w.
Proof.
  unfold deferCloseOrder, Enqueue. destruct (failEnqueue (failing env)); reflexivity.
Qed.

Lemma tasks_deferCloseOrder `{Helpers} env no w :
  tasks (deferCloseOrder env no w)
  = if failEnqueue (failing env) then tasks w
    else tasks w ++ [closeOrderTask no].
Proof.
  unfold deferCloseOrder, Enqueue. destruct (failEnqueue (failing env)); reflexivity.
Qed.

(** What the gift writes leave behind when they go through. *)
Lemma giftWrites_commit env remark u o s s1 :
  giftWrites env remark u o s = (s1, None) ->
  s1 = if 0 <? order.GiftAmount o
       then setSystemLogs (systemLogs s ++ [giftLog env remark u o])
              (setUsers (<[user.Id u := u]> (users s)) s)
       else s.
Proof.
  unfold giftWrites, txSeq, txSkip, UserUpdate, SystemLogCreate.
  destruct (0 <? order.GiftAmount o);
    destruct (failUserUpdate (failing env));
    destruct (failSystemLogCreate (failing env)); simpl; congruence.
Qed.

Lemma inventoryWrite_commit env sub s s1 :
  inventoryWrite env sub s = (s1, None) ->
  s1 = if subscribe.Inventory sub =? -1 then s
       else setSubscribes
              (<[subscribe.Id sub :=
                   subscribe.withInventory
                     (Int64.sub (subscribe.Inventory sub) 1) sub]>
                 (subscribes s)) s.
Proof.
  unfold inventoryWrite, txSkip, SubscribeUpdate.
  destruct (subscribe.Inventory sub =? -1);
    destruct (failSubscribeUpdate (failing env)); simpl; congruence.
Qed.

Lemma OrderCreate_commit env o s s1 :
  OrderCreate env o s = (s1, None) -> s1 = setOrders (orders s ++ [o]) s.
Proof.
  unfold OrderCreate. destruct (failOrderCreate (failing env)); congruence.
Qed.

Lemma OrderCreate_fail env o s s1 e :
  OrderCreate env o s = (s1, Some e) -> s1 = s.
Proof.
  unfold OrderCreate. destruct (failOrderCreate (failing env)); congruence.
Qed.

Lemma txSeq_commit (a b : Tx) s s2 :
  txSeq a b s = (s2, None) ->
  exists s1, a s = (s1, None) /\ b s1 = (s2, None).
Proof.
  unfold txSeq. destruct (a s) as [s1 [e|]]; [discriminate | eauto].
Qed.

(** ** Pricing *)

(** Take apart a hypothesis that says a chain of binds succeeded. *)
Ltac ok_steps H :=
  repeat (cbv zeta in H;
          match type of H with
          | (_ ≫= _) = Ok _ =>
              let a := fresh "a" in
              let Ha := fresh "Hstep" in
              apply bind_Ok_inv in H as (a & Ha & H);
              first [ apply reject_Ok_inv in Ha
                    | apply wrapCode_Ok_inv in Ha
                    | idtac ]
          | (let '(_, _) := ?p in _) = Ok _ => destruct p eqn:?
          end).

Lemma SubscribeFindOne_Ok env s id p :
  SubscribeFindOne env s id = Ok p -> subscribes s !! id = Some p.
Proof.
  unfold SubscribeFindOne. destruct (failSubscribeFindOne (failing env)); [discriminate|].
  destruct (subscribes s !! id); congruence.
Qed.

Lemma PaymentFindOne_Ok env s id p :
  PaymentFindOne env s id = Ok p -> payments s !! id = Some p.
Proof.
  unfold PaymentFindOne. destruct (failPaymentFindOne (failing env)); [discriminate|].
  destruct (payments s !! id); congruence.
Qed.

Lemma normalizeQuantity_pos q : 1 <= normalizeQuantity q.
Proof. unfold normalizeQuantity. destruct (Z.leb_spec q 0); lia. Qed.

(** ** Rounding to binary64 *)

Lemma shr_1_m mrs :
  0 <= SpecFloat.shr_m mrs ->
  SpecFloat.shr_m (SpecFloat.shr_1 mrs) = SpecFloat.shr_m mrs / 2.
Proof.
  destruct mrs as [m r s]. simpl. intros Hm.
  rewrite <- Z.div2_div.
  destruct m as [|[p|p|]|p]; try reflexivity; lia.
Qed.

Lemma shr_iter_m p : forall mrs,
  0 <= SpecFloat.shr_m mrs ->
  SpecFloat.shr_m (SpecFloat.iter_pos SpecFloat.shr_1 p mrs)
  = SpecFloat.shr_m mrs / 2 ^ Z.pos p.
Proof.
  induction p as [p IH|p IH|]; intros mrs Hm; simpl SpecFloat.iter_pos.
  - assert (H1 : 0 <= SpecFloat.shr_m (SpecFloat.shr_1 mrs)).
    { rewrite shr_1_m by exact Hm. apply Z.div_pos; lia. }
    assert (H2 : 0 <= SpecFloat.shr_m
                        (SpecFloat.iter_pos SpecFloat.shr_1 p (SpecFloat.shr_1 mrs))).
    { rewrite IH by exact H1. apply Z.div_pos; [exact H1|]. apply Z.pow_pos_nonneg; lia. }
    rewrite IH by exact H2. rewrite IH by exact H1. rewrite shr_1_m by exact Hm.
    rewrite !Z.div_div by (try apply Z.pow_pos_nonneg; lia).
    f_equal. rewrite (Pos2Z.inj_xI p), Z.pow_add_r, Z.pow_twice_r by lia.
    change (2 ^ 1) with 2. ring.
  - assert (H1 : 0 <= SpecFloat.shr_m (SpecFloat.iter_pos SpecFloat.shr_1 p mrs)).
    { rewrite IH by exact Hm. apply Z.div_pos; [exact Hm|]. apply Z.pow_pos_nonneg; lia. }
    rewrite IH by exact H1. rewrite IH by exact Hm.
    rewrite !Z.div_div by (try apply Z.pow_pos_nonneg; lia).
    f_equal. rewrite (Pos2Z.inj_xO p), Z.pow_twice_r. reflexivity.
  - rewrite shr_1_m by exact Hm. reflexivity.
Qed.

Lemma digits2_pos_lower m : 2 ^ (Z.pos (SpecFloat.digits2_pos m) - 1) <= Z.pos m.
Proof.
  induction m as [m IH|m IH|]; simpl SpecFloat.digits2_pos.
  - rewrite Pos2Z.inj_succ.
    replace (Z.succ (Z.pos (SpecFloat.digits2_pos m)) - 1)
      with (1 + (Z.pos (SpecFloat.digits2_pos m) - 1)) by lia.
    rewrite Z.pow_add_r by lia. change (2 ^ 1) with 2.
    rewrite (Pos2Z.inj_xI m). lia.
  - rewrite Pos2Z.inj_succ.
    replace (Z.succ (Z.pos (SpecFloat.digits2_pos m)) - 1)
      with (1 + (Z.pos (SpecFloat.digits2_pos m) - 1)) by lia.
    rewrite Z.pow_add_r by lia. change (2 ^ 1) with 2.
    rewrite (Pos2Z.inj_xO m). lia.
  - reflexivity.
Qed.

(** A number below [2^j] has at most [j] digits. *)
Lemma Zdigits2_below n j :
  0 <= n < 2 ^ j -> SpecFloat.Zdigits2 n <= j.
Proof.
  intros [Hn Hj].
  assert (0 <= j).
  { destruct (Z.le_gt_cases 0 j) as [|Hneg]; [assumption|].
    rewrite Z.pow_neg_r in Hj by exact Hneg. lia. }
  destruct n as [|m|m]; simpl; [assumption| |lia].
  pose proof (digits2_pos_lower m) as Hlow.
  assert (Hlt : 2 ^ (Z.pos (SpecFloat.digits2_pos m) - 1) < 2 ^ j) by lia.
  apply Z.pow_lt_mono_r_iff in Hlt; lia.
Qed.

Lemma fexp_below x k :
  x - Float64.prec <= k -> SpecFloat.emin Float64.prec Float64.emax <= k ->
  SpecFloat.fexp Float64.prec Float64.emax x <= k.
Proof. unfold SpecFloat.fexp. lia. Qed.

(** What the shift of [shr_fexp] leaves of an exact mantissa. *)
Lemma shr_fexp_exact m e :
  0 <= m ->
  let n := SpecFloat.fexp Float64.prec Float64.emax (SpecFloat.Zdigits2 m + e) - e in
  let r := SpecFloat.shr_fexp Float64.prec Float64.emax m e SpecFloat.loc_Exact in
  (n <= 0 /\ fst r = SpecFloat.Build_shr_record m false false /\ snd r = e)
  \/ (0 < n /\ SpecFloat.shr_m (fst r) = m / 2 ^ n /\ snd r = e + n).
Proof.
  intros Hm n r. unfold r, SpecFloat.shr_fexp, SpecFloat.shr. fold n.
  destruct n as [|p|p] eqn:Hn; simpl.
  - left. auto with zarith.
  - right. split; [lia|]. split; [|reflexivity].
    apply shr_iter_m. exact Hm.
  - left. split; [lia|]. auto.
Qed.

Lemma round_nearest_even_bounds m l :
  m <= SpecFloat.round_nearest_even m l <= m + 1.
Proof.
  unfold SpecFloat.round_nearest_even.
  destruct l as [|[| |]]; try lia. destruct (Z.even m); lia.
Qed.

(** Rounding an exact product or integer below [2^k] gives a number of
    the same sign that is at most [2^k], and neither an infinity nor a
    NaN. *)
Lemma binary_round_aux_below s M E k :
  SpecFloat.emin Float64.prec Float64.emax <= k
  <= Float64.emax - Float64.prec ->
  Z.pos M < 2 ^ (k - E) ->
  magnitudeBelow s k
    (SpecFloat.binary_round_aux Float64.prec Float64.emax s (Z.pos M) E
       SpecFloat.loc_Exact).
Proof.
  intros Hk HM.
  assert (HkE : 0 < k - E).
  { destruct (Z.lt_ge_cases 0 (k - E)) as [|Hle]; [assumption|].
    destruct (Z.eq_dec (k - E) 0) as [Hz|Hnz].
    - rewrite Hz in HM. simpl in HM. lia.
    - rewrite Z.pow_neg_r in HM by lia. lia. }
  unfold SpecFloat.binary_round_aux.
  pose proof (shr_fexp_exact (Z.pos M) E ltac:(lia)) as H1. cbv zeta in H1.
  destruct (SpecFloat.shr_fexp Float64.prec Float64.emax (Z.pos M) E
              SpecFloat.loc_Exact) as [mrs1 e1].
  simpl fst in H1. simpl snd in H1.
  set (m1 := SpecFloat.round_nearest_even (SpecFloat.shr_m mrs1)
               (SpecFloat.loc_of_shr_record mrs1)).
  assert (Hdig : SpecFloat.Zdigits2 (Z.pos M) + E <= k).
  { pose proof (Zdigits2_below (Z.pos M) (k - E) ltac:(lia)). lia. }
  assert (Hm1 : 0 <= m1 /\ e1 <= k /\ m1 <= 2 ^ (k - e1)).
  { pose proof (round_nearest_even_bounds (SpecFloat.shr_m mrs1)
                  (SpecFloat.loc_of_shr_record mrs1)) as Hr. fold m1 in Hr.
    destruct H1 as [(Hn & -> & ->)|(Hn & Hm & ->)].
    - unfold m1. simpl. lia.
    - set (n := SpecFloat.fexp Float64.prec Float64.emax
                  (SpecFloat.Zdigits2 (Z.pos M) + E) - E) in *.
      assert (He : E + n <= k).
      { unfold n. pose proof (fexp_below (SpecFloat.Zdigits2 (Z.pos M) + E) k).
        unfold Float64.prec in *. lia. }
      assert (Hdiv : Z.pos M / 2 ^ n < 2 ^ (k - (E + n))).
      { apply Z.div_lt_upper_bound; [apply Z.pow_pos_nonneg; lia|].
        rewrite <- Z.pow_add_r by lia.
        replace (n + (k - (E + n))) with (k - E) by lia. exact HM. }
      assert (0 <= Z.pos M / 2 ^ n).
      { apply Z.div_pos; [lia|apply Z.pow_pos_nonneg; lia]. }
      rewrite Hm in Hr. lia. }
  destruct Hm1 as (Hm1 & He1 & Hb1).
  pose proof (shr_fexp_exact m1 e1 Hm1) as H2. cbv zeta in H2.
  destruct (SpecFloat.shr_fexp Float64.prec Float64.emax m1 e1
              SpecFloat.loc_Exact) as [mrs2 e2].
  simpl fst in H2. simpl snd in H2.
  assert (Hm2 : 0 <= SpecFloat.shr_m mrs2 /\ e2 <= k
                /\ SpecFloat.shr_m mrs2 <= 2 ^ (k - e2)).
  { destruct H2 as [(Hn & -> & ->)|(Hn & Hm & ->)].
    - simpl. lia.
    - set (n := SpecFloat.fexp Float64.prec Float64.emax
                  (SpecFloat.Zdigits2 m1 + e1) - e1) in *.
      assert (Hd1 : SpecFloat.Zdigits2 m1 <= k - e1 + 1).
      { apply Zdigits2_below. rewrite Z.pow_add_r by lia.
        change (2 ^ 1) with 2.
        assert (0 < 2 ^ (k - e1)) by (apply Z.pow_pos_nonneg; lia). lia. }
      assert (He : e1 + n <= k).
      { unfold n. pose proof (fexp_below (SpecFloat.Zdigits2 m1 + e1) k).
        unfold Float64.prec in *. lia. }
      rewrite Hm. split; [apply Z.div_pos; [lia|apply Z.pow_pos_nonneg; lia]|].
      split; [exact He|].
      replace (k - e1) with ((k - (e1 + n)) + n) in Hb1 by lia.
      rewrite Z.pow_add_r in Hb1 by lia.
      apply Z.div_le_upper_bound; [apply Z.pow_pos_nonneg; lia|]. lia. }
  destruct Hm2 as (Hm2 & He2 & Hb2).
  destruct (SpecFloat.shr_m mrs2) as [|m|m]; simpl; [exact I| |lia].
  replace (e2 <=? Float64.emax - Float64.prec) with true
    by (symmetry; apply Z.leb_le; lia).
  simpl. split; [reflexivity|]. split; assumption.
Qed.

Lemma iter_xO_pos d : forall m, Z.pos (Pos.iter xO m d) = Z.pos m * 2 ^ Z.pos d.
Proof.
  induction d as [|d IH] using Pos.peano_ind; intros m.
  - simpl. lia.
  - rewrite Pos.iter_succ, Pos2Z.inj_succ, Z.pow_succ_r by lia.
    rewrite (Pos2Z.inj_xO (Pos.iter xO m d)), IH. ring.
Qed.

(** [float64(z)] of an integer in [[0, 2^k)] is at most [2^k]. *)
Lemma ofInt64_below z k :
  0 <= k <= Float64.emax - Float64.prec ->
  0 <= z < 2 ^ k ->
  magnitudeBelow false k (Float64.ofInt64 z).
Proof.
  intros Hk [Hz Hlt]. unfold Float64.ofInt64, SpecFloat.binary_normalize.
  destruct z as [|p|p]; [exact I| |lia].
  unfold SpecFloat.binary_round, SpecFloat.shl_align.
  assert (Hemin : SpecFloat.emin Float64.prec Float64.emax <= k)
    by (unfold SpecFloat.emin, Float64.prec, Float64.emax in *; lia).
  destruct (SpecFloat.fexp Float64.prec Float64.emax
              (Z.pos (SpecFloat.digits2_pos p) + 0) - 0) as [|d|d] eqn:Hd.
  - apply binary_round_aux_below; [lia|]. rewrite Z.sub_0_r. exact Hlt.
  - apply binary_round_aux_below; [lia|]. rewrite Z.sub_0_r. exact Hlt.
  - apply binary_round_aux_below; [lia|].
    rewrite iter_xO_pos.
    assert (He : SpecFloat.fexp Float64.prec Float64.emax
                   (Z.pos (SpecFloat.digits2_pos p) + 0) = Z.neg d) by lia.
    rewrite He.
    replace (k - Z.neg d) with (k + Z.pos d) by lia.
    rewrite Z.pow_add_r by lia.
    apply Z.mul_lt_mono_pos_r; [apply Z.pow_pos_nonneg; lia|exact Hlt].
Qed.

(** The product of a number in [[0, 2^k]] and a number in [[0, 1]] is,
    after rounding, at most [2^(k+1)]. *)
Lemma mul_below x d k :
  0 <= k -> k + 1 <= Float64.emax - Float64.prec ->
  magnitudeBelow false k x -> unitInterval d ->
  magnitudeBelow false (k + 1) (Float64.mul x d).
Proof.
  intros Hk0 Hk Hx Hd. unfold Float64.mul.
  destruct x as [sx| | |sx mx ex]; try contradiction;
    destruct d as [sd| | |sd my ey]; try contradiction; try exact I.
  destruct Hx as (-> & Hex & Hmx). destruct Hd as (-> & Hey & Hmy).
  unfold SpecFloat.SFmul. simpl xorb.
  apply binary_round_aux_below.
  - unfold SpecFloat.emin, Float64.prec, Float64.emax in *. lia.
  - rewrite Pos2Z.inj_mul.
    replace (k + 1 - (ex + ey)) with (1 + ((k - ex) + (- ey))) by lia.
    rewrite !Z.pow_add_r by lia. change (2 ^ 1) with 2.
    assert (0 < 2 ^ (k - ex)) by (apply Z.pow_pos_nonneg; lia).
    assert (0 < 2 ^ (- ey)) by (apply Z.pow_pos_nonneg; lia).
    assert (Z.pos mx * Z.pos my <= 2 ^ (k - ex) * 2 ^ (- ey))
      by (apply Z.mul_le_mono_nonneg; lia).
    lia.
Qed.

(** The integer part of a non-negative number that is at most [2^k]. *)
Lemma truncate_below f k :
  0 <= k -> magnitudeBelow false k f ->
  exists z, Float64.truncate f = Some z /\ 0 <= z <= 2 ^ k.
Proof.
  intros Hk Hf. destruct f as [s| | |s m e]; try contradiction.
  - exists 0. split; [reflexivity|]. split; [lia|]. apply Z.pow_nonneg. lia.
  - destruct Hf as (-> & He & Hm). simpl.
    destruct (Z.leb_spec 0 e) as [Hpos|Hneg]; eexists; (split; [reflexivity|]).
    + split; [apply Z.mul_nonneg_nonneg; [lia|apply Z.pow_nonneg; lia]|].
      replace (2 ^ k) with (2 ^ ((k - e) + e)) by (f_equal; lia).
      rewrite Z.pow_add_r by lia.
      apply Z.mul_le_mono_nonneg_r; [apply Z.pow_nonneg; lia|exact Hm].
    + split; [apply Z.div_pos; [lia|apply Z.pow_pos_nonneg; lia]|].
      apply Z.div_le_upper_bound; [apply Z.pow_pos_nonneg; lia|].
      rewrite <- Z.pow_add_r by lia.
      replace (- e + k) with (k - e) by lia. exact Hm.
Qed.

(** The discounted amount of a list price in [[0, 2^61)] under a
    multiplier in [[0, 1]] is a number that int64 holds, and is not
    negative. *)
Lemma scaleAmount_range `{Helpers} price d :
  0 <= price < 2 ^ 61 -> unitInterval d ->
  0 <= scaleAmount price d <= 2 ^ 62.
Proof.
  intros Hp Hd. unfold scaleAmount, toInt64.
  pose proof (ofInt64_below price 61
                ltac:(unfold Float64.emax, Float64.prec; lia) Hp) as Hx.
  pose proof (mul_below _ d 61 ltac:(lia)
                ltac:(unfold Float64.emax, Float64.prec; lia) Hx Hd) as Hm.
  destruct (truncate_below _ (61 + 1) ltac:(lia) Hm) as (z & -> & Hz).
  change (2 ^ (61 + 1)) with (2 ^ 62) in Hz.
  replace ((Int64.min_int <=? z) && (z <=? Int64.max_int)) with true; [exact Hz|].
  symmetry. apply andb_true_iff. rewrite !Z.leb_le.
  unfold Int64.min_int, Int64.max_int. change (2 ^ 62) with 4611686018427387904 in Hz.
  lia.
Qed.

(** The arithmetic is the one of the code. The multiplier 0.29, which
    is 29/100 rounded to binary64, takes 100 to 28 and not to 29; the
    multiplier 1 takes 2^53 + 3, which is no binary64 number, to
    2^53 + 4, above the list price. *)
Example binary64_discounts `{Helpers} :
  scaleAmount 100
    (SpecFloat.SFdiv Float64.prec Float64.emax
       (Float64.ofInt64 29) (Float64.ofInt64 100)) = 28
  /\ scaleAmount 3000
       (SpecFloat.SFdiv Float64.prec Float64.emax
          (Float64.ofInt64 9) (Float64.ofInt64 10)) = 2700
  /\ scaleAmount 9007199254740995 Float64.one = 9007199254740996.
Proof. repeat split; vm_compute; reflexivity. Qed.

(** The list price, the discounted amount and the discount of a plan
    with a valid price, for an accepted quantity. *)
Lemma planDiscount_unit `{Helpers} (p : subscribe.Subscribe) quantity :
  discountContract -> unitInterval (planDiscount p quantity).
Proof.
  intros Hd. unfold planDiscount.
  destruct (String.eqb (subscribe.Discount p) ""); [|apply Hd].
  simpl. split; [reflexivity|]. split; [lia|reflexivity].
Qed.

Lemma discount_priced `{Helpers} (p : subscribe.Subscribe) quantity :
  discountContract ->
  0 <= subscribe.UnitPrice p ->
  subscribe.UnitPrice p * MaxQuantity < 2 ^ 61 ->
  1 <= quantity <= MaxQuantity ->
  let price := Int64.mul (subscribe.UnitPrice p) quantity in
  let amount := Int64.wrap (scaleAmount price (planDiscount p quantity)) in
  price = subscribe.UnitPrice p * quantity
  /\ 0 <= amount <= 2 ^ 62
  /\ Int64.sub price amount = price - amount.
Proof.
  intros Hd Hp Hmax Hq price amount.
  change (2 ^ 61) with 2305843009213693952 in Hmax.
  assert (Hprice : price = subscribe.UnitPrice p * quantity).
  { unfold price, Int64.mul. apply wrap_id.
    unfold Int64.in_range, Int64.min_int, Int64.max_int in *. nia. }
  assert (Hrange : 0 <= price < 2 ^ 61).
  { rewrite Hprice. change (2 ^ 61) with 2305843009213693952. nia. }
  pose proof (scaleAmount_range price (planDiscount p quantity) Hrange
                (planDiscount_unit p quantity Hd)) as Hs.
  change (2 ^ 61) with 2305843009213693952 in Hrange.
  change (2 ^ 62) with 4611686018427387904 in *.
  assert (Hamount : amount = scaleAmount price (planDiscount p quantity)).
  { unfold amount. apply wrap_id.
    unfold Int64.in_range, Int64.min_int, Int64.max_int in *. lia. }
  split; [exact Hprice|]. split; [lia|].
  unfold Int64.sub. apply wrap_id.
  unfold Int64.in_range, Int64.min_int, Int64.max_int in *. lia.
Qed.

Lemma purchaseGuard_priced `{Helpers} env s cu req g :
  discountContract -> pricesValid s ->
  purchaseGuard env s cu req = Ok g ->
  0 <= g_amount g <= MaxOrderAmount
  /\ g_discountAmount g = g_price g - g_amount g.
Proof.
  intros Hd Hv Hg. unfold purchaseGuard in Hg.
  destruct cu as [u|]; [|discriminate].
  ok_steps Hg. injection Hg as <-. simpl.
  apply SubscribeFindOne_Ok in Hstep2.
  destruct (Hv _ _ Hstep2) as (Hp & Hmax).
  apply Z.ltb_ge in Hstep, Hstep6.
  pose proof (normalizeQuantity_pos (types.p_Quantity req)) as Hq.
  destruct (discount_priced a2 (normalizeQuantity (types.p_Quantity req))
              Hd Hp Hmax) as (_ & Ha & Hs); [lia|].
  split; [lia | exact Hs].
Qed.

Lemma FindOneUserSubscribe_Ok env s id us :
  FindOneUserSubscribe env s id = Ok us -> userSubscribes s !! id = Some us.
Proof.
  unfold FindOneUserSubscribe.
  destruct (failFindOneUserSubscribe (failing env)); [discriminate|].
  destruct (userSubscribes s !! id); congruence.
Qed.

Lemma renewalGuard_priced `{Helpers} env s cu req g :
  discountContract -> pricesValid s ->
  renewalGuard env s cu req = Ok g ->
  0 <= rg_amount g <= MaxOrderAmount
  /\ rg_discountAmount g = rg_price g - rg_amount g.
Proof.
  intros Hd Hv Hg. unfold renewalGuard in Hg.
  destruct cu as [u|]; [|discriminate].
  ok_steps Hg. injection Hg as <-. simpl.
  apply SubscribeFindOne_Ok in Hstep1.
  destruct (Hv _ _ Hstep1) as (Hp & Hmax).
  apply Z.ltb_ge in Hstep, Hstep3.
  pose proof (normalizeQuantity_pos (types.r_Quantity req)) as Hq.
  destruct (discount_priced a1 (normalizeQuantity (types.r_Quantity req))
              Hd Hp Hmax) as (_ & Ha & Hs); [lia|].
  split; [lia | exact Hs].
Qed.

Lemma couponStage_bound `{Helpers} env s u planId code amount c :
  couponContract ->
  0 <= amount <= MaxOrderAmount ->
  couponStage env s u planId code amount = Ok c ->
  0 <= c <= amount.
Proof.
  intros Hc Ha Hs. unfold couponStage in Hs.
  destruct (String.eqb code "").
  { injection Hs as <-. lia. }
  destruct (CouponFindOneByCode env s code) as [ci|[?|[]|?]]; try discriminate.
  ok_steps Hs. injection Hs as <-.
  destruct (Hc amount ci) as [Hlo Hhi]; [lia|].
  rewrite wrap_id; [lia|]. apply max_order_in_range. lia.
Qed.

(** The coupon and the gift balance only ever lower the amount, and
    never below zero. *)
Lemma quote_spec gift amount coupon :
  0 <= coupon <= amount -> amount <= MaxOrderAmount ->
  let q := quote gift amount coupon in
  q_coupon q = coupon
  /\ q_afterCoupon q = amount - coupon
  /\ q_remainder q = q_afterCoupon q - q_deduction q
  /\ 0 <= q_deduction q
  /\ 0 <= q_remainder q <= q_afterCoupon q.
Proof.
  intros Hc Ha. unfold quote, giftDeduct.
  assert (Hsub : Int64.sub amount coupon = amount - coupon).
  { unfold Int64.sub. apply wrap_id, max_order_in_range. lia. }
  rewrite Hsub.
  destruct (Z.ltb_spec 0 gift) as [Hg|Hg]; simpl.
  - destruct (Z.leb_spec (amount - coupon) gift) as [Hle|Hgt]; simpl.
    + repeat split; lia.
    + assert (Hs2 : Int64.sub (amount - coupon) gift = amount - coupon - gift).
      { unfold Int64.sub. apply wrap_id, max_order_in_range. lia. }
      rewrite Hs2. repeat split; lia.
  - repeat split; lia.
Qed.

Lemma purchaseFee_spec `{Helpers} r pay feeAmount total :
  feeContract ->
  0 <= r <= MaxOrderAmount ->
  purchaseFee r pay = Ok (feeAmount, total) ->
  total = r + feeAmount /\ 0 <= feeAmount /\ 0 <= total <= MaxOrderAmount.
Proof.
  intros Hf Hr Hp. unfold purchaseFee in Hp.
  destruct (Z.ltb_spec 0 r) as [Hpos|Hzero].
  - ok_steps Hp. injection Hp as <- <-.
    destruct (Hf r pay Hr) as [Hlo Hhi].
    assert (Hw : Int64.wrap (calculateFee r pay) = calculateFee r pay).
    { apply wrap_id. unfold Int64.in_range, Int64.min_int, Int64.max_int in *. lia. }
    rewrite Hw in *.
    assert (Ha : Int64.add r (calculateFee r pay) = r + calculateFee r pay).
    { unfold Int64.add. apply wrap_id.
      unfold Int64.in_range, Int64.min_int, Int64.max_int in *. lia. }
    rewrite Ha in *. apply Z.ltb_ge in Hstep. lia.
  - injection Hp as <- <-. lia.
Qed.

Lemma renewalFee_spec `{Helpers} r pay feeAmount total :
  feeContract ->
  0 <= r <= MaxOrderAmount ->
  renewalFee r pay = Ok (feeAmount, total) ->
  total = r + feeAmount /\ 0 <= feeAmount /\ 0 <= total <= MaxOrderAmount.
Proof.
  intros Hf Hr Hp. unfold renewalFee in Hp.
  ok_steps Hp. injection Hp as <- <-. apply Z.ltb_ge in Hstep.
  destruct (Z.ltb_spec 0 r) as [Hpos|Hzero].
  - destruct (Hf r pay Hr) as [Hlo Hhi].
    assert (Hw : Int64.wrap (calculateFee r pay) = calculateFee r pay).
    { apply wrap_id. unfold Int64.in_range, Int64.min_int, Int64.max_int in *. lia. }
    rewrite Hw in *.
    assert (Ha : Int64.add r (calculateFee r pay) = r + calculateFee r pay).
    { unfold Int64.add. apply wrap_id.
      unfold Int64.in_range, Int64.min_int, Int64.max_int in *. lia. }
    rewrite Ha in *. lia.
  - assert (Ha : Int64.add r 0 = r + 0).
    { unfold Int64.add. apply wrap_id, max_order_in_range. lia. }
    rewrite Ha in *. lia.
Qed.

Lemma purchasePrepare_priced `{Helpers} env s cu req p :
  discountContract -> couponContract -> feeContract -> pricesValid s ->
  purchasePrepare env s cu req = Ok p ->
  pricedOrder (pr_order p) (pr_stages p).
Proof.
  intros Hd Hc Hf Hv Hp. unfold purchasePrepare in Hp.
  apply bind_Ok_inv in Hp as ([g q] & Hq & Hp).
  unfold purchaseQuote in Hq. ok_steps Hq. injection Hq as <- <-.
  destruct (purchaseGuard_priced _ _ _ _ _ Hd Hv Hstep) as [Ha Hdisc].
  pose proof (couponStage_bound _ _ _ _ _ _ _ Hc Ha Hstep0) as Hcb.
  destruct (quote_spec (user.GiftAmount (g_user a)) (g_amount a) a0 Hcb)
    as (Hq1 & Hq2 & Hq3 & Hq4 & Hq5); [lia|].
  ok_steps Hp. destruct a2 as [feeAmount total]. ok_steps Hp.
  injection Hp as <-. simpl.
  eapply purchaseFee_spec in Hstep2 as (Ht & Hfee & Htot); [|exact Hf|lia].
  unfold pricedOrder, orderIdentity, amountInRange. simpl.
  split; [lia|]. split; [|reflexivity].
  repeat constructor; lia.
Qed.

Lemma renewalPrepare_priced `{Helpers} env s cu req p :
  discountContract -> couponContract -> feeContract -> pricesValid s ->
  renewalPrepare env s cu req = Ok p ->
  pricedOrder (pr_order p) (pr_stages p).
Proof.
  intros Hd Hc Hf Hv Hp. unfold renewalPrepare in Hp.
  apply bind_Ok_inv in Hp as ([[g pay] q] & Hq & Hp).
  unfold renewalQuote in Hq. ok_steps Hq. injection Hq as <- <- <-.
  destruct (renewalGuard_priced _ _ _ _ _ Hd Hv Hstep) as [Ha Hdisc].
  pose proof (couponStage_bound _ _ _ _ _ _ _ Hc Ha Hstep0) as Hcb.
  destruct (quote_spec (user.GiftAmount (rg_user a)) (rg_amount a) a0 Hcb)
    as (Hq1 & Hq2 & Hq3 & Hq4 & Hq5); [lia|].
  ok_steps Hp. destruct a2 as [feeAmount total].
  injection Hp as <-. simpl.
  eapply renewalFee_spec in Hstep2 as (Ht & Hfee & Htot); [|exact Hf|lia].
  unfold pricedOrder, orderIdentity, amountInRange. simpl.
  split; [lia|]. split; [|reflexivity].
  repeat constructor; lia.
Qed.

Lemma rechargePrepare_priced `{Helpers} env s cu req o stages :
  feeContract ->
  rechargePrepare env s cu req = Ok (o, stages) ->
  pricedOrder o stages.
Proof.
  intros Hf Hp. unfold rechargePrepare in Hp.
  destruct cu as [u|]; [|discriminate].
  ok_steps Hp. injection Hp as <- <-.
  apply Z.leb_gt in Hstep. apply Z.ltb_ge in Hstep0, Hstep2.
  assert (Hr : 0 <= types.c_Amount req <= MaxOrderAmount).
  { unfold MaxRechargeAmount, MaxOrderAmount in *. lia. }
  destruct (Hf (types.c_Amount req) a1 Hr) as [Hlo Hhi].
  assert (Hw : Int64.wrap (calculateFee (types.c_Amount req) a1)
               = calculateFee (types.c_Amount req) a1).
  { apply wrap_id. unfold Int64.in_range, Int64.min_int, Int64.max_int in *. lia. }
  rewrite Hw in *.
  assert (Ha : Int64.add (types.c_Amount req) (calculateFee (types.c_Amount req) a1)
               = types.c_Amount req + calculateFee (types.c_Amount req) a1).
  { unfold Int64.add. apply wrap_id.
    unfold Int64.in_range, Int64.min_int, Int64.max_int in *. lia. }
  rewrite Ha in *.
  unfold pricedOrder, orderIdentity, amountInRange. simpl.
  split; [lia|]. split; [|reflexivity].
  repeat constructor; lia.
Qed.

(** *** What a successful request did *)

Lemma Purchase_Ok_inv `{Helpers} env w cu req w1 resp :
  Purchase env w cu req = (w1, Ok resp) ->
  exists p,
    purchasePrepare env (db w) cu req = Ok p
    /\ purchaseTx env p (db w) = (db w1, None)
    /\ w1 = deferCloseOrder env (order.OrderNo (pr_order p))
              (setDb (db w1) w)
    /\ types.OrderNo resp = order.OrderNo (pr_order p).
Proof.
  unfold Purchase. intros Hp.
  destruct (purchasePrepare env (db w) cu req) as [p|e]; [|discriminate].
  destruct (Transaction (purchaseTx env p) (db w)) as [s1 [e|]] eqn:Htx;
    [discriminate|].
  injection Hp as <- <-. exists p.
  rewrite db_deferCloseOrder. simpl.
  apply Transaction_commit in Htx. auto.
Qed.

Lemma purchaseTx_commit env p s s1 :
  purchaseTx env p s = (s1, None) -> s1 = purchaseCommitted env p s.
Proof.
  unfold purchaseTx. intros Htx.
  apply txSeq_commit in Htx as (sa & Hg & Htx).
  apply txSeq_commit in Htx as (sb & Hi & Ho).
  apply giftWrites_commit in Hg. apply inventoryWrite_commit in Hi.
  apply OrderCreate_commit in Ho. subst. reflexivity.
Qed.

Lemma renewalTx_commit env p s s1 :
  renewalTx env p s = (s1, None) -> s1 = renewalCommitted env p s.
Proof.
  unfold renewalTx. intros Htx.
  apply txSeq_commit in Htx as (sa & Hg & Ho).
  apply giftWrites_commit in Hg. apply OrderCreate_commit in Ho.
  subst. reflexivity.
Qed.

Lemma orders_purchaseCommitted env p s :
  orders (purchaseCommitted env p s) = orders s ++ [pr_order p].
Proof.
  unfold purchaseCommitted.
  destruct (0 <? order.GiftAmount (pr_order p));
    destruct (subscribe.Inventory (pr_sub p) =? -1); reflexivity.
Qed.

Lemma orders_renewalCommitted env p s :
  orders (renewalCommitted env p s) = orders s ++ [pr_order p].
Proof.
  unfold renewalCommitted.
  destruct (0 <? order.GiftAmount (pr_order p)); reflexivity.
Qed.

Lemma Renewal_Ok_inv `{Helpers} env w cu req w1 resp :
  Renewal env w cu req = (w1, Ok resp) ->
  exists p,
    renewalPrepare env (db w) cu req = Ok p
    /\ renewalTx env p (db w) = (db w1, None)
    /\ w1 = deferCloseOrder env (order.OrderNo (pr_order p))
              (setDb (db w1) w)
    /\ types.OrderNo resp = order.OrderNo (pr_order p).
Proof.
  unfold Renewal. intros Hp.
  destruct (renewalPrepare env (db w) cu req) as [p|e]; [|discriminate].
  destruct (Transaction (renewalTx env p) (db w)) as [s1 [e|]] eqn:Htx;
    [discriminate|].
  injection Hp as <- <-. exists p.
  rewrite db_deferCloseOrder. simpl.
  apply Transaction_commit in Htx. auto.
Qed.

Lemma Recharge_Ok_inv `{Helpers} env w cu req w1 resp :
  Recharge env w cu req = (w1, Ok resp) ->
  exists o stages,
    rechargePrepare env (db w) cu req = Ok (o, stages)
    /\ db w1 = setOrders (orders (db w) ++ [o]) (db w)
    /\ w1 = deferCloseOrder env (order.OrderNo o) (setDb (db w1) w)
    /\ types.OrderNo resp = order.OrderNo o.
Proof.
  unfold Recharge. intros Hp.
  destruct (rechargePrepare env (db w) cu req) as [[o stages]|e]; [|discriminate].
  destruct (OrderCreate env o (db w)) as [s1 [e|]] eqn:Hc; [discriminate|].
  injection Hp as <- <-. exists o, stages.
  rewrite db_deferCloseOrder. simpl.
  apply OrderCreate_commit in Hc. auto.
Qed.

(** ** The reference pricing engine meets the contracts *)

Lemma clampPercent_bounds p : 0 <= SpecPricing.clampPercent p <= 100.
Proof. unfold SpecPricing.clampPercent. lia. Qed.

Lemma percent_of_bounds a k : 0 <= a -> 0 <= k <= 100 -> 0 <= a * k / 100 <= a.
Proof.
  intros Ha Hk. split.
  - apply Z.div_pos; nia.
  - apply Z.div_le_upper_bound; nia.
Qed.

Lemma spec_discountContract : @discountContract SpecPricing.helpers.
Proof.
  intros encoded quantity. simpl.
  split; [reflexivity|]. split; [lia|reflexivity].
Qed.

Lemma spec_couponContract : @couponContract SpecPricing.helpers.
Proof.
  intros amount c Ha. simpl. unfold SpecPricing.couponDiscount.
  destruct (coupon.Type_ c =? 1).
  - apply percent_of_bounds; [lia | apply clampPercent_bounds].
  - lia.
Qed.

Lemma spec_feeContract : @feeContract SpecPricing.helpers.
Proof.
  intros amount p Ha. simpl. unfold SpecPricing.fee, SpecPricing.fixedFee.
  pose proof (percent_of_bounds amount
                (SpecPricing.clampPercent (payment.FeePercent p))
                ltac:(lia) (clampPercent_bounds _)) as Hpct.
  unfold MaxOrderAmount, Int64.max_int in *.
  destruct (payment.FeeMode p =? 1); [lia|].
  destruct (payment.FeeMode p =? 2); [lia|].
  destruct (payment.FeeMode p =? 3); lia.
Qed.

Lemma demo_pricesValid inventory sell :
  pricesValid (Demo.store inventory sell).
Proof.
  intros id p Hl. simpl in Hl.
  apply lookup_singleton_Some in Hl as [<- <-]. simpl.
  unfold MaxQuantity. change (2 ^ 61) with 2305843009213693952. lia.
Qed.

(** ** C1: the amount identity and the ceiling *)

(** C1, amended. Every order that Purchase, Renewal or Recharge stores
    satisfies
    Amount = Price - Discount - CouponDiscount - GiftAmount + FeeAmount,
    and every value the running amount takes on the way (after the
    discount, after the coupon, after the gift deduction, after the fee)
    lies in [0, MaxOrderAmount], provided that the plans carry a unit
    price that is not negative and a list price below 2^61, that
    getDiscount returns a multiplier between 0 and 1, that
    calculateCoupon returns between 0 and the amount, and that
    calculateFee returns a fee that is not negative and does not
    overflow. The discounted amount is computed in binary64, as the
    code does. The code checks the upper bound only, after the discount
    and after the fee; the lower bound rests on these conditions. *)
Theorem order_amount_invariant `{Helpers} (env : Env) (w : World)
    (cu : option user.User) :
  discountContract -> couponContract -> feeContract -> pricesValid (db w) ->
  (forall req w1 resp,
     Purchase env w cu req = (w1, Ok resp) ->
     exists p, purchasePrepare env (db w) cu req = Ok p
               /\ stored w w1 (pr_order p) resp
               /\ pricedOrder (pr_order p) (pr_stages p))
  /\ (forall req w1 resp,
        Renewal env w cu req = (w1, Ok resp) ->
        exists p, renewalPrepare env (db w) cu req = Ok p
                  /\ stored w w1 (pr_order p) resp
                  /\ pricedOrder (pr_order p) (pr_stages p))
  /\ (forall req w1 resp,
        Recharge env w cu req = (w1, Ok resp) ->
        exists o stages, rechargePrepare env (db w) cu req = Ok (o, stages)
                         /\ stored w w1 o resp
                         /\ pricedOrder o stages).
Proof.
  intros Hd Hc Hf Hv. repeat split.
  - intros req w1 resp Hp.
    apply Purchase_Ok_inv in Hp as (p & Hprep & Htx & _ & Hno).
    exists p. split; [exact Hprep|]. split.
    + split; [|exact Hno].
      apply purchaseTx_commit in Htx. rewrite Htx.
      apply orders_purchaseCommitted.
    + eapply purchasePrepare_priced; eauto.
  - intros req w1 resp Hp.
    apply Renewal_Ok_inv in Hp as (p & Hprep & Htx & _ & Hno).
    exists p. split; [exact Hprep|]. split.
    + split; [|exact Hno].
      apply renewalTx_commit in Htx. rewrite Htx.
      apply orders_renewalCommitted.
    + eapply renewalPrepare_priced; eauto.
  - intros req w1 resp Hp.
    apply Recharge_Ok_inv in Hp as (o & stages & Hprep & Hdb & _ & Hno).
    exists o, stages. split; [exact Hprep|]. split.
    + split; [|exact Hno]. rewrite Hdb. reflexivity.
    + eapply rechargePrepare_priced; eauto.
Qed.

Lemma order_amount_invariant_witness :
  @discountContract SpecPricing.helpers
  /\ @couponContract SpecPricing.helpers
  /\ @feeContract SpecPricing.helpers
  /\ pricesValid (db (Demo.world 5 true))
  /\ exists p,
       @purchasePrepare SpecPricing.helpers Demo.env
         (db (Demo.world 5 true)) (Some Demo.bob) (Demo.buy 3 1 "SAVE") = Ok p
       /\ order.Amount (pr_order p) = 2750
       /\ pricedOrder (pr_order p) (pr_stages p).
Proof.
  split; [exact spec_discountContract|].
  split; [exact spec_couponContract|].
  split; [exact spec_feeContract|].
  split; [exact (demo_pricesValid 5 true)|].
  destruct (@order_amount_invariant SpecPricing.helpers Demo.env
              (Demo.world 5 true) (Some Demo.bob)
              spec_discountContract spec_couponContract spec_feeContract
              (demo_pricesValid 5 true)) as (HP & _ & _).
  destruct (HP (Demo.buy 3 1 "SAVE")
              (fst (@Purchase SpecPricing.helpers Demo.env (Demo.world 5 true)
                      (Some Demo.bob) (Demo.buy 3 1 "SAVE")))
              {| types.OrderNo := "202611010001" |})
    as (p & Hprep & _ & Hpriced).
  { vm_compute. reflexivity. }
  exists p. split; [exact Hprep|]. split; [|exact Hpriced].
  vm_compute in Hprep. injection Hprep as <-. reflexivity.
Defined.

(** C1 as stated fails. For a plan whose unit price is the greatest
    int64, the list price of two units wraps around to -2. The
    multiplier is 1, so the discounted amount is -2 as well; it passes
    the ceiling check, the gift and fee blocks are skipped, and the
    order is stored with the amount -2, below the range. *)
Lemma wrapped_list_price_is_stored :
  let run := @Purchase SpecPricing.helpers Demo.env demoWrappedWorld
               (Some Demo.bob) (Demo.buy 2 1 "") in
  isOk (snd run) = true
  /\ exists o,
       orders (db (fst run)) = orders (db demoWrappedWorld) ++ [o]
       /\ order.Price o = -2
       /\ order.Amount o = -2
       /\ ~ amountInRange (order.Amount o).
Proof.
  split; [vm_compute; reflexivity|].
  eexists. split; [vm_compute; reflexivity|]. simpl.
  split; [reflexivity|]. split; [reflexivity|].
  unfold amountInRange. lia.
Qed.

(** ** C2: the fulfilment transaction *)

Lemma setDb_same w : setDb (db w) w = w.
Proof. destruct w; reflexivity. Qed.

Lemma subscribes_renewalCommitted env p s :
  subscribes (renewalCommitted env p s) = subscribes s.
Proof.
  unfold renewalCommitted.
  destruct (0 <? order.GiftAmount (pr_order p)); reflexivity.
Qed.

(** The body of the transaction does leave partial writes behind when a
    later write fails: here the balance update is made and the ledger
    insert fails. Purchase returns the world as it found it. *)
Example partial_writes_are_rolled_back :
  let env := Demo.envFailing Demo.ledgerFails in
  let w := Demo.world 5 true in
  exists p s1,
    @purchasePrepare SpecPricing.helpers env (db w) (Some Demo.alice)
      (Demo.buy 3 1 "") = Ok p
    /\ purchaseTx env p (db w) = (s1, Some ErrStore)
    /\ user.GiftAmount <$> users s1 !! 1 = Some 2000
    /\ user.GiftAmount <$> users (db w) !! 1 = Some 5000
    /\ @Purchase SpecPricing.helpers env w (Some Demo.alice) (Demo.buy 3 1 "")
       = (w, Err (CodeError xerr.DatabaseInsertError)).
Proof.
  eexists. eexists.
  split; [vm_compute; reflexivity|].
  split; [vm_compute; reflexivity|].
  repeat split; vm_compute; reflexivity.
Qed.

(** What a Purchase request leaves behind, by its result. *)
Lemma Purchase_outcome `{Helpers} (env : Env) (w : World)
    (cu : option user.User) (req : types.PurchaseOrderRequest) :
  match Purchase env w cu req with
  | (w1, Ok resp) =>
      exists p, purchasePrepare env (db w) cu req = Ok p
                /\ db w1 = purchaseCommitted env p (db w)
                /\ types.OrderNo resp = order.OrderNo (pr_order p)
  | (w1, Err _) => w1 = w
  end.
Proof.
  unfold Purchase.
  destruct (purchasePrepare env (db w) cu req) as [p|e]; [|reflexivity].
  destruct (Transaction (purchaseTx env p) (db w)) as [s1 [e|]] eqn:Htx.
  - apply Transaction_rollback in Htx. subst s1. apply setDb_same.
  - apply Transaction_commit, purchaseTx_commit in Htx.
    exists p. rewrite db_deferCloseOrder. simpl. auto.
Qed.

(** What a Renewal request leaves behind, by its result. *)
Lemma Renewal_outcome `{Helpers} (env : Env) (w : World)
    (cu : option user.User) (req : types.RenewalOrderRequest) :
  match Renewal env w cu req with
  | (w1, Ok resp) =>
      exists p, renewalPrepare env (db w) cu req = Ok p
                /\ db w1 = renewalCommitted env p (db w)
                /\ subscribes (db w1) = subscribes (db w)
                /\ types.OrderNo resp = order.OrderNo (pr_order p)
  | (w1, Err _) => w1 = w
  end.
Proof.
  unfold Renewal.
  destruct (renewalPrepare env (db w) cu req) as [p|e]; [|reflexivity].
  destruct (Transaction (renewalTx env p) (db w)) as [s1 [e|]] eqn:Htx.
  - apply Transaction_rollback in Htx. subst s1. apply setDb_same.
  - apply Transaction_commit, renewalTx_commit in Htx.
    exists p. rewrite db_deferCloseOrder. simpl.
    split; [reflexivity|]. split; [exact Htx|].
    split; [|reflexivity]. rewrite Htx. apply subscribes_renewalCommitted.
Qed.

(** C2, as the code has it. In Purchase the balance update and the
    ledger insert (when a gift deduction was made), the inventory
    decrement (when the inventory is not -1) and the order insert are
    one transaction: a request that returns an order number has
    committed all of them, and a request that returns an error has left
    the world as it was. In Renewal the transaction holds the balance
    update, the ledger insert and the order insert, with the same
    all-or-nothing outcome; Renewal never writes the plan. *)
Theorem fulfillment_atomic `{Helpers} (env : Env) (w : World)
    (cu : option user.User) :
  (forall req,
     match Purchase env w cu req with
     | (w1, Ok resp) =>
         exists p, purchasePrepare env (db w) cu req = Ok p
                   /\ db w1 = purchaseCommitted env p (db w)
                   /\ types.OrderNo resp = order.OrderNo (pr_order p)
     | (w1, Err _) => w1 = w
     end)
  /\ (forall req,
        match Renewal env w cu req with
        | (w1, Ok resp) =>
            exists p, renewalPrepare env (db w) cu req = Ok p
                      /\ db w1 = renewalCommitted env p (db w)
                      /\ subscribes (db w1) = subscribes (db w)
                      /\ types.OrderNo resp = order.OrderNo (pr_order p)
        | (w1, Err _) => w1 = w
        end).
Proof.
  split; intros req; [apply Purchase_outcome | apply Renewal_outcome].
Qed.

(** C2 as stated fails for Renewal: against a plan with a finite
    inventory of 5 the balance update, the ledger insert and the order
    insert commit, and the inventory is not decremented. *)
Lemma renewal_commits_without_inventory_decrement :
  let w := Demo.world 5 true in
  let out := @Renewal SpecPricing.helpers Demo.env w (Some Demo.alice)
               (Demo.renew 2 1 "") in
  snd out = Ok {| types.OrderNo := "202611010001" |}
  /\ length (orders (db (fst out))) = 1%nat
  /\ length (systemLogs (db (fst out))) = 1%nat
  /\ user.GiftAmount <$> users (db (fst out)) !! 1 = Some 3000
  /\ subscribe.Inventory <$> subscribes (db w) !! 1 = Some 5
  /\ subscribe.Inventory <$> subscribes (db (fst out)) !! 1 = Some 5.
Proof. repeat split; vm_compute; reflexivity. Qed.

(** ** C4: the inventory counter *)

Lemma subscribes_purchaseCommitted env p s :
  subscribes (purchaseCommitted env p s)
  = if subscribe.Inventory (pr_sub p) =? -1 then subscribes s
    else <[subscribe.Id (pr_sub p) :=
             subscribe.withInventory
               (Int64.sub (subscribe.Inventory (pr_sub p)) 1) (pr_sub p)]>
           (subscribes s).
Proof.
  unfold purchaseCommitted.
  destruct (0 <? order.GiftAmount (pr_order p));
    destruct (subscribe.Inventory (pr_sub p) =? -1); reflexivity.
Qed.

Lemma purchaseGuard_plan `{Helpers} env s cu req g :
  purchaseGuard env s cu req = Ok g ->
  subscribes s !! types.p_SubscribeId req = Some (g_sub g)
  /\ subscribe.Inventory (g_sub g) <> 0.
Proof.
  intros Hg. unfold purchaseGuard in Hg.
  destruct cu as [u|]; [|discriminate].
  ok_steps Hg. injection Hg as <-. simpl.
  apply SubscribeFindOne_Ok in Hstep2. apply Z.eqb_neq in Hstep4. auto.
Qed.

Lemma purchasePrepare_plan `{Helpers} env s cu req p :
  purchasePrepare env s cu req = Ok p ->
  subscribes s !! types.p_SubscribeId req = Some (pr_sub p)
  /\ subscribe.Inventory (pr_sub p) <> 0.
Proof.
  intros Hp. unfold purchasePrepare in Hp.
  apply bind_Ok_inv in Hp as ([g q] & Hq & Hp).
  unfold purchaseQuote in Hq. ok_steps Hq. injection Hq as <- <-.
  ok_steps Hp. destruct a2. ok_steps Hp. injection Hp as <-. simpl.
  eapply purchaseGuard_plan; eauto.
Qed.

(** A request against a sold-out plan that gets as far as the inventory
    check is answered with the out-of-stock error. *)
Lemma purchaseGuard_out_of_stock `{Helpers} env s u req plan :
  failQueryUserSubscribe (failing env) = false ->
  failSubscribeFindOne (failing env) = false ->
  subscribes s !! types.p_SubscribeId req = Some plan ->
  firstViolation [quantityCheck req; singleModeCheck env u; sellableCheck plan]
  = None ->
  subscribe.Inventory plan = 0 ->
  purchaseGuard env s (Some u) req = Err (CodeError xerr.SubscribeOutOfStock).
Proof.
  intros Hf1 Hf2 Hplan Hchecks Hinv.
  unfold firstViolation, quantityCheck, singleModeCheck, sellableCheck in Hchecks.
  simpl in Hchecks.
  unfold purchaseGuard, QueryUserSubscribe, SubscribeFindOne.
  rewrite Hf1, Hf2, Hplan. simpl.
  destruct (MaxQuantity <? normalizeQuantity (types.p_Quantity req));
    [discriminate|]. simpl.
  destruct (SingleModel env
            && (0 <? Z.of_nat (length (QueryUserSubscribeRows env (user.Id u)))));
    [discriminate|]. simpl.
  destruct (subscribe.Sell plan); [|discriminate]. simpl.
  rewrite Hinv. reflexivity.
Qed.

(** C4, as the code has it. For Purchase: a plan whose inventory is -1
    is never written; a plan whose inventory is 0 never yields an order,
    and the request that reaches the inventory check is rejected with
    the out-of-stock error; a plan with inventory N > 0 is left with
    N - 1 by every request that returns an order number, whatever the
    quantity. Renewal leaves every plan as it was. *)
Theorem inventory_rules `{Helpers} (env : Env) (w : World) (u : user.User)
    (req : types.PurchaseOrderRequest) (plan : subscribe.Subscribe) :
  subscribes (db w) !! types.p_SubscribeId req = Some plan ->
  subscribe.Id plan = types.p_SubscribeId req ->
  (subscribe.Inventory plan = -1 ->
     subscribes (db (fst (Purchase env w (Some u) req))) = subscribes (db w))
  /\ (subscribe.Inventory plan = 0 ->
        fst (Purchase env w (Some u) req) = w
        /\ isOk (snd (Purchase env w (Some u) req)) = false
        /\ (failQueryUserSubscribe (failing env) = false ->
            failSubscribeFindOne (failing env) = false ->
            firstViolation
              [quantityCheck req; singleModeCheck env u; sellableCheck plan]
            = None ->
            snd (Purchase env w (Some u) req)
            = Err (CodeError xerr.SubscribeOutOfStock)))
  /\ (0 < subscribe.Inventory plan <= Int64.max_int ->
        isOk (snd (Purchase env w (Some u) req)) = true ->
        subscribes (db (fst (Purchase env w (Some u) req)))
        = <[types.p_SubscribeId req :=
              subscribe.withInventory (subscribe.Inventory plan - 1) plan]>
            (subscribes (db w)))
  /\ (forall cu rreq,
        subscribes (db (fst (Renewal env w cu rreq))) = subscribes (db w)).
Proof.
  intros Hplan Hid.
  pose proof (Purchase_outcome env w (Some u) req) as HP.
  split; [|split; [|split]].
  - intros Hinv.
    destruct (Purchase env w (Some u) req) as [w1 [resp|e]]; simpl.
    + destruct HP as (p & Hprep & Hdb & _).
      apply purchasePrepare_plan in Hprep as [Hsub _].
      rewrite Hplan in Hsub. injection Hsub as Hsub.
      rewrite Hdb, subscribes_purchaseCommitted, <- Hsub, Hinv. reflexivity.
    + rewrite HP. reflexivity.
  - intros Hinv.
    assert (Hrej : fst (Purchase env w (Some u) req) = w
                   /\ isOk (snd (Purchase env w (Some u) req)) = false).
    { destruct (Purchase env w (Some u) req) as [w1 [resp|e]]; simpl;
        [|split; [exact HP | reflexivity]].
      destruct HP as (p & Hprep & _).
      apply purchasePrepare_plan in Hprep as [Hsub Hne].
      rewrite Hplan in Hsub. injection Hsub as Hsub. congruence. }
    destruct Hrej as [Hw Hr]. split; [exact Hw|]. split; [exact Hr|].
    intros Hf1 Hf2 Hchecks.
    unfold Purchase, purchasePrepare, purchaseQuote.
    rewrite (purchaseGuard_out_of_stock env (db w) u req plan); auto.
  - intros Hinv Hok.
    destruct (Purchase env w (Some u) req) as [w1 [resp|e]]; simpl in *;
      [|discriminate].
    destruct HP as (p & Hprep & Hdb & _).
    apply purchasePrepare_plan in Hprep as [Hsub _].
    rewrite Hplan in Hsub. injection Hsub as Hsub.
    rewrite Hdb, subscribes_purchaseCommitted, <- Hsub, Hid.
    destruct (Z.eqb_spec (subscribe.Inventory plan) (-1)) as [Heq|_]; [lia|].
    unfold Int64.sub. rewrite wrap_id; [reflexivity|].
    unfold Int64.in_range, Int64.min_int, Int64.max_int in *. lia.
  - intros cu rreq. pose proof (Renewal_outcome env w cu rreq) as HR.
    destruct (Renewal env w cu rreq) as [w1 [resp|e]]; simpl.
    + destruct HR as (p & _ & _ & Hs & _). exact Hs.
    + rewrite HR. reflexivity.
Qed.

Lemma inventory_rules_witness :
  subscribes (db (Demo.world 5 true)) !! types.p_SubscribeId (Demo.buy 3 1 "")
  = Some (Demo.plan 5 true)
  /\ subscribe.Id (Demo.plan 5 true) = types.p_SubscribeId (Demo.buy 3 1 "")
  /\ 0 < subscribe.Inventory (Demo.plan 5 true) <= Int64.max_int
  /\ subscribes
       (db (fst (@Purchase SpecPricing.helpers Demo.env (Demo.world 5 true)
                   (Some Demo.bob) (Demo.buy 3 1 ""))))
     = <[1 := Demo.plan 4 true]> (subscribes (db (Demo.world 5 true))).
Proof.
  assert (Hplan : subscribes (db (Demo.world 5 true))
                  !! types.p_SubscribeId (Demo.buy 3 1 "")
                  = Some (Demo.plan 5 true)) by (vm_compute; reflexivity).
  assert (Hid : subscribe.Id (Demo.plan 5 true)
                = types.p_SubscribeId (Demo.buy 3 1 "")) by reflexivity.
  assert (Hinv : 0 < subscribe.Inventory (Demo.plan 5 true) <= Int64.max_int)
    by (vm_compute; split; [reflexivity | discriminate]).
  split; [exact Hplan|]. split; [exact Hid|]. split; [exact Hinv|].
  destruct (@inventory_rules SpecPricing.helpers Demo.env (Demo.world 5 true)
              Demo.bob (Demo.buy 3 1 "") (Demo.plan 5 true) Hplan Hid)
    as (_ & _ & Hdec & _).
  apply (Hdec Hinv). vm_compute. reflexivity.
Defined.

(** A sold-out plan and an unlimited plan, run. *)
Example purchase_sold_out :
  @Purchase SpecPricing.helpers Demo.env (Demo.world 0 true) (Some Demo.bob)
    (Demo.buy 1 1 "")
  = (Demo.world 0 true, Err (CodeError xerr.SubscribeOutOfStock)).
Proof. vm_compute. reflexivity. Qed.

Example purchase_unlimited :
  let out := @Purchase SpecPricing.helpers Demo.env (Demo.world (-1) true)
               (Some Demo.bob) (Demo.buy 7 1 "") in
  isOk (snd out) = true
  /\ subscribe.Inventory <$> subscribes (db (fst out)) !! 1 = Some (-1).
Proof. split; vm_compute; reflexivity. Qed.

(** C4 as stated fails for Renewal: an order is created against a plan
    with inventory 3, and the inventory is still 3 afterwards. *)
Lemma renewal_leaves_inventory :
  let w := Demo.world 3 true in
  let out := @Renewal SpecPricing.helpers Demo.env w (Some Demo.bob)
               (Demo.renew 3 2 "") in
  isOk (snd out) = true
  /\ length (orders (db (fst out))) = S (length (orders (db w)))
  /\ subscribe.Inventory <$> subscribes (db w) !! 1 = Some 3
  /\ subscribe.Inventory <$> subscribes (db (fst out)) !! 1 = Some 3.
Proof. repeat split; vm_compute; reflexivity. Qed.

(** ** C3: the order of the checks of Purchase *)

Lemma readsSucceed_fields f :
  readsSucceed f ->
  failQueryUserSubscribe f = false
  /\ failSubscribeFindOne f = false
  /\ failCouponFindOneByCode f = false
  /\ failOrderCount f = false
  /\ failPaymentFindOne f = false
  /\ failIsUserEligibleForNewOrder f = false.
Proof. unfold readsSucceed. tauto. Qed.

(** The coupon block returns the error of the first coupon check that
    is violated, and the coupon value when none is. *)
Lemma couponStage_checks `{Helpers} env s u req plan :
  failCouponFindOneByCode (failing env) = false ->
  failOrderCount (failing env) = false ->
  couponStage env s u (types.p_SubscribeId req) (types.p_Coupon req)
    (discountedAmount req plan)
  = match firstViolation (couponChecks s u req) with
    | Some c => Err (CodeError c)
    | None => Ok (couponValue s req plan)
    end.
Proof.
  intros Hf1 Hf2.
  unfold couponStage, couponChecks, couponValue, CouponFindOneByCode,
    CountCouponOrders, firstViolation.
  rewrite Hf1, Hf2.
  destruct (String.eqb (types.p_Coupon req) ""); [reflexivity|].
  destruct (coupons s !! types.p_Coupon req) as [c|]; [|reflexivity].
  simpl.
  destruct (negb (coupon.Count c =? 0)
            && (coupon.Count c <=? coupon.UsedCount c)); [reflexivity|].
  simpl.
  destruct ((0 <? Z.of_nat (length (StringToInt64Slice (coupon.Subscribe c))))
            && negb (Contains (StringToInt64Slice (coupon.Subscribe c))
                       (types.p_SubscribeId req))); [reflexivity|].
  simpl.
  destruct (coupon.UserLimit c
            <=? Z.of_nat (length (couponOrders s (user.Id u) (types.p_Coupon req))));
    reflexivity.
Qed.

Lemma firstViolation_cons b c rest :
  firstViolation ((b, c) :: rest)
  = if b then Some c else firstViolation rest.
Proof. unfold firstViolation. simpl. destruct b; reflexivity. Qed.

Lemma firstViolation_app l1 l2 :
  firstViolation (l1 ++ l2)
  = match firstViolation l1 with
    | Some c => Some c
    | None => firstViolation l2
    end.
Proof.
  induction l1 as [|[b c] l1 IH]; [reflexivity|].
  simpl. rewrite !firstViolation_cons. destruct b; [reflexivity | exact IH].
Qed.

(** Without store failures, the preparation of a purchase fails with
    the error of the first violated check, in the order of the code. *)
Lemma purchasePrepare_checks `{Helpers} env s u req plan pay :
  readsSucceed (failing env) ->
  subscribes s !! types.p_SubscribeId req = Some plan ->
  payments s !! types.p_Payment req = Some pay ->
  match firstViolation (purchaseChecks env s u req plan pay) with
  | Some c => purchasePrepare env s (Some u) req = Err (CodeError c)
  | None => isOk (purchasePrepare env s (Some u) req) = true
  end.
Proof.
  intros Hr Hplan Hpay.
  apply readsSucceed_fields in Hr as (Hf1 & Hf2 & Hf3 & Hf4 & Hf5 & Hf6).
  unfold purchaseChecks.
  unfold quantityCheck, singleModeCheck, sellableCheck, inventoryCheck,
    quotaCheck, ceilingCheck, feeCeilingCheck.
  unfold purchasePrepare, purchaseQuote, purchaseGuard, QueryUserSubscribe,
    SubscribeFindOne, PaymentFindOne, IsUserEligibleForNewOrder.
  rewrite Hf1, Hf2, Hf5, Hf6, Hplan, Hpay.
  simpl "++". rewrite !firstViolation_cons.
  destruct (MaxQuantity <? normalizeQuantity (types.p_Quantity req));
    [reflexivity|]. simpl.
  destruct (SingleModel env
            && (0 <? Z.of_nat (length (QueryUserSubscribeRows env (user.Id u)))));
    [reflexivity|]. simpl.
  destruct (negb (subscribe.Sell plan)); [reflexivity|]. simpl.
  destruct (subscribe.Inventory plan =? 0); [reflexivity|]. simpl.
  destruct ((0 <? subscribe.Quota plan)
            && (subscribe.Quota plan
                <=? quotaCount (QueryUserSubscribeRows env (user.Id u))
                      (types.p_SubscribeId req))); [reflexivity|]. simpl.
  fold (discountedAmount req plan).
  destruct (MaxOrderAmount <? discountedAmount req plan); [reflexivity|]. simpl.
  rewrite firstViolation_app.
  rewrite (couponStage_checks env s u req plan Hf3 Hf4).
  destruct (firstViolation (couponChecks s u req)) as [c|]; [reflexivity|].
  simpl. rewrite firstViolation_cons.
  destruct (purchaseFee
              (q_remainder (quote (user.GiftAmount u) (discountedAmount req plan)
                              (couponValue s req plan))) pay)
    as [[feeAmount total]|e] eqn:Hfee; simpl.
  - reflexivity.
  - unfold purchaseFee in Hfee.
    destruct (0 <? q_remainder _); [|discriminate].
    simpl in Hfee.
    destruct (MaxOrderAmount <? _); simpl in Hfee; [|discriminate].
    injection Hfee as <-. reflexivity.
Qed.

(** C3, as the code has it. Purchase makes its checks in this order and
    returns the error of the first one that is violated: quantity
    (a quantity of 0 or less counts as 1; above MaxQuantity = 1000 is
    InvalidParams), single-subscription mode, plan sellable, inventory
    equal to 0 (so -1 passes), per-user quota, amount ceiling after the
    discount, the coupon checks, amount ceiling after the fee. When no
    check is violated the request goes on to its transaction. The store
    reads are taken to succeed and the plan and the payment method to
    exist. *)
Theorem purchase_checks_in_order `{Helpers} (env : Env) (w : World)
    (u : user.User) (req : types.PurchaseOrderRequest)
    (plan : subscribe.Subscribe) (pay : payment.Payment) :
  readsSucceed (failing env) ->
  subscribes (db w) !! types.p_SubscribeId req = Some plan ->
  payments (db w) !! types.p_Payment req = Some pay ->
  match firstViolation (purchaseChecks env (db w) u req plan pay) with
  | Some c => Purchase env w (Some u) req = (w, Err (CodeError c))
  | None => isOk (purchasePrepare env (db w) (Some u) req) = true
  end.
Proof.
  intros Hr Hplan Hpay.
  pose proof (purchasePrepare_checks env (db w) u req plan pay Hr Hplan Hpay) as Hc.
  destruct (firstViolation (purchaseChecks env (db w) u req plan pay)) as [c|];
    [|exact Hc].
  unfold Purchase. rewrite Hc. reflexivity.
Qed.

Lemma demo_readsSucceed : readsSucceed Demo.noFaults.
Proof. repeat split. Qed.

Lemma purchase_checks_in_order_witness :
  readsSucceed (failing Demo.envSingle)
  /\ subscribes (db (Demo.world 5 false)) !! types.p_SubscribeId (Demo.buy 1 1 "")
     = Some (Demo.plan 5 false)
  /\ payments (db (Demo.world 5 false)) !! types.p_Payment (Demo.buy 1 1 "")
     = Some Demo.epay
  /\ @Purchase SpecPricing.helpers Demo.envSingle (Demo.world 5 false)
       (Some Demo.bob) (Demo.buy 1 1 "")
     = (Demo.world 5 false, Err (CodeError xerr.UserSubscribeExist)).
Proof.
  assert (Hplan : subscribes (db (Demo.world 5 false))
                  !! types.p_SubscribeId (Demo.buy 1 1 "")
                  = Some (Demo.plan 5 false)) by (vm_compute; reflexivity).
  assert (Hpay : payments (db (Demo.world 5 false))
                 !! types.p_Payment (Demo.buy 1 1 "")
                 = Some Demo.epay) by (vm_compute; reflexivity).
  split; [exact demo_readsSucceed|]. split; [exact Hplan|]. split; [exact Hpay|].
  exact (@purchase_checks_in_order SpecPricing.helpers Demo.envSingle
           (Demo.world 5 false) Demo.bob (Demo.buy 1 1 "") (Demo.plan 5 false)
           Demo.epay demo_readsSucceed Hplan Hpay).
Defined.

(** C3 as stated fails. With single-subscription mode on, a user who
    holds a subscription and a plan that is not for sale, the stated
    order reports the plan and the code reports the subscription. With
    a list price above the ceiling and an unknown coupon, the stated
    order reports the coupon and the code reports the ceiling. *)
Lemma stated_check_order_fails :
  (firstViolation
     (@statedPurchaseChecks SpecPricing.helpers Demo.envSingle
        (Demo.store 5 false) Demo.bob (Demo.buy 1 1 "") (Demo.plan 5 false)
        Demo.epay)
   = Some xerr.ERROR
   /\ snd (@Purchase SpecPricing.helpers Demo.envSingle (Demo.world 5 false)
             (Some Demo.bob) (Demo.buy 1 1 ""))
      = Err (CodeError xerr.UserSubscribeExist))
  /\ (firstViolation
        (@statedPurchaseChecks SpecPricing.helpers Demo.env
           (Demo.storeWith Demo.pricey) Demo.bob (Demo.buy 1000 1 "NONE")
           Demo.pricey Demo.epay)
      = Some xerr.CouponNotExist
      /\ snd (@Purchase SpecPricing.helpers Demo.env Demo.priceyWorld
                (Some Demo.bob) (Demo.buy 1000 1 "NONE"))
         = Err (CodeError xerr.InvalidParams)).
Proof. repeat split; vm_compute; reflexivity. Qed.

(** ** C5: the coupon conditions *)

Lemma Contains_In l x : Contains l x = true <-> In x l.
Proof.
  unfold Contains. rewrite existsb_exists. split.
  - intros (y & Hy & Heq). apply Z.eqb_eq in Heq. subst. exact Hy.
  - intros Hx. exists x. split; [exact Hx | apply Z.eqb_refl].
Qed.

Lemma nonempty_length {A} (l : list A) :
  (0 <? Z.of_nat (length l)) = false <-> l = [].
Proof.
  destruct l; simpl; split; intros Hl; try reflexivity; discriminate.
Qed.

Lemma remaining_uses_check c :
  negb (coupon.Count c =? 0) && (coupon.Count c <=? coupon.UsedCount c) = false
  <-> hasRemainingUses c.
Proof.
  unfold hasRemainingUses.
  destruct (Z.eqb_spec (coupon.Count c) 0) as [Hz|Hnz];
    destruct (Z.leb_spec (coupon.Count c) (coupon.UsedCount c)); simpl;
    split; intros Hx; try reflexivity; try discriminate; try lia.
Qed.

Lemma applies_check `{Helpers} planId c :
  (0 <? Z.of_nat (length (StringToInt64Slice (coupon.Subscribe c))))
  && negb (Contains (StringToInt64Slice (coupon.Subscribe c)) planId) = false
  <-> appliesToPlan planId c.
Proof.
  unfold appliesToPlan. rewrite andb_false_iff, nonempty_length.
  rewrite negb_false_iff, Contains_In. reflexivity.
Qed.

Lemma couponStage_violation `{Helpers} env s u planId code amount c :
  failCouponFindOneByCode (failing env) = false ->
  failOrderCount (failing env) = false ->
  code <> "" ->
  CouponViolation s (user.Id u) planId code c ->
  couponStage env s u planId code amount = Err (CodeError c).
Proof.
  intros Hf1 Hf2 Hcode Hv.
  unfold couponStage, CouponFindOneByCode, CountCouponOrders.
  rewrite Hf1, Hf2.
  apply String.eqb_neq in Hcode. rewrite Hcode.
  destruct Hv as [Hnone | ci Hsome Hrem | ci Hsome Hrem Happ
                 | ci Hsome Hrem Happ Hlim].
  - rewrite Hnone. reflexivity.
  - rewrite Hsome. simpl.
    destruct (negb (coupon.Count ci =? 0)
              && (coupon.Count ci <=? coupon.UsedCount ci)) eqn:Hb;
      [reflexivity|].
    apply remaining_uses_check in Hb. contradiction.
  - rewrite Hsome. simpl.
    apply remaining_uses_check in Hrem. rewrite Hrem. simpl.
    destruct ((0 <? Z.of_nat (length (StringToInt64Slice (coupon.Subscribe ci))))
              && negb (Contains (StringToInt64Slice (coupon.Subscribe ci)) planId))
      eqn:Hb; [reflexivity|].
    apply applies_check in Hb. contradiction.
  - rewrite Hsome. simpl.
    apply remaining_uses_check in Hrem. rewrite Hrem. simpl.
    apply applies_check in Happ. rewrite Happ. simpl.
    unfold redemptions in Hlim.
    destruct (Z.leb_spec (coupon.UserLimit ci)
                (Z.of_nat (length (couponOrders s (user.Id u) code))));
      [reflexivity | lia].
Qed.

Lemma couponStage_accepted `{Helpers} env s u planId code amount ci :
  failCouponFindOneByCode (failing env) = false ->
  failOrderCount (failing env) = false ->
  code <> "" ->
  CouponAccepted s (user.Id u) planId code ci ->
  couponStage env s u planId code amount
  = Ok (Int64.wrap (calculateCoupon amount ci)).
Proof.
  intros Hf1 Hf2 Hcode (Hsome & Hrem & Happ & Hlim).
  unfold couponStage, CouponFindOneByCode, CountCouponOrders.
  rewrite Hf1, Hf2.
  apply String.eqb_neq in Hcode. rewrite Hcode, Hsome. simpl.
  apply remaining_uses_check in Hrem. rewrite Hrem. simpl.
  apply applies_check in Happ. rewrite Happ. simpl.
  unfold redemptions in Hlim.
  destruct (Z.leb_spec (coupon.UserLimit ci)
              (Z.of_nat (length (couponOrders s (user.Id u) code))));
    [lia | reflexivity].
Qed.

(** C5. A Purchase or Renewal request with a coupon code that reaches
    the coupon checks is rejected with the error of the first condition
    it violates, and the world is left as it was, so no order is
    created: a coupon that does not exist (CouponNotExist), one without
    remaining uses, a total-use count of 0 meaning unlimited
    (CouponInsufficientUsage), one that does not apply to the plan, an
    empty allow-list meaning every plan (CouponNotApplicable), and a
    user whose orders carrying the code are not fewer than the per-user
    limit (CouponInsufficientUsage). A coupon that meets the four
    conditions is accepted and its value computed. The two coupon
    queries are taken to succeed. *)
Theorem coupon_rules `{Helpers} (env : Env) (w : World) (cu : option user.User) :
  failCouponFindOneByCode (failing env) = false ->
  failOrderCount (failing env) = false ->
  (forall req g c,
     types.p_Coupon req <> "" ->
     purchaseGuard env (db w) cu req = Ok g ->
     CouponViolation (db w) (user.Id (g_user g)) (types.p_SubscribeId req)
       (types.p_Coupon req) c ->
     Purchase env w cu req = (w, Err (CodeError c)))
  /\ (forall req g c,
        types.r_Coupon req <> "" ->
        renewalGuard env (db w) cu req = Ok g ->
        CouponViolation (db w) (user.Id (rg_user g)) (subscribe.Id (rg_sub g))
          (types.r_Coupon req) c ->
        Renewal env w cu req = (w, Err (CodeError c)))
  /\ (forall u planId code amount ci,
        code <> "" ->
        CouponAccepted (db w) (user.Id u) planId code ci ->
        couponStage env (db w) u planId code amount
        = Ok (Int64.wrap (calculateCoupon amount ci))).
Proof.
  intros Hf1 Hf2. split; [|split].
  - intros req g c Hcode Hg Hv.
    unfold Purchase, purchasePrepare, purchaseQuote. rewrite Hg. simpl.
    rewrite (couponStage_violation env (db w) (g_user g) _ _ _ c Hf1 Hf2 Hcode Hv).
    reflexivity.
  - intros req g c Hcode Hg Hv.
    unfold Renewal, renewalPrepare, renewalQuote. rewrite Hg. simpl.
    rewrite (couponStage_violation env (db w) (rg_user g) _ _ _ c Hf1 Hf2 Hcode Hv).
    reflexivity.
  - intros u planId code amount ci Hcode Hacc.
    apply couponStage_accepted; assumption.
Qed.

Lemma coupon_rules_witness :
  failCouponFindOneByCode (failing Demo.env) = false
  /\ failOrderCount (failing Demo.env) = false
  /\ types.p_Coupon (Demo.buy 1 1 "NONE") <> ""
  /\ isOk (@purchaseGuard SpecPricing.helpers Demo.env (db (Demo.world 5 true))
             (Some Demo.bob) (Demo.buy 1 1 "NONE")) = true
  /\ @CouponViolation SpecPricing.helpers (db (Demo.world 5 true))
       (user.Id Demo.bob) 1 "NONE" xerr.CouponNotExist
  /\ @Purchase SpecPricing.helpers Demo.env (Demo.world 5 true) (Some Demo.bob)
       (Demo.buy 1 1 "NONE")
     = (Demo.world 5 true, Err (CodeError xerr.CouponNotExist)).
Proof.
  assert (Hcode : types.p_Coupon (Demo.buy 1 1 "NONE") <> "") by discriminate.
  assert (Hv : @CouponViolation SpecPricing.helpers (db (Demo.world 5 true))
                 (user.Id Demo.bob) 1 "NONE" xerr.CouponNotExist).
  { apply coupon_missing. vm_compute. reflexivity. }
  split; [reflexivity|]. split; [reflexivity|]. split; [exact Hcode|].
  split; [vm_compute; reflexivity|]. split; [exact Hv|].
  destruct (@coupon_rules SpecPricing.helpers Demo.env (Demo.world 5 true)
              (Some Demo.bob) eq_refl eq_refl) as (HP & _ & _).
  eapply HP; [exact Hcode | vm_compute; reflexivity | exact Hv].
Defined.

(** The per-user limit, run: the coupon SAVE may be used once per user;
    after a first order that carries it, the second request is rejected
    and stores nothing. *)
Example coupon_user_limit_reached :
  let w1 := fst (@Purchase SpecPricing.helpers Demo.env (Demo.world 5 true)
                   (Some Demo.bob) (Demo.buy 3 1 "SAVE")) in
  redemptions (db w1) (user.Id Demo.bob) "SAVE" = 1
  /\ @Purchase SpecPricing.helpers Demo.env w1 (Some Demo.bob)
       (Demo.buy 1 1 "SAVE")
     = (w1, Err (CodeError xerr.CouponInsufficientUsage)).
Proof. split; vm_compute; reflexivity. Qed.

(** ** C6: the gift balance *)

Lemma quote_gift gift amount coupon :
  let q := quote gift amount coupon in
  q_coupon q = coupon
  /\ q_afterCoupon q = Int64.sub amount coupon
  /\ giftDeduct gift (q_afterCoupon q) = (q_deduction q, q_remainder q, q_gift q).
Proof.
  unfold quote.
  destruct (giftDeduct gift (Int64.sub amount coupon)) as [[d r] g] eqn:Hg.
  simpl. auto.
Qed.

Lemma purchaseQuote_inv `{Helpers} env s cu req g q :
  purchaseQuote env s cu req = Ok (g, q) ->
  exists coupon,
    purchaseGuard env s cu req = Ok g
    /\ couponStage env s (g_user g) (types.p_SubscribeId req)
         (types.p_Coupon req) (g_amount g) = Ok coupon
    /\ q = quote (user.GiftAmount (g_user g)) (g_amount g) coupon.
Proof.
  intros Hq. unfold purchaseQuote in Hq. ok_steps Hq.
  injection Hq as <- <-. eauto.
Qed.

Lemma renewalQuote_inv `{Helpers} env s cu req g pay q :
  renewalQuote env s cu req = Ok (g, pay, q) ->
  exists coupon,
    renewalGuard env s cu req = Ok g
    /\ couponStage env s (rg_user g) (subscribe.Id (rg_sub g))
         (types.r_Coupon req) (rg_amount g) = Ok coupon
    /\ PaymentFindOne env s (types.r_Payment req) = Ok pay
    /\ q = quote (user.GiftAmount (rg_user g)) (rg_amount g) coupon.
Proof.
  intros Hq. unfold renewalQuote in Hq. ok_steps Hq.
  injection Hq as <- <- <-. eauto.
Qed.

(** The order record of Purchase, field by field. *)
Lemma purchasePrepare_inv `{Helpers} env s cu req p :
  purchasePrepare env s cu req = Ok p ->
  exists g q pay feeAmount total,
    purchaseQuote env s cu req = Ok (g, q)
    /\ PaymentFindOne env s (types.p_Payment req) = Ok pay
    /\ purchaseFee (q_remainder q) pay = Ok (feeAmount, total)
    /\ pr_user p = withGiftAmount (q_gift q) (g_user g)
    /\ pr_sub p = g_sub g
    /\ order.GiftAmount (pr_order p) = q_deduction q
    /\ order.CouponDiscount (pr_order p) = q_coupon q
    /\ order.FeeAmount (pr_order p) = feeAmount
    /\ order.Amount (pr_order p) = total.
Proof.
  intros Hp. unfold purchasePrepare in Hp.
  apply bind_Ok_inv in Hp as ([g q] & Hq & Hp).
  ok_steps Hp. injection Hp as <-.
  exists g, q, a, z, z0. simpl. repeat split; auto.
Qed.

(** The order record of Renewal, field by field. *)
Lemma renewalPrepare_inv `{Helpers} env s cu req p :
  renewalPrepare env s cu req = Ok p ->
  exists g q pay feeAmount total,
    renewalQuote env s cu req = Ok (g, pay, q)
    /\ renewalFee (q_remainder q) pay = Ok (feeAmount, total)
    /\ pr_user p = withGiftAmount (q_gift q) (rg_user g)
    /\ pr_sub p = rg_sub g
    /\ order.GiftAmount (pr_order p) = q_deduction q
    /\ order.CouponDiscount (pr_order p) = q_coupon q
    /\ order.FeeAmount (pr_order p) = feeAmount
    /\ order.Amount (pr_order p) = total.
Proof.
  intros Hp. unfold renewalPrepare in Hp.
  apply bind_Ok_inv in Hp as ([[g pay] q] & Hq & Hp).
  ok_steps Hp. injection Hp as <-.
  exists g, q, pay, z, z0. simpl. repeat split; auto.
Qed.

Lemma systemLogs_purchaseCommitted env p s :
  systemLogs (purchaseCommitted env p s)
  = systemLogs s
    ++ (if 0 <? order.GiftAmount (pr_order p)
        then [giftLog env "Purchase order deduction" (pr_user p) (pr_order p)]
        else []).
Proof.
  unfold purchaseCommitted.
  destruct (0 <? order.GiftAmount (pr_order p));
    destruct (subscribe.Inventory (pr_sub p) =? -1); simpl;
    rewrite ?app_nil_r; reflexivity.
Qed.

Lemma systemLogs_renewalCommitted env p s :
  systemLogs (renewalCommitted env p s)
  = systemLogs s
    ++ (if 0 <? order.GiftAmount (pr_order p)
        then [giftLog env "Renewal order deduction" (pr_user p) (pr_order p)]
        else []).
Proof.
  unfold renewalCommitted.
  destruct (0 <? order.GiftAmount (pr_order p)); simpl;
    rewrite ?app_nil_r; reflexivity.
Qed.

Lemma giftDeduct_spec balance charge :
  0 <= balance <= Int64.max_int ->
  0 <= charge <= Int64.max_int ->
  match giftDeduct balance charge with
  | (deduction, due, rest) =>
      (charge <= balance ->
         deduction = charge /\ due = 0 /\ rest = balance - charge)
      /\ (balance < charge ->
            deduction = balance /\ due = charge - balance /\ rest = 0)
      /\ 0 <= rest
      /\ deduction <= balance
  end.
Proof.
  intros Hb Hc. unfold giftDeduct.
  assert (Hs1 : charge <= balance -> Int64.sub balance charge = balance - charge).
  { intros Hle. unfold Int64.sub. apply wrap_id.
    unfold Int64.in_range, Int64.min_int, Int64.max_int in *. lia. }
  assert (Hs2 : balance < charge -> Int64.sub charge balance = charge - balance).
  { intros Hlt. unfold Int64.sub. apply wrap_id.
    unfold Int64.in_range, Int64.min_int, Int64.max_int in *. lia. }
  destruct (Z.ltb_spec 0 balance) as [Hpos|Hzero].
  - destruct (Z.leb_spec charge balance) as [Hle|Hlt].
    + rewrite (Hs1 Hle). repeat split; lia.
    + rewrite (Hs2 Hlt). repeat split; lia.
  - repeat split; lia.
Qed.

(** C6. With a balance and a charge that are not negative: a balance of
    at least the charge pays the whole charge, nothing is left due and
    the balance goes down by the charge; a smaller balance is used up,
    the amount due goes down by it and the balance becomes zero; the
    balance left is never negative and the deduction never above the
    balance. In Purchase and in Renewal the charge is the amount after
    the discount and the coupon, the deduction is the GiftAmount of the
    order, and the request that stores an order appends a gift-ledger
    entry exactly when that deduction is above zero. *)
Theorem gift_deduction `{Helpers} (env : Env) (w : World) (cu : option user.User) :
  (forall balance charge,
     0 <= balance <= Int64.max_int ->
     0 <= charge <= Int64.max_int ->
     match giftDeduct balance charge with
     | (deduction, due, rest) =>
         (charge <= balance ->
            deduction = charge /\ due = 0 /\ rest = balance - charge)
         /\ (balance < charge ->
               deduction = balance /\ due = charge - balance /\ rest = 0)
         /\ 0 <= rest
         /\ deduction <= balance
     end)
  /\ (forall req w1 resp,
        Purchase env w cu req = (w1, Ok resp) ->
        exists p g q,
          purchasePrepare env (db w) cu req = Ok p
          /\ purchaseQuote env (db w) cu req = Ok (g, q)
          /\ q_afterCoupon q = Int64.sub (g_amount g) (q_coupon q)
          /\ giftDeduct (user.GiftAmount (g_user g)) (q_afterCoupon q)
             = (order.GiftAmount (pr_order p), q_remainder q,
                user.GiftAmount (pr_user p))
          /\ systemLogs (db w1)
             = systemLogs (db w)
               ++ (if 0 <? order.GiftAmount (pr_order p)
                   then [giftLog env "Purchase order deduction"
                           (pr_user p) (pr_order p)]
                   else []))
  /\ (forall req w1 resp,
        Renewal env w cu req = (w1, Ok resp) ->
        exists p g pay q,
          renewalPrepare env (db w) cu req = Ok p
          /\ renewalQuote env (db w) cu req = Ok (g, pay, q)
          /\ q_afterCoupon q = Int64.sub (rg_amount g) (q_coupon q)
          /\ giftDeduct (user.GiftAmount (rg_user g)) (q_afterCoupon q)
             = (order.GiftAmount (pr_order p), q_remainder q,
                user.GiftAmount (pr_user p))
          /\ systemLogs (db w1)
             = systemLogs (db w)
               ++ (if 0 <? order.GiftAmount (pr_order p)
                   then [giftLog env "Renewal order deduction"
                           (pr_user p) (pr_order p)]
                   else [])).
Proof.
  split; [exact giftDeduct_spec|]. split.
  - intros req w1 resp Hp.
    apply Purchase_Ok_inv in Hp as (p & Hprep & Htx & _ & _).
    apply purchaseTx_commit in Htx.
    destruct (purchasePrepare_inv _ _ _ _ _ Hprep)
      as (g & q & pay & fee & total & Hq & _ & _ & Hu & _ & Hd & _).
    destruct (purchaseQuote_inv _ _ _ _ _ _ Hq) as (coupon & _ & _ & Hquote).
    destruct (quote_gift (user.GiftAmount (g_user g)) (g_amount g) coupon)
      as (Hc & Ha & Hg).
    rewrite <- Hquote in Hc, Ha, Hg.
    exists p, g, q. split; [exact Hprep|]. split; [exact Hq|].
    split; [rewrite Hc; exact Ha|]. split.
    + rewrite Hg, Hd, Hu. reflexivity.
    + rewrite Htx. apply systemLogs_purchaseCommitted.
  - intros req w1 resp Hp.
    apply Renewal_Ok_inv in Hp as (p & Hprep & Htx & _ & _).
    apply renewalTx_commit in Htx.
    destruct (renewalPrepare_inv _ _ _ _ _ Hprep)
      as (g & q & pay & fee & total & Hq & _ & Hu & _ & Hd & _).
    destruct (renewalQuote_inv _ _ _ _ _ _ _ Hq) as (coupon & _ & _ & _ & Hquote).
    destruct (quote_gift (user.GiftAmount (rg_user g)) (rg_amount g) coupon)
      as (Hc & Ha & Hg).
    rewrite <- Hquote in Hc, Ha, Hg.
    exists p, g, pay, q. split; [exact Hprep|]. split; [exact Hq|].
    split; [rewrite Hc; exact Ha|]. split.
    + rewrite Hg, Hd, Hu. reflexivity.
    + rewrite Htx. apply systemLogs_renewalCommitted.
Qed.

Lemma gift_deduction_witness :
  0 <= 5000 <= Int64.max_int
  /\ 0 <= 3000 <= Int64.max_int
  /\ giftDeduct 5000 3000 = (3000, 0, 2000)
  /\ 3000 <= 5000
  /\ length (systemLogs
               (db (fst (@Purchase SpecPricing.helpers Demo.env
                           (Demo.world 5 true) (Some Demo.alice)
                           (Demo.buy 3 1 ""))))) = 1%nat.
Proof.
  assert (Hb : 0 <= 5000 <= Int64.max_int) by (vm_compute; split; discriminate).
  assert (Hc : 0 <= 3000 <= Int64.max_int) by (vm_compute; split; discriminate).
  split; [exact Hb|]. split; [exact Hc|].
  destruct (@gift_deduction SpecPricing.helpers Demo.env (Demo.world 5 true)
              (Some Demo.alice)) as (Hpure & Hpurchase & _).
  pose proof (Hpure 5000 3000 Hb Hc) as Hcase.
  split; [reflexivity|]. split; [discriminate|].
  destruct (Hpurchase (Demo.buy 3 1 "")
              (fst (@Purchase SpecPricing.helpers Demo.env (Demo.world 5 true)
                      (Some Demo.alice) (Demo.buy 3 1 "")))
              {| types.OrderNo := "202611010001" |})
    as (p & g & q & Hprep & _ & _ & _ & Hlogs).
  { vm_compute. reflexivity. }
  rewrite Hlogs. vm_compute in Hprep. injection Hprep as <-. reflexivity.
Defined.

(** ** C7: the payment fee *)

Lemma quote_remainder_in_range gift amount coupon :
  Int64.in_range (q_remainder (quote gift amount coupon)).
Proof.
  unfold quote, giftDeduct.
  destruct (0 <? gift); [destruct (Int64.sub amount coupon <=? gift)|]; simpl.
  - unfold Int64.in_range, Int64.min_int, Int64.max_int. lia.
  - apply wrap_in_range.
  - apply wrap_in_range.
Qed.

Lemma purchaseFee_total `{Helpers} r pay :
  Int64.in_range r ->
  purchaseFee r pay
  = if MaxOrderAmount <? totalOf r pay
    then Err (CodeError xerr.InvalidParams)
    else Ok (feeOf r pay, totalOf r pay).
Proof.
  intros Hr. unfold purchaseFee, totalOf, feeOf.
  destruct (Z.ltb_spec 0 r) as [Hpos|Hneg].
  - simpl. destruct (MaxOrderAmount <? _); reflexivity.
  - assert (Ha : Int64.add r 0 = r).
    { unfold Int64.add. rewrite Z.add_0_r. apply wrap_id, Hr. }
    rewrite Ha.
    destruct (Z.ltb_spec MaxOrderAmount r) as [Hbig|_]; [|reflexivity].
    unfold MaxOrderAmount in Hbig. lia.
Qed.

Lemma renewalFee_total `{Helpers} r pay :
  renewalFee r pay
  = if MaxOrderAmount <? totalOf r pay
    then Err (CodeError xerr.InvalidParams)
    else Ok (feeOf r pay, totalOf r pay).
Proof.
  unfold renewalFee, totalOf, feeOf.
  destruct (MaxOrderAmount <? _); reflexivity.
Qed.

(** C7. In Purchase and in Renewal the fee is computed on what is left
    of the amount after the coupon and the gift deduction, and is 0
    when nothing is left; it is added to that remainder; a total above
    MaxOrderAmount rejects the request with InvalidParams and stores
    nothing; otherwise the order that is stored carries that fee and
    that total. *)
Theorem fee_on_remainder `{Helpers} (env : Env) (w : World) (cu : option user.User) :
  (forall r pay, r <= 0 -> feeOf r pay = 0)
  /\ (forall req g q pay,
     purchaseQuote env (db w) cu req = Ok (g, q) ->
     PaymentFindOne env (db w) (types.p_Payment req) = Ok pay ->
     q = quote (user.GiftAmount (g_user g)) (g_amount g) (q_coupon q)
     /\ if MaxOrderAmount <? totalOf (q_remainder q) pay
        then Purchase env w cu req = (w, Err (CodeError xerr.InvalidParams))
        else forall w1 resp,
               Purchase env w cu req = (w1, Ok resp) ->
               exists p,
                 purchasePrepare env (db w) cu req = Ok p
                 /\ stored w w1 (pr_order p) resp
                 /\ order.FeeAmount (pr_order p) = feeOf (q_remainder q) pay
                 /\ order.Amount (pr_order p) = totalOf (q_remainder q) pay)
  /\ (forall req g q pay,
        renewalQuote env (db w) cu req = Ok (g, pay, q) ->
        q = quote (user.GiftAmount (rg_user g)) (rg_amount g) (q_coupon q)
        /\ if MaxOrderAmount <? totalOf (q_remainder q) pay
           then Renewal env w cu req = (w, Err (CodeError xerr.InvalidParams))
           else forall w1 resp,
                  Renewal env w cu req = (w1, Ok resp) ->
                  exists p,
                    renewalPrepare env (db w) cu req = Ok p
                    /\ stored w w1 (pr_order p) resp
                    /\ order.FeeAmount (pr_order p) = feeOf (q_remainder q) pay
                    /\ order.Amount (pr_order p) = totalOf (q_remainder q) pay).
Proof.
  split; [|split].
  - intros r pay Hr. unfold feeOf.
    destruct (Z.ltb_spec 0 r); [lia | reflexivity].
  - intros req g q pay Hq Hpay.
    destruct (purchaseQuote_inv _ _ _ _ _ _ Hq) as (coupon & _ & _ & Hquote).
    assert (Hqc : q_coupon q = coupon).
    { rewrite Hquote. apply quote_gift. }
    split; [rewrite Hqc; exact Hquote|].
    assert (Hfee : purchaseFee (q_remainder q) pay
                   = if MaxOrderAmount <? totalOf (q_remainder q) pay
                     then Err (CodeError xerr.InvalidParams)
                     else Ok (feeOf (q_remainder q) pay,
                              totalOf (q_remainder q) pay)).
    { apply purchaseFee_total. rewrite Hquote. apply quote_remainder_in_range. }
    destruct (MaxOrderAmount <? totalOf (q_remainder q) pay).
    + unfold Purchase, purchasePrepare. rewrite Hq. simpl.
      rewrite Hpay. simpl. rewrite Hfee. reflexivity.
    + intros w1 resp Hp.
      apply Purchase_Ok_inv in Hp as (p & Hprep & Htx & _ & Hno).
      apply purchaseTx_commit in Htx.
      destruct (purchasePrepare_inv _ _ _ _ _ Hprep)
        as (g' & q' & pay' & fee & total & Hq' & Hpay' & Hfee' & _ & _ & _ & _
            & Hf & Ha).
      rewrite Hq in Hq'. injection Hq' as <- <-.
      rewrite Hpay in Hpay'. injection Hpay' as <-.
      rewrite Hfee in Hfee'. injection Hfee' as <- <-.
      exists p. split; [exact Hprep|]. split; [|split; assumption].
      split; [|exact Hno]. rewrite Htx. apply orders_purchaseCommitted.
  - intros req g q pay Hq.
    destruct (renewalQuote_inv _ _ _ _ _ _ _ Hq) as (coupon & _ & _ & _ & Hquote).
    assert (Hqc : q_coupon q = coupon).
    { rewrite Hquote. apply quote_gift. }
    split; [rewrite Hqc; exact Hquote|].
    pose proof (renewalFee_total (q_remainder q) pay) as Hfee.
    destruct (MaxOrderAmount <? totalOf (q_remainder q) pay).
    + unfold Renewal, renewalPrepare. rewrite Hq. simpl.
      rewrite Hfee. reflexivity.
    + intros w1 resp Hp.
      apply Renewal_Ok_inv in Hp as (p & Hprep & Htx & _ & Hno).
      apply renewalTx_commit in Htx.
      destruct (renewalPrepare_inv _ _ _ _ _ Hprep)
        as (g' & q' & pay' & fee & total & Hq' & Hfee' & _ & _ & _ & _
            & Hf & Ha).
      rewrite Hq in Hq'. injection Hq' as <- <- <-.
      rewrite Hfee in Hfee'. injection Hfee' as <- <-.
      exists p. split; [exact Hprep|]. split; [|split; assumption].
      split; [|exact Hno]. rewrite Htx. apply orders_renewalCommitted.
Qed.

Lemma fee_on_remainder_witness :
  isOk (@purchaseQuote SpecPricing.helpers Demo.env (db Demo.priceyWorld)
          (Some Demo.bob) (Demo.buy 700 1 "")) = true
  /\ @PaymentFindOne Demo.env (db Demo.priceyWorld)
       (types.p_Payment (Demo.buy 700 1 "")) = Ok Demo.epay
  /\ @Purchase SpecPricing.helpers Demo.env Demo.priceyWorld (Some Demo.bob)
       (Demo.buy 700 1 "")
     = (Demo.priceyWorld, Err (CodeError xerr.InvalidParams)).
Proof.
  assert (Hpay : @PaymentFindOne Demo.env (db Demo.priceyWorld)
                   (types.p_Payment (Demo.buy 700 1 "")) = Ok Demo.epay)
    by (vm_compute; reflexivity).
  split; [vm_compute; reflexivity|]. split; [exact Hpay|].
  destruct (@purchaseQuote SpecPricing.helpers Demo.env (db Demo.priceyWorld)
              (Some Demo.bob) (Demo.buy 700 1 "")) as [[g q]|e] eqn:Hq;
    [|vm_compute in Hq; discriminate].
  destruct (@fee_on_remainder SpecPricing.helpers Demo.env Demo.priceyWorld
              (Some Demo.bob)) as (_ & HP & _).
  destruct (HP (Demo.buy 700 1 "") g q Demo.epay Hq Hpay) as [_ Hif].
  vm_compute in Hq. injection Hq as <- <-.
  exact Hif.
Defined.

(** The fee is skipped when the gift balance pays the whole charge. *)
Example fee_skipped_when_nothing_is_due :
  let out := @Purchase SpecPricing.helpers Demo.env (Demo.world 5 true)
               (Some Demo.alice) (Demo.buy 3 1 "") in
  (order.FeeAmount <$> orders (db (fst out))) = [0]
  /\ (order.Amount <$> orders (db (fst out))) = [0]
  /\ (order.GiftAmount <$> orders (db (fst out))) = [3000].
Proof. repeat split; vm_compute; reflexivity. Qed.

(** ** C8: the deferred close-order task *)

Lemma Purchase_tasks `{Helpers} env w cu req :
  tasks (fst (Purchase env w cu req))
  = match snd (Purchase env w cu req) with
    | Ok resp =>
        if failEnqueue (failing env) then tasks w
        else tasks w ++ [closeOrderTask (types.OrderNo resp)]
    | Err _ => tasks w
    end.
Proof.
  unfold Purchase.
  destruct (purchasePrepare env (db w) cu req) as [p|e]; [|reflexivity].
  destruct (Transaction (purchaseTx env p) (db w)) as [s1 [e|]]; [reflexivity|].
  simpl. rewrite tasks_deferCloseOrder. reflexivity.
Qed.

Lemma Renewal_tasks `{Helpers} env w cu req :
  tasks (fst (Renewal env w cu req))
  = match snd (Renewal env w cu req) with
    | Ok resp =>
        if failEnqueue (failing env) then tasks w
        else tasks w ++ [closeOrderTask (types.OrderNo resp)]
    | Err _ => tasks w
    end.
Proof.
  unfold Renewal.
  destruct (renewalPrepare env (db w) cu req) as [p|e]; [|reflexivity].
  destruct (Transaction (renewalTx env p) (db w)) as [s1 [e|]]; [reflexivity|].
  simpl. rewrite tasks_deferCloseOrder. reflexivity.
Qed.

Lemma Recharge_tasks `{Helpers} env w cu req :
  tasks (fst (Recharge env w cu req))
  = match snd (Recharge env w cu req) with
    | Ok resp =>
        if failEnqueue (failing env) then tasks w
        else tasks w ++ [closeOrderTask (types.OrderNo resp)]
    | Err _ => tasks w
    end.
Proof.
  unfold Recharge.
  destruct (rechargePrepare env (db w) cu req) as [[o stages]|e]; [|reflexivity].
  destruct (OrderCreate env o (db w)) as [s1 [e|]]; [reflexivity|].
  simpl. rewrite tasks_deferCloseOrder. reflexivity.
Qed.

(** Whether the enqueue fails changes neither the response nor the
    database of a request. *)
Lemma Purchase_enqueue_failure `{Helpers} env b w cu req :
  snd (Purchase (withFailEnqueue b env) w cu req) = snd (Purchase env w cu req)
  /\ db (fst (Purchase (withFailEnqueue b env) w cu req))
     = db (fst (Purchase env w cu req)).
Proof.
  unfold Purchase.
  change (purchasePrepare (withFailEnqueue b env) (db w) cu req)
    with (purchasePrepare env (db w) cu req).
  destruct (purchasePrepare env (db w) cu req) as [p|e]; [|split; reflexivity].
  change (purchaseTx (withFailEnqueue b env) p) with (purchaseTx env p).
  destruct (Transaction (purchaseTx env p) (db w)) as [s1 [e|]];
    [split; reflexivity|].
  simpl. rewrite !db_deferCloseOrder. split; reflexivity.
Qed.

Lemma Renewal_enqueue_failure `{Helpers} env b w cu req :
  snd (Renewal (withFailEnqueue b env) w cu req) = snd (Renewal env w cu req)
  /\ db (fst (Renewal (withFailEnqueue b env) w cu req))
     = db (fst (Renewal env w cu req)).
Proof.
  unfold Renewal.
  change (renewalPrepare (withFailEnqueue b env) (db w) cu req)
    with (renewalPrepare env (db w) cu req).
  destruct (renewalPrepare env (db w) cu req) as [p|e]; [|split; reflexivity].
  change (renewalTx (withFailEnqueue b env) p) with (renewalTx env p).
  destruct (Transaction (renewalTx env p) (db w)) as [s1 [e|]];
    [split; reflexivity|].
  simpl. rewrite !db_deferCloseOrder. split; reflexivity.
Qed.

Lemma Recharge_enqueue_failure `{Helpers} env b w cu req :
  snd (Recharge (withFailEnqueue b env) w cu req) = snd (Recharge env w cu req)
  /\ db (fst (Recharge (withFailEnqueue b env) w cu req))
     = db (fst (Recharge env w cu req)).
Proof.
  unfold Recharge.
  change (rechargePrepare (withFailEnqueue b env) (db w) cu req)
    with (rechargePrepare env (db w) cu req).
  destruct (rechargePrepare env (db w) cu req) as [[o stages]|e];
    [|split; reflexivity].
  change (OrderCreate (withFailEnqueue b env) o) with (OrderCreate env o).
  destruct (OrderCreate env o (db w)) as [s1 [e|]]; [split; reflexivity|].
  simpl. rewrite !db_deferCloseOrder. split; reflexivity.
Qed.

(** C8. In Purchase, Renewal and Recharge, a request that has stored
    its order enqueues one task of kind DeferCloseOrder that carries the
    order number, with at most 3 retries, to be processed in 15 minutes;
    a request that returns an error enqueues nothing. When the enqueue
    fails, no task is added, and the response (the order number) and the
    database are the same as when it succeeds. *)
Theorem close_order_task_enqueued `{Helpers} (env : Env) (w : World)
    (cu : option user.User) :
  (forall no,
     closeOrderTask no
     = {| queue.Kind := DeferCloseOrder; queue.PayloadOrderNo := no;
          queue.MaxRetry := 3; queue.ProcessInSeconds := 15 * 60 |})
  /\ (forall req,
        tasks (fst (Purchase env w cu req))
        = match snd (Purchase env w cu req) with
          | Ok resp =>
              if failEnqueue (failing env) then tasks w
              else tasks w ++ [closeOrderTask (types.OrderNo resp)]
          | Err _ => tasks w
          end)
  /\ (forall req,
        tasks (fst (Renewal env w cu req))
        = match snd (Renewal env w cu req) with
          | Ok resp =>
              if failEnqueue (failing env) then tasks w
              else tasks w ++ [closeOrderTask (types.OrderNo resp)]
          | Err _ => tasks w
          end)
  /\ (forall req,
        tasks (fst (Recharge env w cu req))
        = match snd (Recharge env w cu req) with
          | Ok resp =>
              if failEnqueue (failing env) then tasks w
              else tasks w ++ [closeOrderTask (types.OrderNo resp)]
          | Err _ => tasks w
          end)
  /\ (forall b req,
        snd (Purchase (withFailEnqueue b env) w cu req)
        = snd (Purchase env w cu req)
        /\ db (fst (Purchase (withFailEnqueue b env) w cu req))
           = db (fst (Purchase env w cu req)))
  /\ (forall b req,
        snd (Renewal (withFailEnqueue b env) w cu req)
        = snd (Renewal env w cu req)
        /\ db (fst (Renewal (withFailEnqueue b env) w cu req))
           = db (fst (Renewal env w cu req)))
  /\ (forall b req,
        snd (Recharge (withFailEnqueue b env) w cu req)
        = snd (Recharge env w cu req)
        /\ db (fst (Recharge (withFailEnqueue b env) w cu req))
           = db (fst (Recharge env w cu req))).
Proof.
  split; [reflexivity|].
  split; [intros req; apply Purchase_tasks|].
  split; [intros req; apply Renewal_tasks|].
  split; [intros req; apply Recharge_tasks|].
  split; [intros b req; apply Purchase_enqueue_failure|].
  split; [intros b req; apply Renewal_enqueue_failure|].
  intros b req; apply Recharge_enqueue_failure.
Qed.

(** The enqueue fails, run: the order is stored, its number returned,
    and the queue is left empty. *)
Example enqueue_failure_is_not_fatal :
  let out := @Purchase SpecPricing.helpers (withFailEnqueue true Demo.env)
               (Demo.world 5 true) (Some Demo.bob) (Demo.buy 1 1 "") in
  snd out = Ok {| types.OrderNo := "202611010001" |}
  /\ length (orders (db (fst out))) = 1%nat
  /\ tasks (fst out) = [].
Proof. repeat split; vm_compute; reflexivity. Qed.

(** ** C9: the limits of Recharge *)

(** C9. Recharge rejects an amount that is 0 or less, or above
    MaxRechargeAmount = 2,000,000,000, with InvalidParams; for an amount
    within the limits and a payment method that is found, a total of
    amount and fee above MaxOrderAmount is rejected with InvalidParams as
    well. A rejected request leaves the world as it was: no order is
    created. *)
Theorem recharge_limits `{Helpers} (env : Env) (w : World) (u : user.User)
    (req : types.RechargeOrderRequest) :
  MaxRechargeAmount = 2000000000
  /\ (types.c_Amount req <= 0 \/ MaxRechargeAmount < types.c_Amount req ->
      Recharge env w (Some u) req = (w, Err (CodeError xerr.InvalidParams)))
  /\ (forall pay,
        0 < types.c_Amount req <= MaxRechargeAmount ->
        PaymentFindOne env (db w) (types.c_Payment req) = Ok pay ->
        MaxOrderAmount
        < Int64.add (types.c_Amount req)
            (Int64.wrap (calculateFee (types.c_Amount req) pay)) ->
        Recharge env w (Some u) req = (w, Err (CodeError xerr.InvalidParams))).
Proof.
  split; [reflexivity|]. split.
  - intros Hbad. unfold Recharge, rechargePrepare.
    destruct (Z.leb_spec (types.c_Amount req) 0) as [Hle|Hgt]; [reflexivity|].
    simpl.
    destruct (Z.ltb_spec MaxRechargeAmount (types.c_Amount req)) as [Hbig|Hok];
      [reflexivity | lia].
  - intros pay [Hpos Hmax] Hpay Hover. unfold Recharge, rechargePrepare.
    destruct (Z.leb_spec (types.c_Amount req) 0) as [Hle|_]; [lia|].
    simpl.
    destruct (Z.ltb_spec MaxRechargeAmount (types.c_Amount req)) as [Hbig|_];
      [lia|].
    simpl. rewrite Hpay. simpl.
    apply Z.ltb_lt in Hover. rewrite Hover. reflexivity.
Qed.

Lemma recharge_limits_witness :
  ((types.c_Amount (Demo.recharge 2100000000 2) <= 0
    \/ MaxRechargeAmount < types.c_Amount (Demo.recharge 2100000000 2))
   /\ @Recharge SpecPricing.helpers Demo.env (Demo.world 5 true) (Some Demo.bob)
        (Demo.recharge 2100000000 2)
      = (Demo.world 5 true, Err (CodeError xerr.InvalidParams)))
  /\ (0 < types.c_Amount (Demo.recharge 2000000000 1) <= MaxRechargeAmount
      /\ @PaymentFindOne Demo.env (db (Demo.world 5 true))
           (types.c_Payment (Demo.recharge 2000000000 1)) = Ok Demo.epay
      /\ MaxOrderAmount
         < Int64.add (types.c_Amount (Demo.recharge 2000000000 1))
             (Int64.wrap
                (@calculateFee SpecPricing.helpers
                   (types.c_Amount (Demo.recharge 2000000000 1)) Demo.epay))
      /\ @Recharge SpecPricing.helpers Demo.env (Demo.world 5 true)
           (Some Demo.bob) (Demo.recharge 2000000000 1)
         = (Demo.world 5 true, Err (CodeError xerr.InvalidParams))).
Proof.
  assert (Hbad : types.c_Amount (Demo.recharge 2100000000 2) <= 0
                 \/ MaxRechargeAmount < types.c_Amount (Demo.recharge 2100000000 2))
    by (right; vm_compute; reflexivity).
  assert (Hin : 0 < types.c_Amount (Demo.recharge 2000000000 1)
                <= MaxRechargeAmount)
    by (vm_compute; split; [reflexivity | discriminate]).
  assert (Hpay : @PaymentFindOne Demo.env (db (Demo.world 5 true))
                   (types.c_Payment (Demo.recharge 2000000000 1)) = Ok Demo.epay)
    by (vm_compute; reflexivity).
  assert (Hover : MaxOrderAmount
                  < Int64.add (types.c_Amount (Demo.recharge 2000000000 1))
                      (Int64.wrap
                         (@calculateFee SpecPricing.helpers
                            (types.c_Amount (Demo.recharge 2000000000 1))
                            Demo.epay)))
    by (vm_compute; reflexivity).
  split.
  - split; [exact Hbad|].
    destruct (@recharge_limits SpecPricing.helpers Demo.env (Demo.world 5 true)
                Demo.bob (Demo.recharge 2100000000 2)) as (_ & Hreject & _).
    exact (Hreject Hbad).
  - split; [exact Hin|]. split; [exact Hpay|]. split; [exact Hover|].
    destruct (@recharge_limits SpecPricing.helpers Demo.env (Demo.world 5 true)
                Demo.bob (Demo.recharge 2000000000 1)) as (_ & _ & Hfee).
    exact (Hfee Demo.epay Hin Hpay Hover).
Defined.

(** An amount within both limits is stored, run. *)
Example recharge_stored :
  let out := @Recharge SpecPricing.helpers Demo.env (Demo.world 5 true)
               (Some Demo.bob) (Demo.recharge 1000 1) in
  snd out = Ok {| types.OrderNo := "202611010001" |}
  /\ (order.Amount <$> orders (db (fst out))) = [1100]
  /\ (order.Type_ <$> orders (db (fst out))) = [4].
Proof. repeat split; vm_compute; reflexivity. Qed.

(** ** C10: an expired subscription *)

Lemma isSubscriptionExpired_spec env userSub :
  isSubscriptionExpired env userSub = true
  <-> usersubscribe.ExpireTime userSub < snow env
      /\ usersubscribe.ExpireTime userSub <> 0.
Proof.
  unfold isSubscriptionExpired.
  rewrite andb_true_iff, negb_true_iff, Z.ltb_lt, Z.eqb_neq. reflexivity.
Qed.

Lemma stringsSplit_nonempty str sep : stringsSplit str sep <> [].
Proof.
  induction str as [|a t IH]; simpl; [discriminate|].
  destruct (Ascii.eqb a sep); [discriminate|].
  destruct (stringsSplit t sep); discriminate.
Qed.

(** The first line of the configured host is what getFirstHostLine
    returns: the split is never empty. *)
Lemma getFirstHostLine_first env :
  exists rest, stringsSplit (ConfigHost env) newline = getFirstHostLine env :: rest.
Proof.
  unfold getFirstHostLine.
  pose proof (stringsSplit_nonempty (ConfigHost env) newline) as Hne.
  destruct (stringsSplit (ConfigHost env) newline) as [|l rest]; [contradiction|].
  simpl. exists rest. reflexivity.
Qed.

(** C10, as the code has it. For a token that resolves to a subscription
    whose ExpireTime is before now and not zero: the token resolution
    returns the subscription whatever its status; getServers returns,
    without an error and without reading the plan's nodes, two
    placeholder nodes at 127.0.0.1, port 18080, over shadowsocks, on a
    server named "Subscribe Expired", the first node named "Subscribe
    Expired" and the second named after the first line of the
    configured host; and Handler, once the client application and the
    plan are found, answers with the configuration the adapter builds
    from these two nodes. *)
Theorem expired_subscription_rendered `{Helpers} (env : SubscribeEnv)
    (s : Store) (req : types.SubscribeRequest) (userSub : usersubscribe.Subscribe) :
  FindOneSubscribeByToken env (types.Token req) = Ok (Some userSub) ->
  usersubscribe.ExpireTime userSub < snow env ->
  usersubscribe.ExpireTime userSub <> 0 ->
  getUserSubscribe env (types.Token req) = Ok userSub
  /\ getServers env s userSub = Ok (createExpiredServers env)
  /\ createExpiredServers env
     = [placeholderNode "Subscribe Expired";
        placeholderNode (getFirstHostLine env)]
  /\ node.ServerName expiredServer = "Subscribe Expired"
  /\ (forall clients targetApp plan,
        ClientList env = Ok clients ->
        chooseApp (ToLower (RequestUserAgent env)) clients = Ok targetApp ->
        findSubscribe (failSubscribeInfo (sfailing env)) s
          (usersubscribe.SubscribeId userSub) = Ok plan ->
        snd (Handler env s req)
        = rendered env targetApp (createExpiredServers env) plan userSub req).
Proof.
  intros Htok Hlt Hnz.
  assert (Hexp : isSubscriptionExpired env userSub = true).
  { apply isSubscriptionExpired_spec. auto. }
  assert (Hus : getUserSubscribe env (types.Token req) = Ok userSub).
  { unfold getUserSubscribe. rewrite Htok. reflexivity. }
  assert (Hsrv : getServers env s userSub = Ok (createExpiredServers env)).
  { unfold getServers. rewrite Hexp. reflexivity. }
  split; [exact Hus|]. split; [exact Hsrv|].
  split; [reflexivity|]. split; [reflexivity|].
  intros clients targetApp plan Hcl Happ Hplan.
  unfold Handler. rewrite Hcl, Happ, Hus. simpl.
  unfold render, rendered. rewrite Hplan. simpl. rewrite Hsrv. simpl.
  reflexivity.
Qed.

Lemma expired_subscription_rendered_witness :
  FindOneSubscribeByToken Demo.subscribeEnv (types.Token Demo.fetch)
  = Ok (Some Demo.held)
  /\ usersubscribe.ExpireTime Demo.held < snow Demo.subscribeEnv
  /\ usersubscribe.ExpireTime Demo.held <> 0
  /\ @getServers SpecPricing.helpers Demo.subscribeEnv (Demo.store 5 true)
       Demo.held
     = Ok [placeholderNode "Subscribe Expired";
           placeholderNode "panel.example.com"].
Proof.
  assert (Htok : FindOneSubscribeByToken Demo.subscribeEnv (types.Token Demo.fetch)
                 = Ok (Some Demo.held)) by reflexivity.
  assert (Hlt : usersubscribe.ExpireTime Demo.held < snow Demo.subscribeEnv)
    by (vm_compute; reflexivity).
  assert (Hnz : usersubscribe.ExpireTime Demo.held <> 0) by discriminate.
  split; [exact Htok|]. split; [exact Hlt|]. split; [exact Hnz|].
  destruct (@expired_subscription_rendered SpecPricing.helpers
              Demo.subscribeEnv (Demo.store 5 true) Demo.fetch Demo.held
              Htok Hlt Hnz) as (_ & Hsrv & _).
  rewrite Hsrv. vm_compute. reflexivity.
Defined.

(** C10 as stated fails on the name of the second node: for the expired
    subscription of the request below, with the host configured as
    panel.example.com, the second placeholder node is named
    panel.example.com, and the configuration is built from the two
    names. *)
Lemma expired_node_named_after_host :
  usersubscribe.ExpireTime Demo.held < snow Demo.subscribeEnv
  /\ usersubscribe.ExpireTime Demo.held <> 0
  /\ (node.Name <$> createExpiredServers Demo.subscribeEnv)
     = ["Subscribe Expired"; "panel.example.com"]
  /\ ~ Forall (fun n => node.Name n = "Subscribe Expired")
         (createExpiredServers Demo.subscribeEnv)
  /\ match snd (@Handler SpecPricing.helpers Demo.subscribeEnv
                  (Demo.store 5 true) Demo.fetch) with
     | Ok (_, resp) =>
         types.Config resp = "Subscribe Expired;panel.example.com"
     | Err _ => False
     end.
Proof.
  split; [vm_compute; reflexivity|]. split; [discriminate|].
  split; [vm_compute; reflexivity|]. split.
  - intros Hall. vm_compute in Hall.
    inversion Hall as [|? ? _ Htail]. inversion Htail as [|? ? Hname _].
    discriminate.
  - vm_compute. reflexivity.
Qed.

(** * Further properties of the order package *)

(** ** Quantity *)

Lemma normalizeQuantity_below q : q <= 0 -> normalizeQuantity q = 1.
Proof. intros Hq. unfold normalizeQuantity. destruct (Z.leb_spec q 0); [reflexivity | lia]. Qed.

Lemma normalizeQuantity_above q : 0 < q -> normalizeQuantity q = q.
Proof. intros Hq. unfold normalizeQuantity. destruct (Z.leb_spec q 0); [lia | reflexivity]. Qed.

Lemma purchaseGuard_quantity `{Helpers} env s cu req q :
  normalizeQuantity q = normalizeQuantity (types.p_Quantity req) ->
  purchaseGuard env s cu (withPurchaseQuantity q req) = purchaseGuard env s cu req.
Proof.
  intros Hq. unfold purchaseGuard. simpl. rewrite Hq. reflexivity.
Qed.

Lemma renewalGuard_quantity `{Helpers} env s cu req q :
  normalizeQuantity q = normalizeQuantity (types.r_Quantity req) ->
  renewalGuard env s cu (withRenewalQuantity q req) = renewalGuard env s cu req.
Proof.
  intros Hq. unfold renewalGuard. simpl. rewrite Hq. reflexivity.
Qed.

(** X1. A Purchase or Renewal request with a quantity of 0 or less is
    the request with quantity 1: the same response and the same world,
    whatever the store holds and whichever calls fail. *)
Theorem quantity_below_one_counts_as_one `{Helpers} (env : Env) (w : World)
    (cu : option user.User) :
  (forall req,
     types.p_Quantity req <= 0 ->
     Purchase env w cu req = Purchase env w cu (withPurchaseQuantity 1 req))
  /\ (forall req,
        types.r_Quantity req <= 0 ->
        Renewal env w cu req = Renewal env w cu (withRenewalQuantity 1 req)).
Proof.
  split; intros req Hq.
  - unfold Purchase, purchasePrepare, purchaseQuote.
    rewrite (purchaseGuard_quantity env (db w) cu req 1); [reflexivity|].
    rewrite (normalizeQuantity_below _ Hq). reflexivity.
  - unfold Renewal, renewalPrepare, renewalQuote.
    rewrite (renewalGuard_quantity env (db w) cu req 1); [reflexivity|].
    rewrite (normalizeQuantity_below _ Hq). reflexivity.
Qed.

Lemma quantity_below_one_counts_as_one_witness :
  types.p_Quantity (Demo.buy (-4) 1 "") <= 0
  /\ @Purchase SpecPricing.helpers Demo.env (Demo.world 5 true) (Some Demo.bob)
       (Demo.buy (-4) 1 "")
     = @Purchase SpecPricing.helpers Demo.env (Demo.world 5 true) (Some Demo.bob)
         (Demo.buy 1 1 "").
Proof.
  assert (Hq : types.p_Quantity (Demo.buy (-4) 1 "") <= 0) by discriminate.
  split; [exact Hq|].
  destruct (@quantity_below_one_counts_as_one SpecPricing.helpers Demo.env
              (Demo.world 5 true) (Some Demo.bob)) as [HP _].
  exact (HP (Demo.buy (-4) 1 "") Hq).
Defined.

(** X2. A quantity above MaxQuantity is rejected by Purchase and by
    Renewal with InvalidParams, before the store is consulted: the
    answer is the same for every store content and every failing call,
    and the world is left as it was. *)
Theorem quantity_above_cap_rejected `{Helpers} (env : Env) (w : World)
    (u : user.User) :
  (forall req,
     MaxQuantity < types.p_Quantity req ->
     Purchase env w (Some u) req = (w, Err (CodeError xerr.InvalidParams)))
  /\ (forall req,
        MaxQuantity < types.r_Quantity req ->
        Renewal env w (Some u) req = (w, Err (CodeError xerr.InvalidParams))).
Proof.
  split; intros req Hq.
  - unfold Purchase, purchasePrepare, purchaseQuote, purchaseGuard.
    rewrite normalizeQuantity_above by (unfold MaxQuantity in Hq; lia).
    apply Z.ltb_lt in Hq. rewrite Hq. reflexivity.
  - unfold Renewal, renewalPrepare, renewalQuote, renewalGuard.
    rewrite normalizeQuantity_above by (unfold MaxQuantity in Hq; lia).
    apply Z.ltb_lt in Hq. rewrite Hq. reflexivity.
Qed.

Lemma quantity_above_cap_rejected_witness :
  MaxQuantity < types.r_Quantity (Demo.renew 1001 1 "")
  /\ @Renewal SpecPricing.helpers (Demo.envFailing Demo.ledgerFails)
       (Demo.world 0 false) (Some Demo.alice) (Demo.renew 1001 1 "")
     = (Demo.world 0 false, Err (CodeError xerr.InvalidParams)).
Proof.
  assert (Hq : MaxQuantity < types.r_Quantity (Demo.renew 1001 1 ""))
    by (vm_compute; reflexivity).
  split; [exact Hq|].
  destruct (@quantity_above_cap_rejected SpecPricing.helpers
              (Demo.envFailing Demo.ledgerFails) (Demo.world 0 false)
              Demo.alice) as [_ HR].
  exact (HR (Demo.renew 1001 1 "") Hq).
Defined.

(** ** Error kinds *)

Lemma bind_Err_inv {A B} (m : Result A) (f : A -> Result B) e :
  m ≫= f = Err e -> m = Err e \/ exists a, m = Ok a /\ f a = Err e.
Proof.
  destruct m as [a|e0]; simpl; intros Hm; [right; eauto | left; congruence].
Qed.

Lemma reject_Err_inv cond c e : reject cond c = Err e -> e = CodeError c.
Proof. destruct cond; simpl; congruence. Qed.

Lemma wrapCode_Err_inv {A} c (r : Result A) e : wrapCode c r = Err e -> e = CodeError c.
Proof. destruct r; simpl; congruence. Qed.

(** Follow a failed chain of binds down to the step that failed, and
    close the steps that are a check or a wrapped store call. *)
Ltac err_steps H :=
  cbv zeta in H;
  match type of H with
  | (_ ≫= _) = Err _ =>
      let a := fresh "a" in
      let Ha := fresh "Hstep" in
      apply bind_Err_inv in H as [H | (a & Ha & H)];
      [ first [ apply reject_Err_inv in H; subst; exact I
              | apply wrapCode_Err_inv in H; subst; exact I
              | idtac ]
      | err_steps H ]
  | (let '(_, _) := ?p in _) = Err _ => destruct p; err_steps H
  | Ok _ = Err _ => discriminate H
  | _ => idtac
  end.

Lemma purchaseGuard_Err_coded `{Helpers} env s cu req e :
  purchaseGuard env s cu req = Err e -> isCoded e.
Proof.
  unfold purchaseGuard. destruct cu as [u|]; [|intros [= <-]; exact I].
  intros Hg. err_steps Hg.
Qed.

Lemma renewalGuard_Err_coded `{Helpers} env s cu req e :
  renewalGuard env s cu req = Err e -> isCoded e.
Proof.
  unfold renewalGuard. destruct cu as [u|]; [|intros [= <-]; exact I].
  intros Hg. err_steps Hg.
Qed.

Lemma couponStage_Err_coded `{Helpers} env s u planId code amount e :
  couponStage env s u planId code amount = Err e -> isCoded e.
Proof.
  unfold couponStage. destruct (String.eqb code ""); [discriminate|].
  destruct (CouponFindOneByCode env s code) as [ci|[?|[]|?]];
    try (intros [= <-]; exact I).
  intros Hc. err_steps Hc.
Qed.

Lemma purchaseFee_Err_coded `{Helpers} r pay e :
  purchaseFee r pay = Err e -> isCoded e.
Proof.
  unfold purchaseFee. destruct (0 <? r); [|discriminate].
  intros Hf. err_steps Hf.
Qed.

Lemma renewalFee_Err_coded `{Helpers} r pay e :
  renewalFee r pay = Err e -> isCoded e.
Proof. unfold renewalFee. intros Hf. err_steps Hf. Qed.

Lemma purchasePrepare_Err_coded `{Helpers} env s cu req e :
  purchasePrepare env s cu req = Err e -> isCoded e.
Proof.
  unfold purchasePrepare, purchaseQuote. intros Hp.
  apply bind_Err_inv in Hp as [Hp | ([g q] & Hq & Hp)].
  - apply bind_Err_inv in Hp as [Hp | (g & Hg & Hp)];
      [eapply purchaseGuard_Err_coded; eauto|].
    apply bind_Err_inv in Hp as [Hp | (c & Hc & Hp)];
      [eapply couponStage_Err_coded; eauto | discriminate].
  - err_steps Hp. eapply purchaseFee_Err_coded; eauto.
Qed.

Lemma renewalPrepare_Err_coded `{Helpers} env s cu req e :
  renewalPrepare env s cu req = Err e -> isCoded e.
Proof.
  unfold renewalPrepare, renewalQuote. intros Hp.
  apply bind_Err_inv in Hp as [Hp | ([[g pay] q] & Hq & Hp)].
  - apply bind_Err_inv in Hp as [Hp | (g & Hg & Hp)];
      [eapply renewalGuard_Err_coded; eauto|].
    apply bind_Err_inv in Hp as [Hp | (c & Hc & Hp)];
      [eapply couponStage_Err_coded; eauto|].
    err_steps Hp.
  - err_steps Hp. eapply renewalFee_Err_coded; eauto.
Qed.

Lemma renewalTx_fails env p s s1 e :
  renewalTx env p s = (s1, Some e) ->
  e = ErrStore /\ renewalWriteFails (failing env).
Proof.
  unfold renewalTx, txSeq, giftWrites, txSkip, UserUpdate, SystemLogCreate,
    OrderCreate, renewalWriteFails.
  destruct (0 <? order.GiftAmount (pr_order p));
    destruct (failUserUpdate (failing env));
    destruct (failSystemLogCreate (failing env));
    destruct (failOrderCreate (failing env)); simpl;
    intros [= <- <-] || intros [= <-] || intros [=]; auto.
Qed.

(** X3. Purchase answers every failure with an error code of pkg/xerr:
    a store error never reaches the caller as it is. Renewal does the
    same except when a write of its transaction fails, in which case
    the caller receives the store's own error. *)
Theorem store_errors_surface_coded `{Helpers} (env : Env) (w : World)
    (cu : option user.User) :
  (forall req,
     match snd (Purchase env w cu req) with
     | Ok _ => True
     | Err e => isCoded e
     end)
  /\ (forall req,
        match snd (Renewal env w cu req) with
        | Ok _ => True
        | Err e =>
            isCoded e
            \/ (e = Cause ErrStore /\ renewalWriteFails (failing env))
        end).
Proof.
  split; intros req.
  - unfold Purchase.
    destruct (purchasePrepare env (db w) cu req) as [p|e] eqn:Hp; simpl.
    + destruct (Transaction (purchaseTx env p) (db w)) as [s1 [e|]]; exact I.
    + eapply purchasePrepare_Err_coded; eauto.
  - unfold Renewal.
    destruct (renewalPrepare env (db w) cu req) as [p|e] eqn:Hp; simpl.
    + unfold Transaction.
      destruct (renewalTx env p (db w)) as [s1 [e|]] eqn:Htx; simpl; [|exact I].
      right. apply renewalTx_fails in Htx as [-> Hw]. auto.
    + left. eapply renewalPrepare_Err_coded; eauto.
Qed.

(** ** Recharge *)

Lemma rechargePrepare_inv `{Helpers} env s cu req o stages :
  rechargePrepare env s cu req = Ok (o, stages) ->
  exists u pay,
    cu = Some u
    /\ payments s !! types.c_Payment req = Some pay
    /\ 0 < types.c_Amount req <= MaxRechargeAmount
    /\ o = {| order.UserId := user.Id u;
              order.ParentId := 0;
              order.OrderNo := GenerateTradeNo env;
              order.Type_ := 4;
              order.Quantity := 0;
              order.Price := types.c_Amount req;
              order.Amount :=
                Int64.add (types.c_Amount req)
                  (Int64.wrap (calculateFee (types.c_Amount req) pay));
              order.GiftAmount := 0;
              order.Discount := 0;
              order.Coupon := "";
              order.CouponDiscount := 0;
              order.PaymentId := payment.Id pay;
              order.Method := payment.Platform pay;
              order.FeeAmount :=
                Int64.wrap (calculateFee (types.c_Amount req) pay);
              order.Status := 1;
              order.IsNew := IsUserEligibleForNewOrderAnswer env (user.Id u);
              order.SubscribeId := 0;
              order.SubscribeToken := "" |}
    /\ order.Amount o <= MaxOrderAmount.
Proof.
  intros Hp. unfold rechargePrepare in Hp.
  destruct cu as [u|]; [|discriminate].
  ok_steps Hp. injection Hp as <- <-.
  apply Z.leb_gt in Hstep. apply Z.ltb_ge in Hstep0, Hstep2.
  apply PaymentFindOne_Ok in Hstep1.
  unfold IsUserEligibleForNewOrder in Hstep3.
  destruct (failIsUserEligibleForNewOrder (failing env)); [discriminate|].
  injection Hstep3 as <-.
  exists u, a1. simpl. repeat split; auto; lia.
Qed.

(** X4. A Recharge request that returns an order number has appended
    exactly one order to the store and changed nothing else: no user
    row, plan row or ledger entry is written, so the gift balance is
    never used. The order is of kind 4 in status 1, belongs to the
    caller, has the requested amount as its price (above 0 and at most
    MaxRechargeAmount), no discount, coupon or gift deduction, and its
    amount is price plus fee in int64. A request that returns an error
    leaves the world as it was. *)
Theorem recharge_outcome `{Helpers} (env : Env) (w : World)
    (cu : option user.User) (req : types.RechargeOrderRequest) :
  match Recharge env w cu req with
  | (w1, Ok resp) =>
      exists u o,
        cu = Some u
        /\ db w1 = setOrders (orders (db w) ++ [o]) (db w)
        /\ types.OrderNo resp = order.OrderNo o
        /\ order.UserId o = user.Id u
        /\ order.Type_ o = 4
        /\ order.Status o = 1
        /\ order.Price o = types.c_Amount req
        /\ 0 < order.Price o <= MaxRechargeAmount
        /\ order.Amount o = Int64.add (order.Price o) (order.FeeAmount o)
        /\ order.GiftAmount o = 0
        /\ order.Discount o = 0
        /\ order.CouponDiscount o = 0
  | (w1, Err _) => w1 = w
  end.
Proof.
  unfold Recharge.
  destruct (rechargePrepare env (db w) cu req) as [[o stages]|e] eqn:Hp;
    [|reflexivity].
  destruct (OrderCreate env o (db w)) as [s1 [e|]] eqn:Hc.
  - apply OrderCreate_fail in Hc. subst s1. apply setDb_same.
  - apply OrderCreate_commit in Hc.
    apply rechargePrepare_inv in Hp as (u & pay & Hcu & _ & Hamt & Ho & _).
    exists u, o. rewrite db_deferCloseOrder. simpl.
    subst o. simpl. repeat split; auto; lia.
Qed.

(** ** The ceiling, whatever the helpers return *)

Lemma purchaseFee_below_ceiling `{Helpers} r pay feeAmount total :
  purchaseFee r pay = Ok (feeAmount, total) -> total <= MaxOrderAmount.
Proof.
  unfold purchaseFee. destruct (Z.ltb_spec 0 r) as [Hpos|Hneg]; intros Hf.
  - ok_steps Hf. injection Hf as <- <-. apply Z.ltb_ge in Hstep. exact Hstep.
  - injection Hf as <- <-. unfold MaxOrderAmount. lia.
Qed.

Lemma renewalFee_below_ceiling `{Helpers} r pay feeAmount total :
  renewalFee r pay = Ok (feeAmount, total) -> total <= MaxOrderAmount.
Proof.
  unfold renewalFee. intros Hf.
  ok_steps Hf. injection Hf as <- <-. apply Z.ltb_ge in Hstep. exact Hstep.
Qed.

(** X5. Whatever getDiscount, calculateCoupon and calculateFee return
    and whatever the plan's price is, the amount of an order that
    Purchase, Renewal or Recharge stores is never above MaxOrderAmount. *)
Theorem stored_amount_never_above_ceiling `{Helpers} (env : Env) (w : World)
    (cu : option user.User) :
  (forall req,
     match Purchase env w cu req with
     | (w1, Ok _) =>
         exists o, orders (db w1) = orders (db w) ++ [o]
                   /\ order.Amount o <= MaxOrderAmount
     | (_, Err _) => True
     end)
  /\ (forall req,
        match Renewal env w cu req with
        | (w1, Ok _) =>
            exists o, orders (db w1) = orders (db w) ++ [o]
                      /\ order.Amount o <= MaxOrderAmount
        | (_, Err _) => True
        end)
  /\ (forall req,
        match Recharge env w cu req with
        | (w1, Ok _) =>
            exists o, orders (db w1) = orders (db w) ++ [o]
                      /\ order.Amount o <= MaxOrderAmount
        | (_, Err _) => True
        end).
Proof.
  split; [|split]; intros req.
  - pose proof (Purchase_outcome env w cu req) as Ho.
    destruct (Purchase env w cu req) as [w1 [resp|e]]; [|exact I].
    destruct Ho as (p & Hprep & Hdb & _).
    exists (pr_order p). split; [rewrite Hdb; apply orders_purchaseCommitted|].
    destruct (purchasePrepare_inv _ _ _ _ _ Hprep)
      as (g & q & pay & fee & total & _ & _ & Hfee & _ & _ & _ & _ & _ & Ha).
    rewrite Ha. eapply purchaseFee_below_ceiling; eauto.
  - pose proof (Renewal_outcome env w cu req) as Ho.
    destruct (Renewal env w cu req) as [w1 [resp|e]]; [|exact I].
    destruct Ho as (p & Hprep & Hdb & _).
    exists (pr_order p). split; [rewrite Hdb; apply orders_renewalCommitted|].
    destruct (renewalPrepare_inv _ _ _ _ _ Hprep)
      as (g & q & pay & fee & total & _ & Hfee & _ & _ & _ & _ & _ & Ha).
    rewrite Ha. eapply renewalFee_below_ceiling; eauto.
  - destruct (Recharge env w cu req) as [w1 [resp|e]] eqn:Hr; [|exact I].
    apply Recharge_Ok_inv in Hr as (o & stages & Hprep & Hdb & _).
    exists o. split; [rewrite Hdb; reflexivity|].
    apply rechargePrepare_inv in Hprep as (u & pay & _ & _ & _ & _ & Hle).
    exact Hle.
Qed.

(** ** The order record *)

Lemma purchaseGuard_inv `{Helpers} env s cu req g :
  purchaseGuard env s cu req = Ok g ->
  cu = Some (g_user g)
  /\ g_quantity g = normalizeQuantity (types.p_Quantity req)
  /\ 1 <= g_quantity g <= MaxQuantity
  /\ subscribes s !! types.p_SubscribeId req = Some (g_sub g)
  /\ subscribe.Sell (g_sub g) = true
  /\ subscribe.Inventory (g_sub g) <> 0
  /\ g_price g = Int64.mul (subscribe.UnitPrice (g_sub g)) (g_quantity g)
  /\ g_discountAmount g = Int64.sub (g_price g) (g_amount g)
  /\ (SingleModel env = true -> QueryUserSubscribeRows env (user.Id (g_user g)) = []).
Proof.
  intros Hg. unfold purchaseGuard in Hg.
  destruct cu as [u|]; [|discriminate].
  ok_steps Hg. injection Hg as <-. simpl.
  apply SubscribeFindOne_Ok in Hstep2.
  apply Z.ltb_ge in Hstep. apply Z.eqb_neq in Hstep4.
  apply negb_false_iff in Hstep3.
  pose proof (normalizeQuantity_pos (types.p_Quantity req)).
  repeat split; auto.
  intros Hsm. rewrite Hsm in Hstep1. simpl in Hstep1.
  unfold QueryUserSubscribe in Hstep0.
  destruct (failQueryUserSubscribe (failing env)); [discriminate|].
  injection Hstep0 as <-.
  destruct (QueryUserSubscribeRows env (user.Id u)); [reflexivity|discriminate].
Qed.

Lemma renewalGuard_inv `{Helpers} env s cu req g :
  renewalGuard env s cu req = Ok g ->
  cu = Some (rg_user g)
  /\ rg_quantity g = normalizeQuantity (types.r_Quantity req)
  /\ 1 <= rg_quantity g <= MaxQuantity
  /\ userSubscribes s !! types.r_UserSubscribeID req = Some (rg_userSubscribe g)
  /\ subscribes s !! usersubscribe.SubscribeId (rg_userSubscribe g)
     = Some (rg_sub g)
  /\ subscribe.Sell (rg_sub g) = true
  /\ rg_price g = Int64.mul (subscribe.UnitPrice (rg_sub g)) (rg_quantity g)
  /\ rg_discountAmount g = Int64.sub (rg_price g) (rg_amount g).
Proof.
  intros Hg. unfold renewalGuard in Hg.
  destruct cu as [u|]; [|discriminate].
  ok_steps Hg. injection Hg as <-. simpl.
  apply FindOneUserSubscribe_Ok in Hstep0.
  apply SubscribeFindOne_Ok in Hstep1.
  apply Z.ltb_ge in Hstep. apply negb_false_iff in Hstep2.
  pose proof (normalizeQuantity_pos (types.r_Quantity req)).
  repeat split; auto.
Qed.

(** The fields of the order of Purchase that do not depend on the
    pricing. *)
Lemma purchasePrepare_record `{Helpers} env s cu req p :
  purchasePrepare env s cu req = Ok p ->
  exists g pay,
    purchaseGuard env s cu req = Ok g
    /\ payments s !! types.p_Payment req = Some pay
    /\ order.OrderNo (pr_order p) = GenerateTradeNo env
    /\ order.UserId (pr_order p) = user.Id (g_user g)
    /\ order.Type_ (pr_order p) = 1
    /\ order.Status (pr_order p) = 1
    /\ order.ParentId (pr_order p) = 0
    /\ order.Quantity (pr_order p) = g_quantity g
    /\ order.Price (pr_order p) = g_price g
    /\ order.Coupon (pr_order p) = types.p_Coupon req
    /\ order.PaymentId (pr_order p) = payment.Id pay
    /\ order.Method (pr_order p) = payment.Platform pay
    /\ order.IsNew (pr_order p)
       = IsUserEligibleForNewOrderAnswer env (user.Id (g_user g))
    /\ order.SubscribeId (pr_order p) = types.p_SubscribeId req
    /\ order.SubscribeToken (pr_order p) = "".
Proof.
  intros Hp. unfold purchasePrepare in Hp.
  apply bind_Ok_inv in Hp as ([g q] & Hq & Hp).
  apply purchaseQuote_inv in Hq as (coupon & Hg & _ & _).
  ok_steps Hp. injection Hp as <-.
  apply PaymentFindOne_Ok in Hstep.
  unfold IsUserEligibleForNewOrder in Hstep1.
  destruct (failIsUserEligibleForNewOrder (failing env)); [discriminate|].
  injection Hstep1 as <-.
  exists g, a. simpl. repeat split; auto.
Qed.

Lemma renewalPrepare_record `{Helpers} env s cu req p :
  renewalPrepare env s cu req = Ok p ->
  exists g pay,
    renewalGuard env s cu req = Ok g
    /\ payments s !! types.r_Payment req = Some pay
    /\ order.OrderNo (pr_order p) = GenerateTradeNo env
    /\ order.UserId (pr_order p) = user.Id (rg_user g)
    /\ order.Type_ (pr_order p) = 2
    /\ order.Status (pr_order p) = 1
    /\ order.ParentId (pr_order p) = usersubscribe.OrderId (rg_userSubscribe g)
    /\ order.Quantity (pr_order p) = rg_quantity g
    /\ order.Price (pr_order p) = rg_price g
    /\ order.Coupon (pr_order p) = types.r_Coupon req
    /\ order.PaymentId (pr_order p) = payment.Id pay
    /\ order.Method (pr_order p) = payment.Platform pay
    /\ order.IsNew (pr_order p) = false
    /\ order.SubscribeId (pr_order p)
       = usersubscribe.SubscribeId (rg_userSubscribe g)
    /\ order.SubscribeToken (pr_order p)
       = usersubscribe.Token (rg_userSubscribe g).
Proof.
  intros Hp. unfold renewalPrepare in Hp.
  apply bind_Ok_inv in Hp as ([[g pay] q] & Hq & Hp).
  apply renewalQuote_inv in Hq as (coupon & Hg & _ & Hpay & _).
  ok_steps Hp. injection Hp as <-.
  apply PaymentFindOne_Ok in Hpay.
  exists g, pay. simpl. repeat split; auto.
Qed.

(** X6. A Purchase request that returns an order number has stored one
    order of kind 1 in status 1 (pending payment) for the caller, under
    the generated trade number that is returned, for the requested plan
    and coupon code, with the quantity normalised to 1..MaxQuantity, the
    list price unit price times quantity in int64, the payment method's
    id and platform, and the new-customer flag as the order model
    answered it. The plan exists, is for sale and is not sold out. *)
Theorem purchase_order_record `{Helpers} (env : Env) (w : World)
    (cu : option user.User) (req : types.PurchaseOrderRequest) :
  match Purchase env w cu req with
  | (w1, Ok resp) =>
      exists u plan pay o,
        cu = Some u
        /\ subscribes (db w) !! types.p_SubscribeId req = Some plan
        /\ subscribe.Sell plan = true
        /\ subscribe.Inventory plan <> 0
        /\ payments (db w) !! types.p_Payment req = Some pay
        /\ orders (db w1) = orders (db w) ++ [o]
        /\ types.OrderNo resp = GenerateTradeNo env
        /\ order.OrderNo o = GenerateTradeNo env
        /\ order.UserId o = user.Id u
        /\ order.Type_ o = 1
        /\ order.Status o = 1
        /\ order.Quantity o = normalizeQuantity (types.p_Quantity req)
        /\ 1 <= order.Quantity o <= MaxQuantity
        /\ order.Price o = Int64.mul (subscribe.UnitPrice plan) (order.Quantity o)
        /\ order.SubscribeId o = types.p_SubscribeId req
        /\ order.Coupon o = types.p_Coupon req
        /\ order.PaymentId o = payment.Id pay
        /\ order.Method o = payment.Platform pay
        /\ order.IsNew o = IsUserEligibleForNewOrderAnswer env (user.Id u)
  | (_, Err _) => True
  end.
Proof.
  pose proof (Purchase_outcome env w cu req) as Ho.
  destruct (Purchase env w cu req) as [w1 [resp|e]]; [|exact I].
  destruct Ho as (p & Hprep & Hdb & Hno).
  destruct (purchasePrepare_record _ _ _ _ _ Hprep)
    as (g & pay & Hg & Hpay & Hon & Hu & Ht & Hs & _ & Hq & Hpr & Hc & Hpi
        & Hm & Hnew & Hsid & _).
  destruct (purchaseGuard_inv _ _ _ _ _ Hg)
    as (Hcu & Hgq & Hqr & Hplan & Hsell & Hinv & Hprice & _).
  exists (g_user g), (g_sub g), pay, (pr_order p).
  rewrite Hdb, orders_purchaseCommitted, Hno, Hq, Hpr.
  repeat split; auto; try congruence; lia.
Qed.

(** X7. A Renewal request that returns an order number has stored one
    order of kind 2 in status 1 for the caller that continues the
    subscription row named in the request: its parent is the order of
    that row, its plan and token are the row's, and its new-customer
    flag is false. The row's plan exists and is for sale. *)
Theorem renewal_order_record `{Helpers} (env : Env) (w : World)
    (cu : option user.User) (req : types.RenewalOrderRequest) :
  match Renewal env w cu req with
  | (w1, Ok resp) =>
      exists u held plan pay o,
        cu = Some u
        /\ userSubscribes (db w) !! types.r_UserSubscribeID req = Some held
        /\ subscribes (db w) !! usersubscribe.SubscribeId held = Some plan
        /\ subscribe.Sell plan = true
        /\ payments (db w) !! types.r_Payment req = Some pay
        /\ orders (db w1) = orders (db w) ++ [o]
        /\ types.OrderNo resp = GenerateTradeNo env
        /\ order.OrderNo o = GenerateTradeNo env
        /\ order.UserId o = user.Id u
        /\ order.Type_ o = 2
        /\ order.Status o = 1
        /\ order.ParentId o = usersubscribe.OrderId held
        /\ order.SubscribeId o = usersubscribe.SubscribeId held
        /\ order.SubscribeToken o = usersubscribe.Token held
        /\ order.IsNew o = false
        /\ order.Quantity o = normalizeQuantity (types.r_Quantity req)
        /\ order.Price o = Int64.mul (subscribe.UnitPrice plan) (order.Quantity o)
        /\ order.PaymentId o = payment.Id pay
        /\ order.Method o = payment.Platform pay
  | (_, Err _) => True
  end.
Proof.
  pose proof (Renewal_outcome env w cu req) as Ho.
  destruct (Renewal env w cu req) as [w1 [resp|e]]; [|exact I].
  destruct Ho as (p & Hprep & Hdb & _ & Hno).
  destruct (renewalPrepare_record _ _ _ _ _ Hprep)
    as (g & pay & Hg & Hpay & Hon & Hu & Ht & Hs & Hpar & Hq & Hpr & Hc & Hpi
        & Hm & Hnew & Hsid & Htok).
  destruct (renewalGuard_inv _ _ _ _ _ Hg)
    as (Hcu & Hgq & Hqr & Hheld & Hplan & Hsell & Hprice & _).
  exists (rg_user g), (rg_userSubscribe g), (rg_sub g), pay, (pr_order p).
  rewrite Hdb, orders_renewalCommitted, Hno, Hq, Hpr.
  repeat split; auto; congruence.
Qed.

(** ** What Renewal does not read *)

Lemma renewalGuard_view `{Helpers} env s cu req :
  renewalGuard env (renewalViewOfStore s) cu req
  = mapResult renewalViewOfGuarded (renewalGuard env s cu req).
Proof.
  unfold renewalGuard. destruct cu as [u|]; [|reflexivity].
  destruct (reject (MaxQuantity <? normalizeQuantity (types.r_Quantity req))
              xerr.InvalidParams) as [[]|e]; [|reflexivity].
  simpl. unfold FindOneUserSubscribe, SubscribeFindOne.
  destruct (failFindOneUserSubscribe (failing env)); [reflexivity|].
  simpl. rewrite lookup_fmap.
  destruct (userSubscribes s !! types.r_UserSubscribeID req) as [us|];
    [|reflexivity].
  simpl.
  destruct (failSubscribeFindOne (failing env)); [reflexivity|].
  rewrite lookup_fmap.
  destruct (subscribes s !! usersubscribe.SubscribeId us) as [p|];
    [|reflexivity].
  simpl.
  destruct (subscribe.Sell p); [|reflexivity]. simpl.
  unfold planDiscount. simpl.
  destruct (reject _ xerr.InvalidParams) as [[]|e]; reflexivity.
Qed.

Lemma couponStage_view `{Helpers} env s u planId code amount :
  couponStage env (renewalViewOfStore s) u planId code amount
  = couponStage env s u planId code amount.
Proof. reflexivity. Qed.

Lemma renewalPrepare_view `{Helpers} env s cu req :
  renewalPrepare env (renewalViewOfStore s) cu req
  = mapResult renewalViewOfPrepared (renewalPrepare env s cu req).
Proof.
  unfold renewalPrepare, renewalQuote.
  rewrite renewalGuard_view.
  destruct (renewalGuard env s cu req) as [g|e]; [|reflexivity].
  simpl. rewrite couponStage_view.
  destruct (couponStage env s (rg_user g) (subscribe.Id (rg_sub g))
              (types.r_Coupon req) (rg_amount g)) as [c|e]; [|reflexivity].
  simpl.
  change (PaymentFindOne env (renewalViewOfStore s) (types.r_Payment req))
    with (PaymentFindOne env s (types.r_Payment req)).
  destruct (PaymentFindOne env s (types.r_Payment req)) as [pay|e];
    [|reflexivity].
  simpl.
  destruct (renewalFee _ pay) as [[feeAmount total]|e]; reflexivity.
Qed.

Lemma renewalTx_view env p s :
  renewalTx env (renewalViewOfPrepared p) (renewalViewOfStore s)
  = let '(s1, r) := renewalTx env p s in (renewalViewOfStore s1, r).
Proof.
  unfold renewalTx, txSeq, giftWrites, txSkip, UserUpdate, SystemLogCreate,
    OrderCreate. simpl.
  destruct (0 <? order.GiftAmount (pr_order p));
    destruct (failUserUpdate (failing env));
    destruct (failSystemLogCreate (failing env));
    destruct (failOrderCreate (failing env)); reflexivity.
Qed.

(** X8. Renewal does not read who holds the subscription row, nor the
    row's status, expiry, UUID or traffic counters, nor the plan's
    inventory, quota, name or node lists: with all of these cleared in
    the store, the request gets the same response, and the store it
    leaves is the cleared form of the store the original request leaves.
    So a subscription that is expired or held by another user, of a
    plan that is sold out or at its quota, is renewed like any other. *)
Theorem renewal_reads_no_stock_or_owner `{Helpers} (env : Env) (w : World)
    (cu : option user.User) (req : types.RenewalOrderRequest) :
  Renewal env (renewalViewOfWorld w) cu req
  = (renewalViewOfWorld (fst (Renewal env w cu req)),
     snd (Renewal env w cu req)).
Proof.
  unfold Renewal. simpl. rewrite renewalPrepare_view.
  destruct (renewalPrepare env (db w) cu req) as [p|e]; [|reflexivity].
  simpl. unfold Transaction. rewrite renewalTx_view.
  destruct (renewalTx env p (db w)) as [s1 [e|]]; simpl; [reflexivity|].
  unfold deferCloseOrder, Enqueue.
  destruct (failEnqueue (failing env)); reflexivity.
Qed.

(** ** What the order workflows leave alone *)

Lemma purchaseCommitted_frame env p s :
  coupons (purchaseCommitted env p s) = coupons s
  /\ payments (purchaseCommitted env p s) = payments s
  /\ userSubscribes (purchaseCommitted env p s) = userSubscribes s
  /\ (forall uid, uid <> user.Id (pr_user p) ->
        users (purchaseCommitted env p s) !! uid = users s !! uid)
  /\ (forall pid, pid <> subscribe.Id (pr_sub p) ->
        subscribes (purchaseCommitted env p s) !! pid = subscribes s !! pid).
Proof.
  unfold purchaseCommitted.
  destruct (0 <? order.GiftAmount (pr_order p));
    destruct (subscribe.Inventory (pr_sub p) =? -1); simpl;
    repeat split; intros; rewrite ?lookup_insert_ne; auto.
Qed.

Lemma renewalCommitted_frame env p s :
  coupons (renewalCommitted env p s) = coupons s
  /\ payments (renewalCommitted env p s) = payments s
  /\ userSubscribes (renewalCommitted env p s) = userSubscribes s
  /\ (forall uid, uid <> user.Id (pr_user p) ->
        users (renewalCommitted env p s) !! uid = users s !! uid).
Proof.
  unfold renewalCommitted.
  destruct (0 <? order.GiftAmount (pr_order p)); simpl;
    repeat split; intros; rewrite ?lookup_insert_ne; auto.
Qed.

Lemma purchasePrepare_who `{Helpers} env s cu req p :
  purchasePrepare env s cu req = Ok p ->
  exists u plan,
    cu = Some u
    /\ subscribes s !! types.p_SubscribeId req = Some plan
    /\ user.Id (pr_user p) = user.Id u
    /\ pr_sub p = plan.
Proof.
  intros Hp.
  destruct (purchasePrepare_inv _ _ _ _ _ Hp)
    as (g & q & pay & fee & total & Hq & _ & _ & Hu & Hs & _).
  apply purchaseQuote_inv in Hq as (coupon & Hg & _).
  destruct (purchaseGuard_inv _ _ _ _ _ Hg) as (Hcu & _ & _ & Hplan & _).
  exists (g_user g), (g_sub g). rewrite Hu, Hs. auto.
Qed.

Lemma renewalPrepare_who `{Helpers} env s cu req p :
  renewalPrepare env s cu req = Ok p ->
  exists u, cu = Some u /\ user.Id (pr_user p) = user.Id u.
Proof.
  intros Hp.
  destruct (renewalPrepare_inv _ _ _ _ _ Hp)
    as (g & q & pay & fee & total & Hq & _ & Hu & _).
  apply renewalQuote_inv in Hq as (coupon & Hg & _).
  destruct (renewalGuard_inv _ _ _ _ _ Hg) as (Hcu & _).
  exists (rg_user g). rewrite Hu. auto.
Qed.

(** X9. Purchase and Renewal never write a coupon, a payment method or
    a subscription row: in particular the used-count of a coupon is not
    advanced when an order redeems it. Of the user rows only the
    caller's can change, and of the plan rows only the purchased plan's
    (none in Renewal), whether the request succeeds or fails. *)
Theorem order_workflows_frame `{Helpers} (env : Env) (w : World)
    (u : user.User) :
  (forall req,
     coupons (db (fst (Purchase env w (Some u) req))) = coupons (db w)
     /\ payments (db (fst (Purchase env w (Some u) req))) = payments (db w)
     /\ userSubscribes (db (fst (Purchase env w (Some u) req)))
        = userSubscribes (db w)
     /\ (forall uid,
           uid <> user.Id u ->
           users (db (fst (Purchase env w (Some u) req))) !! uid
           = users (db w) !! uid)
     /\ (forall plan pid,
           subscribes (db w) !! types.p_SubscribeId req = Some plan ->
           pid <> subscribe.Id plan ->
           subscribes (db (fst (Purchase env w (Some u) req))) !! pid
           = subscribes (db w) !! pid))
  /\ (forall req,
        coupons (db (fst (Renewal env w (Some u) req))) = coupons (db w)
        /\ payments (db (fst (Renewal env w (Some u) req))) = payments (db w)
        /\ userSubscribes (db (fst (Renewal env w (Some u) req)))
           = userSubscribes (db w)
        /\ subscribes (db (fst (Renewal env w (Some u) req)))
           = subscribes (db w)
        /\ (forall uid,
              uid <> user.Id u ->
              users (db (fst (Renewal env w (Some u) req))) !! uid
              = users (db w) !! uid)).
Proof.
  split; intros req.
  - pose proof (Purchase_outcome env w (Some u) req) as Ho.
    destruct (Purchase env w (Some u) req) as [w1 [resp|e]]; simpl.
    + destruct Ho as (p & Hprep & Hdb & _).
      destruct (purchasePrepare_who _ _ _ _ _ Hprep)
        as (u' & plan & Hcu & Hplan & Hid & Hsub).
      injection Hcu as <-.
      destruct (purchaseCommitted_frame env p (db w))
        as (Hc & Hp & Hus & Hu & Hs).
      rewrite Hdb. repeat split; auto.
      * intros uid Hne. apply Hu. congruence.
      * intros plan' pid Hplan' Hne. apply Hs.
        rewrite Hplan in Hplan'. injection Hplan' as <-. congruence.
    + subst w1. repeat split; reflexivity.
  - pose proof (Renewal_outcome env w (Some u) req) as Ho.
    destruct (Renewal env w (Some u) req) as [w1 [resp|e]]; simpl.
    + destruct Ho as (p & Hprep & Hdb & Hsubs & _).
      destruct (renewalPrepare_who _ _ _ _ _ Hprep) as (u' & Hcu & Hid).
      injection Hcu as <-.
      destruct (renewalCommitted_frame env p (db w)) as (Hc & Hp & Hus & Hu).
      rewrite Hdb in *. repeat split; auto.
      intros uid Hne. apply Hu. congruence.
    + subst w1. repeat split; reflexivity.
Qed.

Lemma order_workflows_frame_witness :
  2 <> user.Id Demo.alice
  /\ users (db (fst (@Purchase SpecPricing.helpers Demo.env (Demo.world 5 true)
                       (Some Demo.alice) (Demo.buy 3 1 "")))) !! 2
     = users (db (Demo.world 5 true)) !! 2.
Proof.
  assert (Hne : 2 <> user.Id Demo.alice) by discriminate.
  split; [exact Hne|].
  destruct (@order_workflows_frame SpecPricing.helpers Demo.env
              (Demo.world 5 true) Demo.alice) as [HP _].
  destruct (HP (Demo.buy 3 1 "")) as (_ & _ & _ & Hu & _).
  exact (Hu 2 Hne).
Defined.

(** ** The gift balance is conserved *)

Lemma quote_gift_conserved gift amount coupon :
  0 <= coupon <= amount -> amount <= MaxOrderAmount ->
  0 <= gift <= Int64.max_int ->
  let q := quote gift amount coupon in
  q_gift q = gift - q_deduction q /\ 0 <= q_deduction q <= gift.
Proof.
  intros Hc Ha Hg. unfold quote, giftDeduct.
  assert (Hsub : Int64.sub amount coupon = amount - coupon).
  { unfold Int64.sub. apply wrap_id, max_order_in_range. lia. }
  rewrite Hsub.
  destruct (Z.ltb_spec 0 gift) as [Hpos|Hzero]; simpl.
  - destruct (Z.leb_spec (amount - coupon) gift) as [Hle|Hgt]; simpl.
    + assert (Hs : Int64.sub gift (amount - coupon) = gift - (amount - coupon)).
      { unfold Int64.sub. apply wrap_id.
        unfold Int64.in_range, Int64.min_int, Int64.max_int in *. lia. }
      rewrite Hs. lia.
    + lia.
  - lia.
Qed.

Lemma users_purchaseCommitted env p s :
  users (purchaseCommitted env p s)
  = if 0 <? order.GiftAmount (pr_order p)
    then <[user.Id (pr_user p) := pr_user p]> (users s)
    else users s.
Proof.
  unfold purchaseCommitted.
  destruct (0 <? order.GiftAmount (pr_order p));
    destruct (subscribe.Inventory (pr_sub p) =? -1); reflexivity.
Qed.

Lemma users_renewalCommitted env p s :
  users (renewalCommitted env p s)
  = if 0 <? order.GiftAmount (pr_order p)
    then <[user.Id (pr_user p) := pr_user p]> (users s)
    else users s.
Proof.
  unfold renewalCommitted.
  destruct (0 <? order.GiftAmount (pr_order p)); reflexivity.
Qed.

Lemma purchasePrepare_gift `{Helpers} env s u req p :
  discountContract -> couponContract -> pricesValid s ->
  0 <= user.GiftAmount u <= Int64.max_int ->
  purchasePrepare env s (Some u) req = Ok p ->
  pr_user p
  = withGiftAmount (user.GiftAmount u - order.GiftAmount (pr_order p)) u
  /\ 0 <= order.GiftAmount (pr_order p) <= user.GiftAmount u.
Proof.
  intros Hd Hc Hv Hgift Hp.
  destruct (purchasePrepare_inv _ _ _ _ _ Hp)
    as (g & q & pay & fee & total & Hq & _ & _ & Hu & _ & Hded & _).
  apply purchaseQuote_inv in Hq as (coupon & Hg & Hcs & Hquote).
  destruct (purchaseGuard_priced _ _ _ _ _ Hd Hv Hg) as [Ha _].
  pose proof (couponStage_bound _ _ _ _ _ _ _ Hc Ha Hcs) as Hcb.
  destruct (purchaseGuard_inv _ _ _ _ _ Hg) as (Hcu & _).
  injection Hcu as Hcu. rewrite <- Hcu in *.
  destruct (quote_gift_conserved (user.GiftAmount u) (g_amount g) coupon Hcb
              ltac:(lia) Hgift) as [Hcons Hrange].
  rewrite <- Hquote in Hcons, Hrange.
  rewrite Hu, Hded, Hcons. auto.
Qed.

Lemma renewalPrepare_gift `{Helpers} env s u req p :
  discountContract -> couponContract -> pricesValid s ->
  0 <= user.GiftAmount u <= Int64.max_int ->
  renewalPrepare env s (Some u) req = Ok p ->
  pr_user p
  = withGiftAmount (user.GiftAmount u - order.GiftAmount (pr_order p)) u
  /\ 0 <= order.GiftAmount (pr_order p) <= user.GiftAmount u.
Proof.
  intros Hd Hc Hv Hgift Hp.
  destruct (renewalPrepare_inv _ _ _ _ _ Hp)
    as (g & q & pay & fee & total & Hq & _ & Hu & _ & Hded & _).
  apply renewalQuote_inv in Hq as (coupon & Hg & Hcs & _ & Hquote).
  destruct (renewalGuard_priced _ _ _ _ _ Hd Hv Hg) as [Ha _].
  pose proof (couponStage_bound _ _ _ _ _ _ _ Hc Ha Hcs) as Hcb.
  destruct (renewalGuard_inv _ _ _ _ _ Hg) as (Hcu & _).
  injection Hcu as Hcu. rewrite <- Hcu in *.
  destruct (quote_gift_conserved (user.GiftAmount u) (rg_amount g) coupon Hcb
              ltac:(lia) Hgift) as [Hcons Hrange].
  rewrite <- Hquote in Hcons, Hrange.
  rewrite Hu, Hded, Hcons. auto.
Qed.

(** X10. With getDiscount returning a multiplier between 0 and 1,
    calculateCoupon returning between 0 and the amount, plans with a
    unit price that is not negative and a list price below 2^61, and a
    caller whose gift balance is not negative: the gift deduction of a stored Purchase or Renewal order is between
    0 and the caller's balance; when it is above 0 the caller's row is
    written with the balance lowered by exactly the deduction, and the
    ledger entry records that deduction and that new balance; when it
    is 0 no user row is written at all. *)
Theorem gift_balance_conserved `{Helpers} (env : Env) (w : World)
    (u : user.User) :
  discountContract -> couponContract -> pricesValid (db w) ->
  0 <= user.GiftAmount u <= Int64.max_int ->
  (forall req,
     match Purchase env w (Some u) req with
     | (w1, Ok _) =>
         exists o,
           orders (db w1) = orders (db w) ++ [o]
           /\ 0 <= order.GiftAmount o <= user.GiftAmount u
           /\ users (db w1)
              = (if 0 <? order.GiftAmount o
                 then <[user.Id u :=
                          withGiftAmount
                            (user.GiftAmount u - order.GiftAmount o) u]>
                        (users (db w))
                 else users (db w))
           /\ systemLogs (db w1)
              = systemLogs (db w)
                ++ (if 0 <? order.GiftAmount o
                    then [giftLog env "Purchase order deduction"
                            (withGiftAmount
                               (user.GiftAmount u - order.GiftAmount o) u) o]
                    else [])
     | (_, Err _) => True
     end)
  /\ (forall req,
        match Renewal env w (Some u) req with
        | (w1, Ok _) =>
            exists o,
              orders (db w1) = orders (db w) ++ [o]
              /\ 0 <= order.GiftAmount o <= user.GiftAmount u
              /\ users (db w1)
                 = (if 0 <? order.GiftAmount o
                    then <[user.Id u :=
                             withGiftAmount
                               (user.GiftAmount u - order.GiftAmount o) u]>
                           (users (db w))
                    else users (db w))
              /\ systemLogs (db w1)
                 = systemLogs (db w)
                   ++ (if 0 <? order.GiftAmount o
                       then [giftLog env "Renewal order deduction"
                               (withGiftAmount
                                  (user.GiftAmount u - order.GiftAmount o) u) o]
                       else [])
        | (_, Err _) => True
        end).
Proof.
  intros Hd Hc Hv Hgift. split; intros req.
  - pose proof (Purchase_outcome env w (Some u) req) as Ho.
    destruct (Purchase env w (Some u) req) as [w1 [resp|e]]; [|exact I].
    destruct Ho as (p & Hprep & Hdb & _).
    destruct (purchasePrepare_gift _ _ _ _ _ Hd Hc Hv Hgift Hprep) as [Hu Hr].
    exists (pr_order p).
    rewrite Hdb, orders_purchaseCommitted, users_purchaseCommitted,
      systemLogs_purchaseCommitted, Hu. simpl. auto.
  - pose proof (Renewal_outcome env w (Some u) req) as Ho.
    destruct (Renewal env w (Some u) req) as [w1 [resp|e]]; [|exact I].
    destruct Ho as (p & Hprep & Hdb & _).
    destruct (renewalPrepare_gift _ _ _ _ _ Hd Hc Hv Hgift Hprep) as [Hu Hr].
    exists (pr_order p).
    rewrite Hdb, orders_renewalCommitted, users_renewalCommitted,
      systemLogs_renewalCommitted, Hu. simpl. auto.
Qed.

Lemma gift_balance_conserved_witness :
  @discountContract SpecPricing.helpers
  /\ @couponContract SpecPricing.helpers
  /\ pricesValid (db (Demo.world 5 true))
  /\ 0 <= user.GiftAmount Demo.alice <= Int64.max_int
  /\ (user.GiftAmount <$>
        users (db (fst (@Purchase SpecPricing.helpers Demo.env
                          (Demo.world 5 true) (Some Demo.alice)
                          (Demo.buy 3 1 "")))) !! 1)
     = Some 2000.
Proof.
  assert (Hg : 0 <= user.GiftAmount Demo.alice <= Int64.max_int)
    by (vm_compute; split; discriminate).
  split; [exact spec_discountContract|].
  split; [exact spec_couponContract|].
  split; [exact (demo_pricesValid 5 true)|].
  split; [exact Hg|].
  destruct (@gift_balance_conserved SpecPricing.helpers Demo.env
              (Demo.world 5 true) Demo.alice spec_discountContract
              spec_couponContract (demo_pricesValid 5 true) Hg) as [HP _].
  specialize (HP (Demo.buy 3 1 "")).
  destruct (@Purchase SpecPricing.helpers Demo.env (Demo.world 5 true)
              (Some Demo.alice) (Demo.buy 3 1 "")) as [w1 [resp|e]] eqn:Hrun;
    [|vm_compute in Hrun; discriminate].
  destruct HP as (o & Hord & _ & Husers & _).
  vm_compute in Hrun. injection Hrun as <- _.
  vm_compute. reflexivity.
Defined.

(** ** Redemptions of a coupon *)

Lemma redemptions_step s s1 o userId code :
  orders s1 = orders s ++ [o] ->
  redemptions s1 userId code
  = redemptions s userId code
    + (if (order.UserId o =? userId) && String.eqb (order.Coupon o) code
       then 1 else 0).
Proof.
  intros Ho. unfold redemptions, couponOrders. rewrite Ho.
  rewrite List.filter_app, length_app. simpl.
  destruct ((order.UserId o =? userId) && String.eqb (order.Coupon o) code);
    simpl; lia.
Qed.

(** X11. The redemption count of a coupon for a user is the number of
    the user's orders that carry the code, whatever their status. A
    Purchase or Renewal request that stores an order raises by one the
    count of the caller for the code of the request, and no other
    count; a request that fails raises none. *)
Theorem redemptions_grow_by_one `{Helpers} (env : Env) (w : World)
    (u : user.User) (userId : Z) (code : string) :
  (forall req,
     redemptions (db (fst (Purchase env w (Some u) req))) userId code
     = redemptions (db w) userId code
       + (if isOk (snd (Purchase env w (Some u) req))
             && (user.Id u =? userId)
             && String.eqb (types.p_Coupon req) code
          then 1 else 0))
  /\ (forall req,
        redemptions (db (fst (Renewal env w (Some u) req))) userId code
        = redemptions (db w) userId code
          + (if isOk (snd (Renewal env w (Some u) req))
                && (user.Id u =? userId)
                && String.eqb (types.r_Coupon req) code
             then 1 else 0)).
Proof.
  split; intros req.
  - pose proof (Purchase_outcome env w (Some u) req) as Ho.
    destruct (Purchase env w (Some u) req) as [w1 [resp|e]]; simpl.
    + destruct Ho as (p & Hprep & Hdb & _).
      destruct (purchasePrepare_record _ _ _ _ _ Hprep)
        as (g & pay & Hg & _ & _ & Hu & _ & _ & _ & _ & _ & Hc & _).
      destruct (purchaseGuard_inv _ _ _ _ _ Hg) as (Hcu & _).
      injection Hcu as Hcu.
      rewrite (redemptions_step (db w) (db w1) (pr_order p));
        [|rewrite Hdb; apply orders_purchaseCommitted].
      rewrite Hu, Hc, <- Hcu. reflexivity.
    + subst w1. lia.
  - pose proof (Renewal_outcome env w (Some u) req) as Ho.
    destruct (Renewal env w (Some u) req) as [w1 [resp|e]]; simpl.
    + destruct Ho as (p & Hprep & Hdb & _).
      destruct (renewalPrepare_record _ _ _ _ _ Hprep)
        as (g & pay & Hg & _ & _ & Hu & _ & _ & _ & _ & _ & Hc & _).
      destruct (renewalGuard_inv _ _ _ _ _ Hg) as (Hcu & _).
      injection Hcu as Hcu.
      rewrite (redemptions_step (db w) (db w1) (pr_order p));
        [|rewrite Hdb; apply orders_renewalCommitted].
      rewrite Hu, Hc, <- Hcu. reflexivity.
    + subst w1. lia.
Qed.

(** A coupon block that let a code through found the coupon and its
    four conditions met. *)
Lemma couponStage_Ok_accepted `{Helpers} env s u planId code amount c :
  code <> "" ->
  couponStage env s u planId code amount = Ok c ->
  exists ci, CouponAccepted s (user.Id u) planId code ci.
Proof.
  intros Hcode Hs. unfold couponStage in Hs.
  apply String.eqb_neq in Hcode. rewrite Hcode in Hs.
  unfold CouponFindOneByCode in Hs.
  destruct (failCouponFindOneByCode (failing env)); [discriminate|].
  destruct (coupons s !! code) as [ci|] eqn:Hci; [|discriminate].
  ok_steps Hs.
  unfold CountCouponOrders in Hstep1.
  destruct (failOrderCount (failing env)); [discriminate|].
  injection Hstep1 as <-.
  exists ci. unfold CouponAccepted. split; [exact Hci|].
  split; [apply remaining_uses_check; exact Hstep|].
  split; [apply applies_check; exact Hstep0|].
  apply Z.leb_gt in Hstep2. exact Hstep2.
Qed.

(** X12. A coupon cannot be used beyond its per-user limit by orders
    placed one after the other: when a Purchase that carries the code
    stores an order and thereby brings the caller's redemptions to the
    coupon's limit, the caller's next Purchase of the same plan with the
    same code that reaches the coupon checks is rejected with
    CouponInsufficientUsage and stores nothing. *)
Theorem coupon_limit_holds_across_orders `{Helpers} (env1 env2 : Env)
    (w w1 : World) (u : user.User) (req1 req2 : types.PurchaseOrderRequest)
    (resp : types.OrderResponse) (ci : coupon.Coupon) (g2 : Guarded) :
  types.p_Coupon req1 <> "" ->
  Purchase env1 w (Some u) req1 = (w1, Ok resp) ->
  coupons (db w) !! types.p_Coupon req1 = Some ci ->
  coupon.UserLimit ci
  <= redemptions (db w) (user.Id u) (types.p_Coupon req1) + 1 ->
  types.p_Coupon req2 = types.p_Coupon req1 ->
  types.p_SubscribeId req2 = types.p_SubscribeId req1 ->
  failCouponFindOneByCode (failing env2) = false ->
  failOrderCount (failing env2) = false ->
  purchaseGuard env2 (db w1) (Some u) req2 = Ok g2 ->
  Purchase env2 w1 (Some u) req2
  = (w1, Err (CodeError xerr.CouponInsufficientUsage)).
Proof.
  intros Hcode Hrun Hci Hlimit Hsame Hplan Hf1 Hf2 Hg2.
  pose proof (Purchase_outcome env1 w (Some u) req1) as Ho.
  rewrite Hrun in Ho. destruct Ho as (p & Hprep & Hdb & _).
  destruct (purchasePrepare_inv _ _ _ _ _ Hprep)
    as (g & q & pay & fee & total & Hq & _).
  apply purchaseQuote_inv in Hq as (coupon & Hg & Hcs & _).
  destruct (purchaseGuard_inv _ _ _ _ _ Hg) as (Hcu & _).
  injection Hcu as Hcu. rewrite <- Hcu in Hcs.
  destruct (couponStage_Ok_accepted _ _ _ _ _ _ _ Hcode Hcs)
    as (ci' & Hci' & Hrem & Happ & _).
  rewrite Hci in Hci'. injection Hci' as <-.
  destruct (purchasePrepare_record _ _ _ _ _ Hprep)
    as (g' & pay' & Hg' & _ & _ & Hu & _ & _ & _ & _ & _ & Hc & _).
  rewrite Hg in Hg'. injection Hg' as <-.
  assert (Hred : redemptions (db w1) (user.Id u) (types.p_Coupon req1)
                 = redemptions (db w) (user.Id u) (types.p_Coupon req1) + 1).
  { rewrite (redemptions_step (db w) (db w1) (pr_order p));
      [|rewrite Hdb; apply orders_purchaseCommitted].
    rewrite Hu, Hc, <- Hcu, Z.eqb_refl, String.eqb_refl. reflexivity. }
  assert (Hcoupons : coupons (db w1) = coupons (db w)).
  { rewrite Hdb. apply purchaseCommitted_frame. }
  destruct (purchaseGuard_inv _ _ _ _ _ Hg2) as (Hcu2 & _).
  injection Hcu2 as Hcu2.
  unfold Purchase, purchasePrepare, purchaseQuote. rewrite Hg2. simpl.
  rewrite (couponStage_violation env2 (db w1) (g_user g2) _ _ _
             xerr.CouponInsufficientUsage Hf1 Hf2);
    [reflexivity | congruence |].
  rewrite Hsame, Hplan, <- Hcu2.
  apply (coupon_user_limit _ _ _ _ ci); try assumption.
  - rewrite Hcoupons. exact Hci.
  - rewrite Hred. lia.
Qed.

Lemma coupon_limit_holds_across_orders_witness :
  let w := Demo.world 5 true in
  let w1 := fst (@Purchase SpecPricing.helpers Demo.env w (Some Demo.bob)
                   (Demo.buy 3 1 "SAVE")) in
  types.p_Coupon (Demo.buy 3 1 "SAVE") <> ""
  /\ @Purchase SpecPricing.helpers Demo.env w (Some Demo.bob)
       (Demo.buy 3 1 "SAVE")
     = (w1, Ok {| types.OrderNo := "202611010001" |})
  /\ coupons (db w) !! types.p_Coupon (Demo.buy 3 1 "SAVE") = Some Demo.save
  /\ coupon.UserLimit Demo.save
     <= redemptions (db w) (user.Id Demo.bob)
          (types.p_Coupon (Demo.buy 3 1 "SAVE")) + 1
  /\ isOk (@purchaseGuard SpecPricing.helpers Demo.env (db w1) (Some Demo.bob)
             (Demo.buy 1 1 "SAVE")) = true
  /\ @Purchase SpecPricing.helpers Demo.env w1 (Some Demo.bob)
       (Demo.buy 1 1 "SAVE")
     = (w1, Err (CodeError xerr.CouponInsufficientUsage)).
Proof.
  intros w w1.
  assert (Hcode : types.p_Coupon (Demo.buy 3 1 "SAVE") <> "") by discriminate.
  assert (Hrun : @Purchase SpecPricing.helpers Demo.env w (Some Demo.bob)
                   (Demo.buy 3 1 "SAVE")
                 = (w1, Ok {| types.OrderNo := "202611010001" |}))
    by (vm_compute; reflexivity).
  assert (Hci : coupons (db w) !! types.p_Coupon (Demo.buy 3 1 "SAVE")
                = Some Demo.save) by (vm_compute; reflexivity).
  assert (Hlim : coupon.UserLimit Demo.save
                 <= redemptions (db w) (user.Id Demo.bob)
                      (types.p_Coupon (Demo.buy 3 1 "SAVE")) + 1)
    by (vm_compute; discriminate).
  split; [exact Hcode|]. split; [exact Hrun|]. split; [exact Hci|].
  split; [exact Hlim|]. split; [vm_compute; reflexivity|].
  destruct (@purchaseGuard SpecPricing.helpers Demo.env (db w1)
              (Some Demo.bob) (Demo.buy 1 1 "SAVE")) as [g2|e] eqn:Hg2;
    [|vm_compute in Hg2; discriminate].
  exact (@coupon_limit_holds_across_orders SpecPricing.helpers Demo.env
           Demo.env w w1 Demo.bob (Demo.buy 3 1 "SAVE") (Demo.buy 1 1 "SAVE")
           {| types.OrderNo := "202611010001" |} Demo.save g2
           Hcode Hrun Hci Hlim eq_refl eq_refl eq_refl eq_refl Hg2).
Defined.

(** * Further properties of the subscribe package *)

(** ** What Handler writes *)

Lemma Handler_outcome `{Helpers} env s req :
  match Handler env s req with
  | (s1, Ok _) =>
      exists userSub,
        getUserSubscribe env (types.Token req) = Ok userSub
        /\ s1 = (if failLogInsert (sfailing env) then s
                 else setSystemLogs
                        (systemLogs s ++ [subscribeLog env userSub req]) s)
  | (s1, Err _) => s1 = s
  end.
Proof.
  unfold Handler.
  destruct (ClientList env) as [clients|e]; [|reflexivity].
  destruct (chooseApp (ToLower (RequestUserAgent env)) clients)
    as [targetApp|e]; [|reflexivity].
  destruct (getUserSubscribe env (types.Token req)) as [userSub|e];
    [|reflexivity].
  destruct (render env s targetApp userSub req) as [out|e]; simpl.
  - exists userSub. split; [reflexivity|].
    unfold logSubscribeActivity, subscribeLog. simpl.
    destruct (failLogInsert (sfailing env)); reflexivity.
  - reflexivity.
Qed.

(** X13. Handler writes to the store only when it answers with a
    configuration, and then only one activity entry at the end of the
    system log, for the user and the id of the subscription the token
    resolved to, with the token and user agent of the request and the
    client address; when the insert of that entry fails the answer is
    still the configuration and the store is left as it was. A request
    that is answered with an error writes nothing. *)
Theorem handler_logs_served_requests `{Helpers} (env : SubscribeEnv)
    (s : Store) (req : types.SubscribeRequest) :
  match Handler env s req with
  | (s1, Ok _) =>
      exists userSub,
        getUserSubscribe env (types.Token req) = Ok userSub
        /\ s1 = (if failLogInsert (sfailing env) then s
                 else setSystemLogs
                        (systemLogs s ++ [subscribeLog env userSub req]) s)
        /\ log.ObjectID (subscribeLog env userSub req)
           = usersubscribe.UserId userSub
        /\ log.Body (subscribeLog env userSub req)
           = log.SubscribeContent
               {| log.Token := types.Token req;
                  log.UserAgent := types.UA req;
                  log.ClientIP := RequestClientIP env;
                  log.UserSubscribeId := usersubscribe.Id userSub |}
  | (s1, Err _) => s1 = s
  end.
Proof.
  pose proof (Handler_outcome env s req) as Ho.
  destruct (Handler env s req) as [s1 [out|e]]; [|exact Ho].
  destruct Ho as (userSub & Hus & Hs1).
  exists userSub. repeat split; assumption.
Qed.

(** * Requests served one after the other *)

Lemma addsOnly_nothing w : addsOnly w w {| addedOrders := []; addedLogs := []; addedTasks := [] |}.
Proof.
  unfold addsOnly. simpl. rewrite !app_nil_r.
  repeat split; auto; try lia; intros; contradiction.
Qed.

Lemma giftLog_entry env remark u o l g :
  (0 <? order.GiftAmount o) = true ->
  In l [giftLog env remark u o] -> log.Body l = log.GiftContent g ->
  log.Type_ g = log.GiftTypeReduce
  /\ 0 < log.Amount g
  /\ exists o', In o' [o]
                /\ order.OrderNo o' = log.OrderNo g
                /\ order.GiftAmount o' = log.Amount g.
Proof.
  intros Hpos [<-|[]] Hbody. simpl in Hbody. injection Hbody as <-. simpl.
  apply Z.ltb_lt in Hpos.
  split; [reflexivity|]. split; [exact Hpos|].
  exists o. simpl. auto.
Qed.

Lemma closeOrderTask_entry `{Helpers} (b : bool) o t :
  In t (if b then [] else [closeOrderTask (order.OrderNo o)]) ->
  exists o', In o' [o] /\ order.OrderNo o' = queue.PayloadOrderNo t.
Proof.
  destruct b; [intros []|]. intros [<-|[]]. exists o. simpl. auto.
Qed.

Lemma Purchase_adds `{Helpers} env w cu req :
  exists a, addsOnly w (fst (Purchase env w cu req)) a.
Proof.
  pose proof (Purchase_outcome env w cu req) as Ho.
  pose proof (Purchase_tasks env w cu req) as Ht.
  destruct (Purchase env w cu req) as [w1 [resp|e]]; simpl in *.
  - destruct Ho as (p & Hprep & Hdb & Hno).
    exists {| addedOrders := [pr_order p];
              addedLogs :=
                if 0 <? order.GiftAmount (pr_order p)
                then [giftLog env "Purchase order deduction" (pr_user p) (pr_order p)]
                else [];
              addedTasks :=
                if failEnqueue (failing env) then []
                else [closeOrderTask (order.OrderNo (pr_order p))] |}.
    unfold addsOnly. simpl.
    rewrite Hdb, orders_purchaseCommitted, systemLogs_purchaseCommitted, Ht, Hno.
    split; [reflexivity|]. split; [reflexivity|].
    split; [destruct (failEnqueue (failing env)); rewrite ?app_nil_r; reflexivity|].
    split; [lia|].
    split; [destruct (0 <? order.GiftAmount (pr_order p)); simpl; lia|].
    split; [destruct (failEnqueue (failing env)); simpl; lia|].
    split; [intros t; apply closeOrderTask_entry|].
    intros l g Hin Hbody.
    destruct (0 <? order.GiftAmount (pr_order p)) eqn:Hpos; [|contradiction].
    eapply giftLog_entry; eauto.
  - subst w1. eexists. apply addsOnly_nothing.
Qed.

Lemma Renewal_adds `{Helpers} env w cu req :
  exists a, addsOnly w (fst (Renewal env w cu req)) a.
Proof.
  pose proof (Renewal_outcome env w cu req) as Ho.
  pose proof (Renewal_tasks env w cu req) as Ht.
  destruct (Renewal env w cu req) as [w1 [resp|e]]; simpl in *.
  - destruct Ho as (p & Hprep & Hdb & _ & Hno).
    exists {| addedOrders := [pr_order p];
              addedLogs :=
                if 0 <? order.GiftAmount (pr_order p)
                then [giftLog env "Renewal order deduction" (pr_user p) (pr_order p)]
                else [];
              addedTasks :=
                if failEnqueue (failing env) then []
                else [closeOrderTask (order.OrderNo (pr_order p))] |}.
    unfold addsOnly. simpl.
    rewrite Hdb, orders_renewalCommitted, systemLogs_renewalCommitted, Ht, Hno.
    split; [reflexivity|]. split; [reflexivity|].
    split; [destruct (failEnqueue (failing env)); rewrite ?app_nil_r; reflexivity|].
    split; [lia|].
    split; [destruct (0 <? order.GiftAmount (pr_order p)); simpl; lia|].
    split; [destruct (failEnqueue (failing env)); simpl; lia|].
    split; [intros t; apply closeOrderTask_entry|].
    intros l g Hin Hbody.
    destruct (0 <? order.GiftAmount (pr_order p)) eqn:Hpos; [|contradiction].
    eapply giftLog_entry; eauto.
  - subst w1. eexists. apply addsOnly_nothing.
Qed.

Lemma Recharge_Err_world `{Helpers} env w cu req w1 e :
  Recharge env w cu req = (w1, Err e) -> w1 = w.
Proof.
  unfold Recharge.
  destruct (rechargePrepare env (db w) cu req) as [[o stages]|e0];
    [|intros [= <- _]; reflexivity].
  destruct (OrderCreate env o (db w)) as [s1 [e1|]] eqn:Hc; [|discriminate].
  intros [= <- _]. apply OrderCreate_fail in Hc. subst s1. apply setDb_same.
Qed.

Lemma Recharge_adds `{Helpers} env w cu req :
  exists a, addsOnly w (fst (Recharge env w cu req)) a.
Proof.
  pose proof (Recharge_tasks env w cu req) as Ht.
  destruct (Recharge env w cu req) as [w1 [resp|e]] eqn:Hr; simpl in *.
  - apply Recharge_Ok_inv in Hr as (o & stages & _ & Hdb & _ & Hno).
    exists {| addedOrders := [o]; addedLogs := [];
              addedTasks :=
                if failEnqueue (failing env) then []
                else [closeOrderTask (order.OrderNo o)] |}.
    unfold addsOnly. simpl. rewrite Hdb, Ht, Hno. simpl.
    rewrite app_nil_r.
    split; [reflexivity|]. split; [reflexivity|].
    split; [destruct (failEnqueue (failing env)); rewrite ?app_nil_r; reflexivity|].
    split; [lia|]. split; [lia|].
    split; [destruct (failEnqueue (failing env)); simpl; lia|].
    split; [intros t; apply closeOrderTask_entry|].
    intros l g [].
  - apply Recharge_Err_world in Hr. subst w1. eexists. apply addsOnly_nothing.
Qed.

Lemma Handler_adds `{Helpers} env w req :
  exists a, addsOnly w (setDb (fst (Handler env (db w) req)) w) a.
Proof.
  pose proof (Handler_outcome env (db w) req) as Ho.
  destruct (Handler env (db w) req) as [s1 [out|e]]; simpl in *.
  - destruct Ho as (userSub & _ & Hs1).
    destruct (failLogInsert (sfailing env)).
    + subst s1. rewrite setDb_same. eexists. apply addsOnly_nothing.
    + exists {| addedOrders := []; addedLogs := [subscribeLog env userSub req];
                addedTasks := [] |}.
      unfold addsOnly. subst s1. simpl. rewrite !app_nil_r.
      split; [reflexivity|]. split; [reflexivity|]. split; [reflexivity|].
      split; [lia|]. split; [lia|]. split; [lia|].
      split; [intros t []|].
      intros l g [<-|[]] Hbody. discriminate Hbody.
  - subst s1. rewrite setDb_same. eexists. apply addsOnly_nothing.
Qed.

Lemma serve_adds `{Helpers} r w : exists a, addsOnly w (serve r w) a.
Proof.
  destruct r as [env cu req|env cu req|env cu req|env req]; simpl.
  - apply Purchase_adds.
  - apply Renewal_adds.
  - apply Recharge_adds.
  - apply Handler_adds.
Qed.

(** X14. Served one after the other, Purchase, Renewal, Recharge and
    subscription requests only ever append: the orders, the system log
    and the task queue that were there stay as a prefix, unchanged and
    in place, so no stored order is rewritten or removed; and the
    requests add at most one order each. *)
Theorem stored_rows_are_only_appended `{Helpers} (rs : list Request) (w : World) :
  exists moreOrders moreLogs moreTasks,
    orders (db (serveAll rs w)) = orders (db w) ++ moreOrders
    /\ systemLogs (db (serveAll rs w)) = systemLogs (db w) ++ moreLogs
    /\ tasks (serveAll rs w) = tasks w ++ moreTasks
    /\ (length moreOrders <= length rs)%nat
    /\ (length moreTasks <= length moreOrders)%nat.
Proof.
  revert w. induction rs as [|r rs IH]; intros w; simpl.
  - exists [], [], []. rewrite !app_nil_r. simpl. repeat split; lia.
  - destruct (serve_adds r w) as (a & Ho & Hl & Ht & Hno & _ & Hnt & Htask & _).
    destruct (IH (serve r w)) as (mo & ml & mt & Ho' & Hl' & Ht' & Hlen & Hlen').
    exists (addedOrders a ++ mo), (addedLogs a ++ ml), (addedTasks a ++ mt).
    rewrite Ho', Hl', Ht', Ho, Hl, Ht, <- !app_assoc.
    split; [reflexivity|]. split; [reflexivity|]. split; [reflexivity|].
    rewrite !length_app. split; [lia|].
    assert (length (addedTasks a) <= length (addedOrders a))%nat; [|lia].
    destruct (addedTasks a) as [|t ts]; [simpl; lia|].
    destruct (Htask t (or_introl eq_refl)) as (o & Hin & _).
    destruct (addedOrders a); [contradiction|]. simpl in *. lia.
Qed.

Lemma serve_tasksNameOrders `{Helpers} r w :
  tasksNameOrders w -> tasksNameOrders (serve r w).
Proof.
  intros Hinv.
  destruct (serve_adds r w) as (a & Ho & _ & Ht & _ & _ & _ & Htask & _).
  intros t Hin. rewrite Ht in Hin. apply in_app_or in Hin as [Hin|Hin].
  - destruct (Hinv t Hin) as (o & Hino & Heq).
    exists o. split; [|exact Heq]. rewrite Ho. apply in_or_app. auto.
  - destruct (Htask t Hin) as (o & Hino & Heq).
    exists o. split; [|exact Heq]. rewrite Ho. apply in_or_app. auto.
Qed.

Lemma serve_ledgerMatchesOrders `{Helpers} r w :
  ledgerMatchesOrders (db w) -> ledgerMatchesOrders (db (serve r w)).
Proof.
  intros Hinv.
  destruct (serve_adds r w) as (a & Ho & Hl & _ & _ & _ & _ & _ & Hlog).
  intros l g Hin Hbody. rewrite Hl in Hin. apply in_app_or in Hin as [Hin|Hin].
  - destruct (Hinv l g Hin Hbody) as (Hty & Hpos & o & Hino & Hn & Ha).
    split; [exact Hty|]. split; [exact Hpos|].
    exists o. rewrite Ho. split; [apply in_or_app; auto | auto].
  - destruct (Hlog l g Hin Hbody) as (Hty & Hpos & o & Hino & Hn & Ha).
    split; [exact Hty|]. split; [exact Hpos|].
    exists o. rewrite Ho. split; [apply in_or_app; auto | auto].
Qed.

(** X15. When every queued close-order task names a stored order, it
    stays so however many requests are served: a task is only enqueued
    for an order whose insert has committed, and orders are never
    removed. *)
Theorem tasks_name_stored_orders `{Helpers} (rs : list Request) (w : World) :
  tasksNameOrders w -> tasksNameOrders (serveAll rs w).
Proof.
  revert w. induction rs as [|r rs IH]; intros w Hinv; simpl; [exact Hinv|].
  apply IH, serve_tasksNameOrders, Hinv.
Qed.

(** X16. When every gift-ledger entry is a deduction above zero that a
    stored order of the same number carries as its gift amount, it
    stays so however many requests are served: a ledger entry is only
    written together with its order, in one transaction. *)
Theorem ledger_matches_stored_orders `{Helpers} (rs : list Request) (w : World) :
  ledgerMatchesOrders (db w) -> ledgerMatchesOrders (db (serveAll rs w)).
Proof.
  revert w. induction rs as [|r rs IH]; intros w Hinv; simpl; [exact Hinv|].
  apply IH, serve_ledgerMatchesOrders, Hinv.
Qed.

Lemma tasksNameOrders_start : tasksNameOrders (Demo.world 5 true).
Proof. intros t []. Qed.

Lemma ledgerMatchesOrders_start : ledgerMatchesOrders (db (Demo.world 5 true)).
Proof. intros l g []. Qed.

Lemma tasks_name_stored_orders_witness :
  tasksNameOrders (Demo.world 5 true)
  /\ tasksNameOrders (@serveAll SpecPricing.helpers demoRequests (Demo.world 5 true))
  /\ (queue.PayloadOrderNo <$>
        tasks (@serveAll SpecPricing.helpers demoRequests (Demo.world 5 true)))
     = ["A1"; "A2"; "A3"; "A4"].
Proof.
  split; [exact tasksNameOrders_start|]. split.
  - exact (@tasks_name_stored_orders SpecPricing.helpers demoRequests
             (Demo.world 5 true) tasksNameOrders_start).
  - vm_compute. reflexivity.
Defined.

Lemma ledger_matches_stored_orders_witness :
  ledgerMatchesOrders (db (Demo.world 5 true))
  /\ ledgerMatchesOrders
       (db (@serveAll SpecPricing.helpers demoRequests (Demo.world 5 true)))
  /\ length (systemLogs
               (db (@serveAll SpecPricing.helpers demoRequests
                      (Demo.world 5 true)))) = 2%nat.
Proof.
  split; [exact ledgerMatchesOrders_start|]. split.
  - exact (@ledger_matches_stored_orders SpecPricing.helpers demoRequests
             (Demo.world 5 true) ledgerMatchesOrders_start).
  - vm_compute. reflexivity.
Defined.

(** ** Stock *)

Lemma withInventory_same p : subscribe.withInventory (subscribe.Inventory p) p = p.
Proof. destruct p; reflexivity. Qed.

Lemma purchasesOf_snoc k l o :
  purchasesOf k (l ++ [o])
  = purchasesOf k l
    + (if (order.Type_ o =? 1) && (order.SubscribeId o =? k) then 1 else 0).
Proof.
  unfold purchasesOf. rewrite List.filter_app, length_app. simpl.
  destruct ((order.Type_ o =? 1) && (order.SubscribeId o =? k)); simpl; lia.
Qed.

Lemma stockMoved_still i : stockMoved i i 0.
Proof. unfold stockMoved. split; [auto | lia]. Qed.

(** A request that leaves the plans alone and stores no purchase order. *)
Lemma stock_untouched w w1 k p :
  subscribes (db w1) = subscribes (db w) ->
  purchasesOf k (orders (db w1)) = purchasesOf k (orders (db w)) ->
  subscribes (db w) !! k = Some p ->
  exists p1,
    subscribes (db w1) !! k = Some p1
    /\ p1 = subscribe.withInventory (subscribe.Inventory p1) p
    /\ stockMoved (subscribe.Inventory p) (subscribe.Inventory p1)
         (purchasesOf k (orders (db w1)) - purchasesOf k (orders (db w))).
Proof.
  intros Hs Ho Hp. exists p. rewrite Hs, Ho, Z.sub_diag.
  split; [exact Hp|]. split; [symmetry; apply withInventory_same|].
  apply stockMoved_still.
Qed.

Lemma Purchase_stock `{Helpers} env w cu req k p :
  plansKeyed (db w) ->
  subscribes (db w) !! k = Some p ->
  plansKeyed (db (fst (Purchase env w cu req)))
  /\ exists p1,
       subscribes (db (fst (Purchase env w cu req))) !! k = Some p1
       /\ p1 = subscribe.withInventory (subscribe.Inventory p1) p
       /\ stockMoved (subscribe.Inventory p) (subscribe.Inventory p1)
            (purchasesOf k (orders (db (fst (Purchase env w cu req))))
             - purchasesOf k (orders (db w))).
Proof.
  intros Hkey Hp.
  pose proof (Purchase_outcome env w cu req) as Ho.
  destruct (Purchase env w cu req) as [w1 [resp|e]]; simpl in *.
  2:{ subst w1. split; [exact Hkey|].
      apply stock_untouched; auto. }
  destruct Ho as (p0 & Hprep & Hdb & _).
  destruct (purchasePrepare_record _ _ _ _ _ Hprep)
    as (g & pay & Hg & _ & _ & _ & Hty & _ & _ & _ & _ & _ & _ & _ & _ & Hsid & _).
  destruct (purchasePrepare_plan _ _ _ _ _ Hprep) as [Hplan Hne].
  pose proof (Hkey _ _ Hplan) as Hid.
  assert (Horders : orders (db w1) = orders (db w) ++ [pr_order p0])
    by (rewrite Hdb; apply orders_purchaseCommitted).
  assert (Hsubs : subscribes (db w1)
                  = if subscribe.Inventory (pr_sub p0) =? -1
                    then subscribes (db w)
                    else <[subscribe.Id (pr_sub p0) :=
                             subscribe.withInventory
                               (Int64.sub (subscribe.Inventory (pr_sub p0)) 1)
                               (pr_sub p0)]> (subscribes (db w)))
    by (rewrite Hdb; apply subscribes_purchaseCommitted).
  rewrite Horders, purchasesOf_snoc, Hty, Hsid, Hsubs, Hid. simpl.
  split.
  - unfold plansKeyed. rewrite Hsubs, Hid.
    destruct (subscribe.Inventory (pr_sub p0) =? -1); [exact Hkey|].
    intros id q Hq.
    destruct (decide (types.p_SubscribeId req = id)) as [<-|Hneq].
    + rewrite lookup_insert_eq in Hq. injection Hq as <-. simpl. exact Hid.
    + rewrite lookup_insert_ne in Hq by exact Hneq. apply (Hkey _ _ Hq).
  - destruct (Z.eqb_spec (types.p_SubscribeId req) k) as [Heq|Hneq].
    + subst k. rewrite Hplan in Hp. injection Hp as <-.
      destruct (Z.eqb_spec (subscribe.Inventory (pr_sub p0)) (-1)) as [Hu|Hc].
      * exists (pr_sub p0). split; [exact Hplan|].
        split; [symmetry; apply withInventory_same|].
        unfold stockMoved. split; [auto | lia].
      * exists (subscribe.withInventory
                  (Int64.sub (subscribe.Inventory (pr_sub p0)) 1) (pr_sub p0)).
        rewrite lookup_insert_eq. split; [reflexivity|].
        split; [reflexivity|]. simpl.
        unfold stockMoved. split; [intros; contradiction|].
        intros Hrange.
        assert (Hw : Int64.sub (subscribe.Inventory (pr_sub p0)) 1
                     = subscribe.Inventory (pr_sub p0) - 1).
        { unfold Int64.sub. apply wrap_id.
          unfold Int64.in_range, Int64.min_int, Int64.max_int in *. lia. }
        rewrite Hw. lia.
    + exists p.
      assert (Hk : (if subscribe.Inventory (pr_sub p0) =? -1
                    then subscribes (db w)
                    else <[types.p_SubscribeId req :=
                             subscribe.withInventory
                               (Int64.sub (subscribe.Inventory (pr_sub p0)) 1)
                               (pr_sub p0)]> (subscribes (db w))) !! k
                   = Some p).
      { destruct (subscribe.Inventory (pr_sub p0) =? -1); [exact Hp|].
        rewrite lookup_insert_ne by exact Hneq. exact Hp. }
      split; [exact Hk|]. split; [symmetry; apply withInventory_same|].
      replace (purchasesOf k (orders (db w)) + 0 - purchasesOf k (orders (db w)))
        with 0 by lia.
      apply stockMoved_still.
Qed.

Lemma Renewal_stock `{Helpers} env w cu req k :
  subscribes (db (fst (Renewal env w cu req))) = subscribes (db w)
  /\ purchasesOf k (orders (db (fst (Renewal env w cu req))))
     = purchasesOf k (orders (db w)).
Proof.
  pose proof (Renewal_outcome env w cu req) as Ho.
  destruct (Renewal env w cu req) as [w1 [resp|e]]; simpl in *.
  - destruct Ho as (p & Hprep & Hdb & Hs & _).
    split; [exact Hs|].
    destruct (renewalPrepare_record _ _ _ _ _ Hprep)
      as (g & pay & _ & _ & _ & _ & Hty & _).
    rewrite Hdb, orders_renewalCommitted, purchasesOf_snoc, Hty. simpl. lia.
  - subst w1. auto.
Qed.

Lemma Recharge_stock `{Helpers} env w cu req k :
  subscribes (db (fst (Recharge env w cu req))) = subscribes (db w)
  /\ purchasesOf k (orders (db (fst (Recharge env w cu req))))
     = purchasesOf k (orders (db w)).
Proof.
  destruct (Recharge env w cu req) as [w1 [resp|e]] eqn:Hr; simpl.
  - apply Recharge_Ok_inv in Hr as (o & stages & Hprep & Hdb & _).
    apply rechargePrepare_inv in Hprep as (u & pay & _ & _ & _ & Ho & _).
    rewrite Hdb. simpl. split; [reflexivity|].
    rewrite purchasesOf_snoc. subst o. simpl. lia.
  - apply Recharge_Err_world in Hr. subst w1. auto.
Qed.

Lemma Handler_stock `{Helpers} env w req k :
  subscribes (db (setDb (fst (Handler env (db w) req)) w)) = subscribes (db w)
  /\ purchasesOf k (orders (db (setDb (fst (Handler env (db w) req)) w)))
     = purchasesOf k (orders (db w)).
Proof.
  pose proof (Handler_outcome env (db w) req) as Ho.
  destruct (Handler env (db w) req) as [s1 [out|e]]; simpl in *.
  - destruct Ho as (userSub & _ & ->).
    destruct (failLogInsert (sfailing env)); auto.
  - subst s1. auto.
Qed.

Lemma serve_stock `{Helpers} r w k p :
  plansKeyed (db w) ->
  subscribes (db w) !! k = Some p ->
  plansKeyed (db (serve r w))
  /\ exists p1,
       subscribes (db (serve r w)) !! k = Some p1
       /\ p1 = subscribe.withInventory (subscribe.Inventory p1) p
       /\ stockMoved (subscribe.Inventory p) (subscribe.Inventory p1)
            (purchasesOf k (orders (db (serve r w)))
             - purchasesOf k (orders (db w))).
Proof.
  intros Hkey Hp.
  destruct r as [env cu req|env cu req|env cu req|env req]; cbn [serve].
  - apply Purchase_stock; assumption.
  - destruct (Renewal_stock env w cu req k) as [Hs Ho].
    split; [unfold plansKeyed; rewrite Hs; exact Hkey|].
    apply stock_untouched; assumption.
  - destruct (Recharge_stock env w cu req k) as [Hs Ho].
    split; [unfold plansKeyed; rewrite Hs; exact Hkey|].
    apply stock_untouched; assumption.
  - destruct (Handler_stock env w req k) as [Hs Ho].
    split; [unfold plansKeyed; rewrite Hs; exact Hkey|].
    apply stock_untouched; assumption.
Qed.

Lemma stockMoved_trans i i1 i2 d1 d2 :
  stockMoved i i1 d1 -> stockMoved i1 i2 d2 -> stockMoved i i2 (d1 + d2).
Proof.
  unfold stockMoved. intros [Hu1 Hc1] [Hu2 Hc2]. split.
  - auto.
  - intros Hr. destruct (Hc1 Hr) as [-> Hb]. destruct Hc2 as [-> Hb2]; lia.
Qed.

(** X17. Stock is conserved over requests served one after the other,
    in a store whose plan rows sit under their own ids. A plan keeps
    all its fields but the inventory. An unlimited plan (inventory -1)
    stays unlimited. A plan with inventory N >= 0 ends with N minus the
    number of purchase orders stored for it in between, and never below
    zero: no more purchase orders are stored for a plan than it had in
    stock, and renewals, recharges and subscription fetches take none. *)
Theorem stock_is_conserved `{Helpers} (rs : list Request) (w : World)
    (k : Z) (p : subscribe.Subscribe) :
  plansKeyed (db w) ->
  subscribes (db w) !! k = Some p ->
  exists p1,
    subscribes (db (serveAll rs w)) !! k = Some p1
    /\ p1 = subscribe.withInventory (subscribe.Inventory p1) p
    /\ stockMoved (subscribe.Inventory p) (subscribe.Inventory p1)
         (purchasesOf k (orders (db (serveAll rs w)))
          - purchasesOf k (orders (db w))).
Proof.
  revert w p. induction rs as [|r rs IH]; intros w p Hkey Hp; simpl.
  - exists p. split; [exact Hp|]. split; [symmetry; apply withInventory_same|].
    rewrite Z.sub_diag. apply stockMoved_still.
  - destruct (serve_stock r w k p Hkey Hp) as (Hkey1 & p1 & Hp1 & Heq1 & Hm1).
    destruct (IH (serve r w) p1 Hkey1 Hp1) as (p2 & Hp2 & Heq2 & Hm2).
    exists p2. split; [exact Hp2|]. split.
    + rewrite Heq2, Heq1. destruct p; reflexivity.
    + replace (purchasesOf k (orders (db (serveAll rs (serve r w))))
               - purchasesOf k (orders (db w)))
        with ((purchasesOf k (orders (db (serve r w)))
               - purchasesOf k (orders (db w)))
              + (purchasesOf k (orders (db (serveAll rs (serve r w))))
                 - purchasesOf k (orders (db (serve r w))))) by lia.
      eapply stockMoved_trans; eauto.
Qed.

Lemma demo_plansKeyed inventory sell : plansKeyed (Demo.store inventory sell).
Proof.
  intros id p Hl. simpl in Hl.
  apply lookup_singleton_Some in Hl as [<- <-]. reflexivity.
Qed.

Lemma stock_is_conserved_witness :
  plansKeyed (db (Demo.world 5 true))
  /\ subscribes (db (Demo.world 5 true)) !! 1 = Some (Demo.plan 5 true)
  /\ exists p1,
       subscribes (db (@serveAll SpecPricing.helpers demoRequests
                         (Demo.world 5 true))) !! 1 = Some p1
       /\ p1 = subscribe.withInventory (subscribe.Inventory p1)
                 (Demo.plan 5 true)
       /\ stockMoved (subscribe.Inventory (Demo.plan 5 true))
            (subscribe.Inventory p1)
            (purchasesOf 1
               (orders (db (@serveAll SpecPricing.helpers demoRequests
                              (Demo.world 5 true))))
             - purchasesOf 1 (orders (db (Demo.world 5 true)))).
Proof.
  split; [exact (demo_plansKeyed 5 true)|].
  split; [vm_compute; reflexivity|].
  apply (@stock_is_conserved SpecPricing.helpers demoRequests
           (Demo.world 5 true) 1 (Demo.plan 5 true)).
  - exact (demo_plansKeyed 5 true).
  - vm_compute. reflexivity.
Defined.

(** The run of the witness sells two of five. *)
Lemma demo_run_sells_two :
  subscribe.Inventory
    <$> subscribes (db (@serveAll SpecPricing.helpers demoRequests
                          (Demo.world 5 true))) !! 1 = Some 3
  /\ purchasesOf 1
       (orders (db (@serveAll SpecPricing.helpers demoRequests
                      (Demo.world 5 true)))) = 2.
Proof. split; vm_compute; reflexivity. Qed.

(** *** The client loop of Handler *)

Lemma last_cons_from {A} (x : A) (l : list A) (d : option A) :
  from_option Some d (last (x :: l)) = from_option Some (Some x) (last l).
Proof.
  destruct l as [|y l]; [reflexivity|].
  change (last (x :: y :: l)) with (last (y :: l)).
  destruct (last (y :: l)) eqn:E; [reflexivity|].
  apply last_None in E. discriminate E.
Qed.

Lemma selectApp_spec `{Helpers} userAgent clients defaultApp :
  fst (selectApp userAgent clients defaultApp)
  = List.find (answers userAgent) clients
  /\ (List.find (answers userAgent) clients = None ->
      snd (selectApp userAgent clients defaultApp)
      = from_option Some defaultApp (lastDefault clients)).
Proof.
  revert defaultApp. induction clients as [|item rest IH]; intros defaultApp.
  - split; reflexivity.
  - assert (Hd : from_option Some defaultApp (lastDefault (item :: rest))
                 = from_option Some
                     (if client.IsDefault item then Some item else defaultApp)
                     (lastDefault rest)).
    { unfold lastDefault. simpl.
      destruct (client.IsDefault item); [apply last_cons_from|reflexivity]. }
    rewrite Hd. simpl. unfold answers at 1 3. cbv zeta.
    destruct (stringsContains userAgent (ToLower (client.UserAgent item)));
      simpl; [|apply IH].
    destruct (stringsContains userAgent "stash"
              && negb (stringsContains (ToLower (client.UserAgent item)) "stash"));
      simpl; [apply IH|].
    split; [reflexivity|discriminate].
Qed.

(** X18. The client loop of Handler picks the first client, in list
    order, that answers the request's user agent (its lowercased user
    agent occurs in the request's; a request naming Stash is answered by
    Stash clients only). When no client answers, the last client flagged
    as default is taken; when there is none either, the request fails
    with code ERROR. *)
Theorem client_selection `{Helpers} (userAgent : string)
    (clients : list client.SubscribeApplication) :
  chooseApp userAgent clients
  = match List.find (answers userAgent) clients with
    | Some targetApp => Ok targetApp
    | None =>
        match lastDefault clients with
        | Some defaultApp => Ok defaultApp
        | None => Err (CodeError xerr.ERROR)
        end
    end.
Proof.
  unfold chooseApp.
  destruct (selectApp_spec userAgent clients None) as [Hfst Hsnd].
  destruct (selectApp userAgent clients None) as [t d]. simpl in *.
  rewrite <- Hfst. destruct t as [t|]; [reflexivity|].
  rewrite (Hsnd (eq_sym Hfst)). destruct (lastDefault clients); reflexivity.
Qed.

(** *** First lines *)

Lemma stringsSplit_first s sep :
  exists h tl,
    stringsSplit s sep = h :: tl
    /\ stringsContains h (String sep EmptyString) = false
    /\ (s = h \/ exists rest, s = h +:+ String sep rest).
Proof.
  induction s as [|a t (h & tl & Hsplit & Hno & Hshape)].
  - exists EmptyString, []. split; [reflexivity|]. split; [reflexivity|].
    left. reflexivity.
  - simpl. destruct (Ascii.eqb a sep) eqn:Ha.
    + apply Ascii.eqb_eq in Ha. subst a.
      exists EmptyString, (stringsSplit t sep).
      split; [reflexivity|]. split; [reflexivity|].
      right. exists t. reflexivity.
    + apply Ascii.eqb_neq in Ha. rewrite Hsplit.
      exists (String a h), tl. split; [reflexivity|]. split.
      * simpl. destruct (Ascii.ascii_dec sep a) as [->|_]; [congruence|].
        simpl. simpl in Hno. exact Hno.
      * destruct Hshape as [->|(rest & ->)]; [left; reflexivity|].
        right. exists rest. reflexivity.
Qed.

(** X19. getFirstHostLine returns the configured host up to its first
    line break: the result holds no line break, and the host is either
    that result itself or continues after it with a line break. The
    fallback to the whole host is never taken, since a split is never
    empty. *)
Theorem first_host_line (env : SubscribeEnv) :
  stringsContains (getFirstHostLine env) (String newline EmptyString) = false
  /\ (ConfigHost env = getFirstHostLine env
      \/ exists rest,
           ConfigHost env = getFirstHostLine env +:+ String newline rest).
Proof.
  unfold getFirstHostLine.
  destruct (stringsSplit_first (ConfigHost env) newline)
    as (h & tl & -> & Hno & Hshape).
  simpl. replace (0 <? Z.pos (Pos.of_succ_nat (length tl))) with true
    by (symmetry; apply Z.ltb_lt; lia).
  split; assumption.
Qed.

(** X20. The subscription URL handed to the adapter is https, then a
    host, then /sub in gateway mode, then the request URI. The host is
    the request's own when no subscribe domain is configured; otherwise
    it is the first line of the configured domains, whatever the request
    host is. *)
Theorem subscribe_url (env : SubscribeEnv) :
  exists host,
    getSubscribeV2URL env
    = "https://" +:+ host
        +:+ (if IsGatewayMode env then "/sub" else "") +:+ RequestURI env
    /\ ((ConfigSubscribeDomain env = "" /\ host = RequestHost env)
        \/ (ConfigSubscribeDomain env <> ""
            /\ stringsContains host (String newline EmptyString) = false
            /\ (ConfigSubscribeDomain env = host
                \/ exists rest,
                     ConfigSubscribeDomain env
                     = host +:+ String newline rest))).
Proof.
  unfold getSubscribeV2URL.
  destruct (String.eqb (ConfigSubscribeDomain env) "") eqn:E; simpl.
  - apply String.eqb_eq in E. exists (RequestHost env).
    split; [destruct (IsGatewayMode env); reflexivity|].
    left. split; [exact E|reflexivity].
  - apply String.eqb_neq in E.
    destruct (stringsSplit_first (ConfigSubscribeDomain env) newline)
      as (h & tl & Hsplit & Hno & Hshape).
    exists h. rewrite Hsplit. simpl.
    split; [destruct (IsGatewayMode env); reflexivity|].
    right. split; [exact E|]. split; assumption.
Qed.

(** *** Failures of Handler *)

Lemma findSubscribe_coded fails s id e :
  wrapCode xerr.DatabaseQueryError (findSubscribe fails s id) = Err e ->
  e = CodeError xerr.DatabaseQueryError.
Proof.
  unfold findSubscribe. destruct fails; simpl; [congruence|].
  destruct (subscribes s !! id); simpl; congruence.
Qed.

Lemma getServers_coded `{Helpers} env s userSub e :
  getServers env s userSub = Err e -> e = CodeError xerr.DatabaseQueryError.
Proof.
  unfold getServers. destruct (isSubscriptionExpired env userSub); [discriminate|].
  destruct (wrapCode xerr.DatabaseQueryError
              (findSubscribe (failSubscribeDetails (sfailing env)) s
                 (usersubscribe.SubscribeId userSub))) as [subDetails|e0] eqn:Hf;
    simpl.
  - destruct ((Z.of_nat (length (StringToInt64Slice (subscribe.Nodes subDetails)))
               =? 0)
              && (Z.of_nat
                    (length
                       (RemoveStringElement
                          (stringsSplit (subscribe.NodeTags subDetails) comma) ""))
                  =? 0)); [discriminate|].
    destruct (FilterNodeList env _ _); simpl; congruence.
  - intros [= <-]. eapply findSubscribe_coded; exact Hf.
Qed.

Lemma render_coded `{Helpers} env s targetApp userSubscribe req e :
  render env s targetApp userSubscribe req = Err e ->
  e = CodeError xerr.DatabaseQueryError \/ e = CodeError xerr.Code500.
Proof.
  unfold render.
  destruct (wrapCode xerr.DatabaseQueryError
              (findSubscribe (failSubscribeInfo (sfailing env)) s
                 (usersubscribe.SubscribeId userSubscribe)))
    as [subscribeInfo|e0] eqn:Hf; simpl.
  - destruct (getServers env s userSubscribe) as [servers|e1] eqn:Hg; simpl.
    + destruct (Client _) as [c|]; [|intros [= <-]; right; reflexivity].
      destruct (Build c); [discriminate|intros [= <-]; right; reflexivity].
    + intros [= <-]. left. eapply getServers_coded; exact Hg.
  - intros [= <-]. left. eapply findSubscribe_coded; exact Hf.
Qed.

(** X21. Every failure of Handler leaves the store as it was and is one
    of five: the client list's own error, handed on as it is; code ERROR
    when no client answers the user agent and none is a default; the
    uncoded error "subscribe token invalid" when the token resolves to
    no row; code DatabaseQueryError for a failed read (token, plan or
    nodes); code 500 when the adapter fails. The client is chosen before
    the token is looked at. *)
Theorem handler_failures `{Helpers} (env : SubscribeEnv) (s s1 : Store)
    (req : types.SubscribeRequest) (e : Error) :
  Handler env s req = (s1, Err e) ->
  s1 = s
  /\ (ClientList env = Err e
      \/ exists clients,
           ClientList env = Ok clients
           /\ ((e = CodeError xerr.ERROR
                /\ List.find (answers (ToLower (RequestUserAgent env))) clients
                   = None
                /\ lastDefault clients = None)
               \/ (isOk (chooseApp (ToLower (RequestUserAgent env)) clients)
                   = true
                   /\ ((e = ErrorString "subscribe token invalid"
                        /\ FindOneSubscribeByToken env (types.Token req)
                           = Ok None)
                       \/ e = CodeError xerr.DatabaseQueryError
                       \/ e = CodeError xerr.Code500)))).
Proof.
  intros Hh.
  pose proof (Handler_outcome env s req) as Ho. rewrite Hh in Ho.
  split; [exact Ho|]. clear Ho. unfold Handler in Hh.
  destruct (ClientList env) as [clients|e0];
    [|injection Hh as _ <-; left; reflexivity].
  right. exists clients. split; [reflexivity|].
  pose proof (selectApp_spec (ToLower (RequestUserAgent env)) clients None)
    as [Hfst Hsnd].
  unfold chooseApp in *.
  destruct (selectApp (ToLower (RequestUserAgent env)) clients None)
    as [[t|] [d|]] eqn:Hsel; simpl in *.
  4: { injection Hh as _ <-. left. split; [reflexivity|].
       split; [symmetry; exact Hfst|].
       specialize (Hsnd (eq_sym Hfst)).
       destruct (lastDefault clients); [discriminate Hsnd|reflexivity]. }
  all: right; split; [reflexivity|];
    unfold getUserSubscribe in Hh;
    destruct (FindOneSubscribeByToken env (types.Token req)) as [[userSub|]|e1];
    [ injection Hh as _ Hr; right; eapply render_coded; exact Hr
    | injection Hh as _ <-; left; split; reflexivity
    | injection Hh as _ <-; right; left; reflexivity ].
Qed.

Lemma handler_failures_witness :
  let req := {| types.Token := "gone"; types.UA := "Clash/1.0";
                types.Params := [] |} in
  @Handler SpecPricing.helpers Demo.subscribeEnv (Demo.store 5 true) req
  = (Demo.store 5 true, Err (ErrorString "subscribe token invalid"))
  /\ FindOneSubscribeByToken Demo.subscribeEnv (types.Token req) = Ok None.
Proof.
  intros req.
  assert (Hh : @Handler SpecPricing.helpers Demo.subscribeEnv
                 (Demo.store 5 true) req
               = (Demo.store 5 true, Err (ErrorString "subscribe token invalid")))
    by (vm_compute; reflexivity).
  split; [exact Hh|].
  destruct (@handler_failures SpecPricing.helpers _ _ _ _ _ Hh)
    as [_ [Hc|(clients & _ & [(He & _)|(_ & [(_ & Hf)|[He|He]])])]].
  - discriminate Hc.
  - discriminate He.
  - exact Hf.
  - discriminate He.
  - discriminate He.
Defined.

(** *** What Handler does not look at *)

(** X22. The status of the subscription row plays no part in Handler:
    with the status of the row the token resolves to replaced by any
    other, the answer and the store written are the same. A
    subscription of any status is served. *)
Theorem status_is_ignored `{Helpers} (env : SubscribeEnv) (status : Z)
    (s : Store) (req : types.SubscribeRequest) :
  Handler (withRowStatus status env) s req = Handler env s req.
Proof.
  unfold Handler. change (ClientList (withRowStatus status env))
    with (ClientList env).
  destruct (ClientList env) as [clients|e]; [|reflexivity].
  change (RequestUserAgent (withRowStatus status env))
    with (RequestUserAgent env).
  destruct (chooseApp (ToLower (RequestUserAgent env)) clients)
    as [targetApp|e]; [|reflexivity].
  unfold getUserSubscribe.
  change (FindOneSubscribeByToken (withRowStatus status env) (types.Token req))
    with (match FindOneSubscribeByToken env (types.Token req) with
          | Ok (Some userSub) => Ok (Some (withStatus status userSub))
          | other => other
          end).
  destruct (FindOneSubscribeByToken env (types.Token req)) as [[userSub|]|e];
    reflexivity.
Qed.

(** *** Download headers *)

(** X23. Handler sets the two download headers exactly when the
    client's output format, lowercased, is json, yaml or conf, and sets
    them once: the file name is the escaped site name with that format
    as its extension. For any other format no header is set. *)
Theorem download_headers `{Helpers} (env : SubscribeEnv)
    (targetApp : client.SubscribeApplication) :
  formatHeaders env targetApp
  = if existsb (String.eqb (ToLower (client.OutputFormat targetApp)))
         fileFormats
    then [ ("content-disposition",
            "attachment;filename*=UTF-8''" +:+ QueryEscape (ConfigSiteName env)
              +:+ "." +:+ ToLower (client.OutputFormat targetApp));
           ("Content-Type", "application/octet-stream; charset=UTF-8") ]
    else [].
Proof.
  unfold formatHeaders, fileFormats. cbn [flat_map existsb].
  rewrite !(String.eqb_sym (ToLower (client.OutputFormat targetApp))).
  destruct (String.eqb "json" (ToLower (client.OutputFormat targetApp))) eqn:E1.
  { apply String.eqb_eq in E1. rewrite <- E1. reflexivity. }
  destruct (String.eqb "yaml" (ToLower (client.OutputFormat targetApp))) eqn:E2.
  { apply String.eqb_eq in E2. rewrite <- E2. reflexivity. }
  destruct (String.eqb "conf" (ToLower (client.OutputFormat targetApp))) eqn:E3.
  { apply String.eqb_eq in E3. rewrite <- E3. reflexivity. }
  reflexivity.
Qed.

(** *** Servers of a live subscription *)

(** X24. For a subscription that is not expired (its expire time is 0,
    or not before the clock) getServers builds no placeholder: it reads
    the plan and answers with the empty list when the plan names no node
    id and no tag, and otherwise with what the node model returns for
    the plan's node ids and its tags without empty entries and
    duplicates. Its only failure is code DatabaseQueryError. *)
Theorem live_subscription_servers `{Helpers} (env : SubscribeEnv) (s : Store)
    (userSub : usersubscribe.Subscribe) :
  usersubscribe.ExpireTime userSub = 0
  \/ snow env <= usersubscribe.ExpireTime userSub ->
  match getServers env s userSub with
  | Ok nodes =>
      exists subDetails,
        subscribes s !! usersubscribe.SubscribeId userSub = Some subDetails
        /\ let nodeIds := StringToInt64Slice (subscribe.Nodes subDetails) in
           let tags := RemoveStringElement
                         (stringsSplit (subscribe.NodeTags subDetails) comma)
                         "" in
           (nodeIds = [] /\ tags = [] /\ nodes = [])
           \/ ((nodeIds <> [] \/ tags <> [])
               /\ FilterNodeList env nodeIds (RemoveDuplicateElements tags)
                  = Ok nodes)
  | Err e => e = CodeError xerr.DatabaseQueryError
  end.
Proof.
  intros Hlive.
  destruct (getServers env s userSub) as [nodes|e] eqn:Hg;
    [|eapply getServers_coded; exact Hg].
  unfold getServers in Hg.
  destruct (isSubscriptionExpired env userSub) eqn:Hexp.
  { apply isSubscriptionExpired_spec in Hexp. lia. }
  unfold findSubscribe in Hg.
  destruct (failSubscribeDetails (sfailing env)); [discriminate Hg|].
  destruct (subscribes s !! usersubscribe.SubscribeId userSub)
    as [subDetails|]; [|discriminate Hg].
  simpl in Hg. exists subDetails. split; [reflexivity|]. cbv zeta.
  destruct (StringToInt64Slice (subscribe.Nodes subDetails)) as [|i ids].
  - destruct (RemoveStringElement
                (stringsSplit (subscribe.NodeTags subDetails) comma) "")
      as [|t ts]; simpl in Hg.
    + left. injection Hg as <-. auto.
    + right. split; [right; discriminate|].
      destruct (FilterNodeList env [] _); simpl in Hg; congruence.
  - right. split; [left; discriminate|].
    replace (Z.of_nat (length (i :: ids)) =? 0) with false in Hg
      by (symmetry; apply Z.eqb_neq; simpl; lia).
    simpl in Hg.
    destruct (FilterNodeList env (i :: ids) _); simpl in Hg; congruence.
Qed.

Lemma live_subscription_servers_witness :
  (usersubscribe.ExpireTime demoLive = 0
   \/ snow Demo.subscribeEnv <= usersubscribe.ExpireTime demoLive)
  /\ match @getServers SpecPricing.helpers Demo.subscribeEnv
             (Demo.store 5 true) demoLive with
     | Ok nodes =>
         exists subDetails,
           subscribes (Demo.store 5 true)
             !! usersubscribe.SubscribeId demoLive = Some subDetails
           /\ let nodeIds := @StringToInt64Slice SpecPricing.helpers
                               (subscribe.Nodes subDetails) in
              let tags := @RemoveStringElement SpecPricing.helpers
                            (stringsSplit (subscribe.NodeTags subDetails) comma)
                            "" in
              (nodeIds = [] /\ tags = [] /\ nodes = [])
              \/ ((nodeIds <> [] \/ tags <> [])
                  /\ FilterNodeList Demo.subscribeEnv nodeIds
                       (@RemoveDuplicateElements SpecPricing.helpers tags)
                     = Ok nodes)
     | Err e => e = CodeError xerr.DatabaseQueryError
     end.
Proof.
  assert (Hlive : usersubscribe.ExpireTime demoLive = 0
                  \/ snow Demo.subscribeEnv <= usersubscribe.ExpireTime demoLive)
    by (left; reflexivity).
  split; [exact Hlive|].
  exact (@live_subscription_servers SpecPricing.helpers Demo.subscribeEnv
           (Demo.store 5 true) demoLive Hlive).
Defined.
